(** * Contract_Analyzer: the rule-based analysis core

    A shallow embedding of [modules/nlp_engine.py] (class [LegalNLPEngine])
    and [modules/risk_analyzer.py] (class [RiskAnalyzer]), together with the
    part of Python's [re] module these two files rely on; then of
    [modules/parser.py] (class [ContractParser]), of the request and
    answer handling of [modules/llm_assistant.py] and of the steps of
    [app.py] that join the modules.  Files, PDF and Word libraries and the
    network are inputs of the model: what each call returns or raises.

    - A Python [str] is a sequence of Unicode code points: [list N].
    - [re] is embedded as a backtracking matcher in continuation-passing
      style (leftmost-first alternation, greedy quantifiers), with the
      scanning loop of [finditer]/[findall]/[search]/[split].
    - Python [dict]s whose keys the callers look up by name are [gmap]s
      keyed by [string]; the pattern catalogs, whose iteration order
      matters, are association lists in declaration order.
    - Python [int]s are [Z].

    Character classification ([str.lower], [str.strip], [\s], [\d], [\w],
    matching under [(?i)]) follows CPython 3.11 with its Unicode database
    (Unicode 14.0) on every code point.  The members of a character set
    are taken within the Basic Multilingual Plane, as they are in every
    pattern of the program. *)

From Stdlib Require Import ZArith NArith Lia Bool Ascii Sorted DecimalString.
From stdpp Require Import gmap strings list fin_maps.

Open Scope string_scope.
Open Scope list_scope.
Open Scope nat_scope.

(* ===================================================================== *)
(** ** Text *)
(* ===================================================================== *)

Abbreviation text := (list N).

(** Code points of an ASCII/Latin-1 literal. *)
Fixpoint str (s : string) : text :=
  match s with
  | EmptyString => []
  | String a s' => N_of_ascii a :: str s'
  end.

Module Chars.

Definition in_range (lo hi c : N) : bool := (lo <=? c)%N && (c <=? hi)%N.

(** Membership in a table of ranges, and lookup in a table of pairs. *)
Definition in_ranges (table : list (N * N)) (c : N) : bool :=
  existsb (fun r => in_range (fst r) (snd r) c) table.

Fixpoint assoc {A : Type} (c : N) (table : list (N * A)) : option A :=
  match table with
  | [] => None
  | (k, v) :: table' => if (c =? k)%N then Some v else assoc c table'
  end.

(** The code points [lo .. hi]. *)
Definition N_range (lo hi : N) : list N :=
  map (fun i => (lo + N.of_nat i)%N) (seq 0 (N.to_nat (hi + 1 - lo))).

(** *** Tables of the Unicode database

    The tables are those of CPython 3.11 (Unicode 14.0).  Each holds the
    code points above U+00FF; up to U+00FF the functions below spell the
    ranges out. *)

(** The zero of every run of ten decimal digits; the mathematical digits
    U+1D7CE..U+1D7FF form one run of fifty. *)
Definition decimal_zeros : list N :=
  [1632; 1776; 1984; 2406; 2534; 2662; 2790; 2918; 3046; 3174; 3302; 3430;
   3558; 3664; 3792; 3872; 4160; 4240; 6112; 6160; 6470; 6608; 6784; 6800;
   6992; 7088; 7232; 7248; 42528; 43216; 43264; 43472; 43504; 43600; 44016;
   65296; 66720; 68912; 69734; 69872; 69942; 70096; 70384; 70736; 70864;
   71248; 71360; 71472; 71904; 72016; 72784; 73040; 73120; 92768; 92864;
   93008; 123200; 123632; 125264; 130032]%N.

(** Alphanumeric code points: letters and numeric characters. *)
Definition alnum_ranges : list (N * N) :=
  [(256, 705); (710, 721); (736, 740); (748, 748); (750, 750); (880, 884);
   (886, 887); (890, 893); (895, 895); (902, 902); (904, 906); (908, 908);
   (910, 929); (931, 1013); (1015, 1153); (1162, 1327); (1329, 1366);
   (1369, 1369); (1376, 1416); (1488, 1514); (1519, 1522); (1568, 1610);
   (1632, 1641); (1646, 1647); (1649, 1747); (1749, 1749); (1765, 1766);
   (1774, 1788); (1791, 1791); (1808, 1808); (1810, 1839); (1869, 1957);
   (1969, 1969); (1984, 2026); (2036, 2037); (2042, 2042); (2048, 2069);
   (2074, 2074); (2084, 2084); (2088, 2088); (2112, 2136); (2144, 2154);
   (2160, 2183); (2185, 2190); (2208, 2249); (2308, 2361); (2365, 2365);
   (2384, 2384); (2392, 2401); (2406, 2415); (2417, 2432); (2437, 2444);
   (2447, 2448); (2451, 2472); (2474, 2480); (2482, 2482); (2486, 2489);
   (2493, 2493); (2510, 2510); (2524, 2525); (2527, 2529); (2534, 2545);
   (2548, 2553); (2556, 2556); (2565, 2570); (2575, 2576); (2579, 2600);
   (2602, 2608); (2610, 2611); (2613, 2614); (2616, 2617); (2649, 2652);
   (2654, 2654); (2662, 2671); (2674, 2676); (2693, 2701); (2703, 2705);
   (2707, 2728); (2730, 2736); (2738, 2739); (2741, 2745); (2749, 2749);
   (2768, 2768); (2784, 2785); (2790, 2799); (2809, 2809); (2821, 2828);
   (2831, 2832); (2835, 2856); (2858, 2864); (2866, 2867); (2869, 2873);
   (2877, 2877); (2908, 2909); (2911, 2913); (2918, 2927); (2929, 2935);
   (2947, 2947); (2949, 2954); (2958, 2960); (2962, 2965); (2969, 2970);
   (2972, 2972); (2974, 2975); (2979, 2980); (2984, 2986); (2990, 3001);
   (3024, 3024); (3046, 3058); (3077, 3084); (3086, 3088); (3090, 3112);
   (3114, 3129); (3133, 3133); (3160, 3162); (3165, 3165); (3168, 3169);
   (3174, 3183); (3192, 3198); (3200, 3200); (3205, 3212); (3214, 3216);
   (3218, 3240); (3242, 3251); (3253, 3257); (3261, 3261); (3293, 3294);
   (3296, 3297); (3302, 3311); (3313, 3314); (3332, 3340); (3342, 3344);
   (3346, 3386); (3389, 3389); (3406, 3406); (3412, 3414); (3416, 3425);
   (3430, 3448); (3450, 3455); (3461, 3478); (3482, 3505); (3507, 3515);
   (3517, 3517); (3520, 3526); (3558, 3567); (3585, 3632); (3634, 3635);
   (3648, 3654); (3664, 3673); (3713, 3714); (3716, 3716); (3718, 3722);
   (3724, 3747); (3749, 3749); (3751, 3760); (3762, 3763); (3773, 3773);
   (3776, 3780); (3782, 3782); (3792, 3801); (3804, 3807); (3840, 3840);
   (3872, 3891); (3904, 3911); (3913, 3948); (3976, 3980); (4096, 4138);
   (4159, 4169); (4176, 4181); (4186, 4189); (4193, 4193); (4197, 4198);
   (4206, 4208); (4213, 4225); (4238, 4238); (4240, 4249); (4256, 4293);
   (4295, 4295); (4301, 4301); (4304, 4346); (4348, 4680); (4682, 4685);
   (4688, 4694); (4696, 4696); (4698, 4701); (4704, 4744); (4746, 4749);
   (4752, 4784); (4786, 4789); (4792, 4798); (4800, 4800); (4802, 4805);
   (4808, 4822); (4824, 4880); (4882, 4885); (4888, 4954); (4969, 4988);
   (4992, 5007); (5024, 5109); (5112, 5117); (5121, 5740); (5743, 5759);
   (5761, 5786); (5792, 5866); (5870, 5880); (5888, 5905); (5919, 5937);
   (5952, 5969); (5984, 5996); (5998, 6000); (6016, 6067); (6103, 6103);
   (6108, 6108); (6112, 6121); (6128, 6137); (6160, 6169); (6176, 6264);
   (6272, 6276); (6279, 6312); (6314, 6314); (6320, 6389); (6400, 6430);
   (6470, 6509); (6512, 6516); (6528, 6571); (6576, 6601); (6608, 6618);
   (6656, 6678); (6688, 6740); (6784, 6793); (6800, 6809); (6823, 6823);
   (6917, 6963); (6981, 6988); (6992, 7001); (7043, 7072); (7086, 7141);
   (7168, 7203); (7232, 7241); (7245, 7293); (7296, 7304); (7312, 7354);
   (7357, 7359); (7401, 7404); (7406, 7411); (7413, 7414); (7418, 7418);
   (7424, 7615); (7680, 7957); (7960, 7965); (7968, 8005); (8008, 8013);
   (8016, 8023); (8025, 8025); (8027, 8027); (8029, 8029); (8031, 8061);
   (8064, 8116); (8118, 8124); (8126, 8126); (8130, 8132); (8134, 8140);
   (8144, 8147); (8150, 8155); (8160, 8172); (8178, 8180); (8182, 8188);
   (8304, 8305); (8308, 8313); (8319, 8329); (8336, 8348); (8450, 8450);
   (8455, 8455); (8458, 8467); (8469, 8469); (8473, 8477); (8484, 8484);
   (8486, 8486); (8488, 8488); (8490, 8493); (8495, 8505); (8508, 8511);
   (8517, 8521); (8526, 8526); (8528, 8585); (9312, 9371); (9450, 9471);
   (10102, 10131); (11264, 11492); (11499, 11502); (11506, 11507);
   (11517, 11517); (11520, 11557); (11559, 11559); (11565, 11565);
   (11568, 11623); (11631, 11631); (11648, 11670); (11680, 11686);
   (11688, 11694); (11696, 11702); (11704, 11710); (11712, 11718);
   (11720, 11726); (11728, 11734); (11736, 11742); (11823, 11823);
   (12293, 12295); (12321, 12329); (12337, 12341); (12344, 12348);
   (12353, 12438); (12445, 12447); (12449, 12538); (12540, 12543);
   (12549, 12591); (12593, 12686); (12690, 12693); (12704, 12735);
   (12784, 12799); (12832, 12841); (12872, 12879); (12881, 12895);
   (12928, 12937); (12977, 12991); (13312, 19903); (19968, 42124);
   (42192, 42237); (42240, 42508); (42512, 42539); (42560, 42606);
   (42623, 42653); (42656, 42735); (42775, 42783); (42786, 42888);
   (42891, 42954); (42960, 42961); (42963, 42963); (42965, 42969);
   (42994, 43009); (43011, 43013); (43015, 43018); (43020, 43042);
   (43056, 43061); (43072, 43123); (43138, 43187); (43216, 43225);
   (43250, 43255); (43259, 43259); (43261, 43262); (43264, 43301);
   (43312, 43334); (43360, 43388); (43396, 43442); (43471, 43481);
   (43488, 43492); (43494, 43518); (43520, 43560); (43584, 43586);
   (43588, 43595); (43600, 43609); (43616, 43638); (43642, 43642);
   (43646, 43695); (43697, 43697); (43701, 43702); (43705, 43709);
   (43712, 43712); (43714, 43714); (43739, 43741); (43744, 43754);
   (43762, 43764); (43777, 43782); (43785, 43790); (43793, 43798);
   (43808, 43814); (43816, 43822); (43824, 43866); (43868, 43881);
   (43888, 44002); (44016, 44025); (44032, 55203); (55216, 55238);
   (55243, 55291); (63744, 64109); (64112, 64217); (64256, 64262);
   (64275, 64279); (64285, 64285); (64287, 64296); (64298, 64310);
   (64312, 64316); (64318, 64318); (64320, 64321); (64323, 64324);
   (64326, 64433); (64467, 64829); (64848, 64911); (64914, 64967);
   (65008, 65019); (65136, 65140); (65142, 65276); (65296, 65305);
   (65313, 65338); (65345, 65370); (65382, 65470); (65474, 65479);
   (65482, 65487); (65490, 65495); (65498, 65500); (65536, 65547);
   (65549, 65574); (65576, 65594); (65596, 65597); (65599, 65613);
   (65616, 65629); (65664, 65786); (65799, 65843); (65856, 65912);
   (65930, 65931); (66176, 66204); (66208, 66256); (66273, 66299);
   (66304, 66339); (66349, 66378); (66384, 66421); (66432, 66461);
   (66464, 66499); (66504, 66511); (66513, 66517); (66560, 66717);
   (66720, 66729); (66736, 66771); (66776, 66811); (66816, 66855);
   (66864, 66915); (66928, 66938); (66940, 66954); (66956, 66962);
   (66964, 66965); (66967, 66977); (66979, 66993); (66995, 67001);
   (67003, 67004); (67072, 67382); (67392, 67413); (67424, 67431);
   (67456, 67461); (67463, 67504); (67506, 67514); (67584, 67589);
   (67592, 67592); (67594, 67637); (67639, 67640); (67644, 67644);
   (67647, 67669); (67672, 67702); (67705, 67742); (67751, 67759);
   (67808, 67826); (67828, 67829); (67835, 67867); (67872, 67897);
   (67968, 68023); (68028, 68047); (68050, 68096); (68112, 68115);
   (68117, 68119); (68121, 68149); (68160, 68168); (68192, 68222);
   (68224, 68255); (68288, 68295); (68297, 68324); (68331, 68335);
   (68352, 68405); (68416, 68437); (68440, 68466); (68472, 68497);
   (68521, 68527); (68608, 68680); (68736, 68786); (68800, 68850);
   (68858, 68899); (68912, 68921); (69216, 69246); (69248, 69289);
   (69296, 69297); (69376, 69415); (69424, 69445); (69457, 69460);
   (69488, 69505); (69552, 69579); (69600, 69622); (69635, 69687);
   (69714, 69743); (69745, 69746); (69749, 69749); (69763, 69807);
   (69840, 69864); (69872, 69881); (69891, 69926); (69942, 69951);
   (69956, 69956); (69959, 69959); (69968, 70002); (70006, 70006);
   (70019, 70066); (70081, 70084); (70096, 70106); (70108, 70108);
   (70113, 70132); (70144, 70161); (70163, 70187); (70272, 70278);
   (70280, 70280); (70282, 70285); (70287, 70301); (70303, 70312);
   (70320, 70366); (70384, 70393); (70405, 70412); (70415, 70416);
   (70419, 70440); (70442, 70448); (70450, 70451); (70453, 70457);
   (70461, 70461); (70480, 70480); (70493, 70497); (70656, 70708);
   (70727, 70730); (70736, 70745); (70751, 70753); (70784, 70831);
   (70852, 70853); (70855, 70855); (70864, 70873); (71040, 71086);
   (71128, 71131); (71168, 71215); (71236, 71236); (71248, 71257);
   (71296, 71338); (71352, 71352); (71360, 71369); (71424, 71450);
   (71472, 71483); (71488, 71494); (71680, 71723); (71840, 71922);
   (71935, 71942); (71945, 71945); (71948, 71955); (71957, 71958);
   (71960, 71983); (71999, 71999); (72001, 72001); (72016, 72025);
   (72096, 72103); (72106, 72144); (72161, 72161); (72163, 72163);
   (72192, 72192); (72203, 72242); (72250, 72250); (72272, 72272);
   (72284, 72329); (72349, 72349); (72368, 72440); (72704, 72712);
   (72714, 72750); (72768, 72768); (72784, 72812); (72818, 72847);
   (72960, 72966); (72968, 72969); (72971, 73008); (73030, 73030);
   (73040, 73049); (73056, 73061); (73063, 73064); (73066, 73097);
   (73112, 73112); (73120, 73129); (73440, 73458); (73648, 73648);
   (73664, 73684); (73728, 74649); (74752, 74862); (74880, 75075);
   (77712, 77808); (77824, 78894); (82944, 83526); (92160, 92728);
   (92736, 92766); (92768, 92777); (92784, 92862); (92864, 92873);
   (92880, 92909); (92928, 92975); (92992, 92995); (93008, 93017);
   (93019, 93025); (93027, 93047); (93053, 93071); (93760, 93846);
   (93952, 94026); (94032, 94032); (94099, 94111); (94176, 94177);
   (94179, 94179); (94208, 100343); (100352, 101589); (101632, 101640);
   (110576, 110579); (110581, 110587); (110589, 110590); (110592, 110882);
   (110928, 110930); (110948, 110951); (110960, 111355); (113664, 113770);
   (113776, 113788); (113792, 113800); (113808, 113817); (119520, 119539);
   (119648, 119672); (119808, 119892); (119894, 119964); (119966, 119967);
   (119970, 119970); (119973, 119974); (119977, 119980); (119982, 119993);
   (119995, 119995); (119997, 120003); (120005, 120069); (120071, 120074);
   (120077, 120084); (120086, 120092); (120094, 120121); (120123, 120126);
   (120128, 120132); (120134, 120134); (120138, 120144); (120146, 120485);
   (120488, 120512); (120514, 120538); (120540, 120570); (120572, 120596);
   (120598, 120628); (120630, 120654); (120656, 120686); (120688, 120712);
   (120714, 120744); (120746, 120770); (120772, 120779); (120782, 120831);
   (122624, 122654); (123136, 123180); (123191, 123197); (123200, 123209);
   (123214, 123214); (123536, 123565); (123584, 123627); (123632, 123641);
   (124896, 124902); (124904, 124907); (124909, 124910); (124912, 124926);
   (124928, 125124); (125127, 125135); (125184, 125251); (125259, 125259);
   (125264, 125273); (126065, 126123); (126125, 126127); (126129, 126132);
   (126209, 126253); (126255, 126269); (126464, 126467); (126469, 126495);
   (126497, 126498); (126500, 126500); (126503, 126503); (126505, 126514);
   (126516, 126519); (126521, 126521); (126523, 126523); (126530, 126530);
   (126535, 126535); (126537, 126537); (126539, 126539); (126541, 126543);
   (126545, 126546); (126548, 126548); (126551, 126551); (126553, 126553);
   (126555, 126555); (126557, 126557); (126559, 126559); (126561, 126562);
   (126564, 126564); (126567, 126570); (126572, 126578); (126580, 126583);
   (126585, 126588); (126590, 126590); (126592, 126601); (126603, 126619);
   (126625, 126627); (126629, 126633); (126635, 126651); (127232, 127244);
   (130032, 130041); (131072, 173791); (173824, 177976); (177984, 178205);
   (178208, 183969); (183984, 191456); (194560, 195101); (196608, 201546)]%N.

(** The simple lower-case mapping, where it moves a code point. *)
Definition lower_table : list (N * N) :=
  [(256, 257); (258, 259); (260, 261); (262, 263); (264, 265); (266, 267);
   (268, 269); (270, 271); (272, 273); (274, 275); (276, 277); (278, 279);
   (280, 281); (282, 283); (284, 285); (286, 287); (288, 289); (290, 291);
   (292, 293); (294, 295); (296, 297); (298, 299); (300, 301); (302, 303);
   (304, 105); (306, 307); (308, 309); (310, 311); (313, 314); (315, 316);
   (317, 318); (319, 320); (321, 322); (323, 324); (325, 326); (327, 328);
   (330, 331); (332, 333); (334, 335); (336, 337); (338, 339); (340, 341);
   (342, 343); (344, 345); (346, 347); (348, 349); (350, 351); (352, 353);
   (354, 355); (356, 357); (358, 359); (360, 361); (362, 363); (364, 365);
   (366, 367); (368, 369); (370, 371); (372, 373); (374, 375); (376, 255);
   (377, 378); (379, 380); (381, 382); (385, 595); (386, 387); (388, 389);
   (390, 596); (391, 392); (393, 598); (394, 599); (395, 396); (398, 477);
   (399, 601); (400, 603); (401, 402); (403, 608); (404, 611); (406, 617);
   (407, 616); (408, 409); (412, 623); (413, 626); (415, 629); (416, 417);
   (418, 419); (420, 421); (422, 640); (423, 424); (425, 643); (428, 429);
   (430, 648); (431, 432); (433, 650); (434, 651); (435, 436); (437, 438);
   (439, 658); (440, 441); (444, 445); (452, 454); (453, 454); (455, 457);
   (456, 457); (458, 460); (459, 460); (461, 462); (463, 464); (465, 466);
   (467, 468); (469, 470); (471, 472); (473, 474); (475, 476); (478, 479);
   (480, 481); (482, 483); (484, 485); (486, 487); (488, 489); (490, 491);
   (492, 493); (494, 495); (497, 499); (498, 499); (500, 501); (502, 405);
   (503, 447); (504, 505); (506, 507); (508, 509); (510, 511); (512, 513);
   (514, 515); (516, 517); (518, 519); (520, 521); (522, 523); (524, 525);
   (526, 527); (528, 529); (530, 531); (532, 533); (534, 535); (536, 537);
   (538, 539); (540, 541); (542, 543); (544, 414); (546, 547); (548, 549);
   (550, 551); (552, 553); (554, 555); (556, 557); (558, 559); (560, 561);
   (562, 563); (570, 11365); (571, 572); (573, 410); (574, 11366);
   (577, 578); (579, 384); (580, 649); (581, 652); (582, 583); (584, 585);
   (586, 587); (588, 589); (590, 591); (880, 881); (882, 883); (886, 887);
   (895, 1011); (902, 940); (904, 941); (905, 942); (906, 943); (908, 972);
   (910, 973); (911, 974); (913, 945); (914, 946); (915, 947); (916, 948);
   (917, 949); (918, 950); (919, 951); (920, 952); (921, 953); (922, 954);
   (923, 955); (924, 956); (925, 957); (926, 958); (927, 959); (928, 960);
   (929, 961); (931, 963); (932, 964); (933, 965); (934, 966); (935, 967);
   (936, 968); (937, 969); (938, 970); (939, 971); (975, 983); (984, 985);
   (986, 987); (988, 989); (990, 991); (992, 993); (994, 995); (996, 997);
   (998, 999); (1000, 1001); (1002, 1003); (1004, 1005); (1006, 1007);
   (1012, 952); (1015, 1016); (1017, 1010); (1018, 1019); (1021, 891);
   (1022, 892); (1023, 893); (1024, 1104); (1025, 1105); (1026, 1106);
   (1027, 1107); (1028, 1108); (1029, 1109); (1030, 1110); (1031, 1111);
   (1032, 1112); (1033, 1113); (1034, 1114); (1035, 1115); (1036, 1116);
   (1037, 1117); (1038, 1118); (1039, 1119); (1040, 1072); (1041, 1073);
   (1042, 1074); (1043, 1075); (1044, 1076); (1045, 1077); (1046, 1078);
   (1047, 1079); (1048, 1080); (1049, 1081); (1050, 1082); (1051, 1083);
   (1052, 1084); (1053, 1085); (1054, 1086); (1055, 1087); (1056, 1088);
   (1057, 1089); (1058, 1090); (1059, 1091); (1060, 1092); (1061, 1093);
   (1062, 1094); (1063, 1095); (1064, 1096); (1065, 1097); (1066, 1098);
   (1067, 1099); (1068, 1100); (1069, 1101); (1070, 1102); (1071, 1103);
   (1120, 1121); (1122, 1123); (1124, 1125); (1126, 1127); (1128, 1129);
   (1130, 1131); (1132, 1133); (1134, 1135); (1136, 1137); (1138, 1139);
   (1140, 1141); (1142, 1143); (1144, 1145); (1146, 1147); (1148, 1149);
   (1150, 1151); (1152, 1153); (1162, 1163); (1164, 1165); (1166, 1167);
   (1168, 1169); (1170, 1171); (1172, 1173); (1174, 1175); (1176, 1177);
   (1178, 1179); (1180, 1181); (1182, 1183); (1184, 1185); (1186, 1187);
   (1188, 1189); (1190, 1191); (1192, 1193); (1194, 1195); (1196, 1197);
   (1198, 1199); (1200, 1201); (1202, 1203); (1204, 1205); (1206, 1207);
   (1208, 1209); (1210, 1211); (1212, 1213); (1214, 1215); (1216, 1231);
   (1217, 1218); (1219, 1220); (1221, 1222); (1223, 1224); (1225, 1226);
   (1227, 1228); (1229, 1230); (1232, 1233); (1234, 1235); (1236, 1237);
   (1238, 1239); (1240, 1241); (1242, 1243); (1244, 1245); (1246, 1247);
   (1248, 1249); (1250, 1251); (1252, 1253); (1254, 1255); (1256, 1257);
   (1258, 1259); (1260, 1261); (1262, 1263); (1264, 1265); (1266, 1267);
   (1268, 1269); (1270, 1271); (1272, 1273); (1274, 1275); (1276, 1277);
   (1278, 1279); (1280, 1281); (1282, 1283); (1284, 1285); (1286, 1287);
   (1288, 1289); (1290, 1291); (1292, 1293); (1294, 1295); (1296, 1297);
   (1298, 1299); (1300, 1301); (1302, 1303); (1304, 1305); (1306, 1307);
   (1308, 1309); (1310, 1311); (1312, 1313); (1314, 1315); (1316, 1317);
   (1318, 1319); (1320, 1321); (1322, 1323); (1324, 1325); (1326, 1327);
   (1329, 1377); (1330, 1378); (1331, 1379); (1332, 1380); (1333, 1381);
   (1334, 1382); (1335, 1383); (1336, 1384); (1337, 1385); (1338, 1386);
   (1339, 1387); (1340, 1388); (1341, 1389); (1342, 1390); (1343, 1391);
   (1344, 1392); (1345, 1393); (1346, 1394); (1347, 1395); (1348, 1396);
   (1349, 1397); (1350, 1398); (1351, 1399); (1352, 1400); (1353, 1401);
   (1354, 1402); (1355, 1403); (1356, 1404); (1357, 1405); (1358, 1406);
   (1359, 1407); (1360, 1408); (1361, 1409); (1362, 1410); (1363, 1411);
   (1364, 1412); (1365, 1413); (1366, 1414); (4256, 11520); (4257, 11521);
   (4258, 11522); (4259, 11523); (4260, 11524); (4261, 11525);
   (4262, 11526); (4263, 11527); (4264, 11528); (4265, 11529);
   (4266, 11530); (4267, 11531); (4268, 11532); (4269, 11533);
   (4270, 11534); (4271, 11535); (4272, 11536); (4273, 11537);
   (4274, 11538); (4275, 11539); (4276, 11540); (4277, 11541);
   (4278, 11542); (4279, 11543); (4280, 11544); (4281, 11545);
   (4282, 11546); (4283, 11547); (4284, 11548); (4285, 11549);
   (4286, 11550); (4287, 11551); (4288, 11552); (4289, 11553);
   (4290, 11554); (4291, 11555); (4292, 11556); (4293, 11557);
   (4295, 11559); (4301, 11565); (5024, 43888); (5025, 43889);
   (5026, 43890); (5027, 43891); (5028, 43892); (5029, 43893);
   (5030, 43894); (5031, 43895); (5032, 43896); (5033, 43897);
   (5034, 43898); (5035, 43899); (5036, 43900); (5037, 43901);
   (5038, 43902); (5039, 43903); (5040, 43904); (5041, 43905);
   (5042, 43906); (5043, 43907); (5044, 43908); (5045, 43909);
   (5046, 43910); (5047, 43911); (5048, 43912); (5049, 43913);
   (5050, 43914); (5051, 43915); (5052, 43916); (5053, 43917);
   (5054, 43918); (5055, 43919); (5056, 43920); (5057, 43921);
   (5058, 43922); (5059, 43923); (5060, 43924); (5061, 43925);
   (5062, 43926); (5063, 43927); (5064, 43928); (5065, 43929);
   (5066, 43930); (5067, 43931); (5068, 43932); (5069, 43933);
   (5070, 43934); (5071, 43935); (5072, 43936); (5073, 43937);
   (5074, 43938); (5075, 43939); (5076, 43940); (5077, 43941);
   (5078, 43942); (5079, 43943); (5080, 43944); (5081, 43945);
   (5082, 43946); (5083, 43947); (5084, 43948); (5085, 43949);
   (5086, 43950); (5087, 43951); (5088, 43952); (5089, 43953);
   (5090, 43954); (5091, 43955); (5092, 43956); (5093, 43957);
   (5094, 43958); (5095, 43959); (5096, 43960); (5097, 43961);
   (5098, 43962); (5099, 43963); (5100, 43964); (5101, 43965);
   (5102, 43966); (5103, 43967); (5104, 5112); (5105, 5113); (5106, 5114);
   (5107, 5115); (5108, 5116); (5109, 5117); (7312, 4304); (7313, 4305);
   (7314, 4306); (7315, 4307); (7316, 4308); (7317, 4309); (7318, 4310);
   (7319, 4311); (7320, 4312); (7321, 4313); (7322, 4314); (7323, 4315);
   (7324, 4316); (7325, 4317); (7326, 4318); (7327, 4319); (7328, 4320);
   (7329, 4321); (7330, 4322); (7331, 4323); (7332, 4324); (7333, 4325);
   (7334, 4326); (7335, 4327); (7336, 4328); (7337, 4329); (7338, 4330);
   (7339, 4331); (7340, 4332); (7341, 4333); (7342, 4334); (7343, 4335);
   (7344, 4336); (7345, 4337); (7346, 4338); (7347, 4339); (7348, 4340);
   (7349, 4341); (7350, 4342); (7351, 4343); (7352, 4344); (7353, 4345);
   (7354, 4346); (7357, 4349); (7358, 4350); (7359, 4351); (7680, 7681);
   (7682, 7683); (7684, 7685); (7686, 7687); (7688, 7689); (7690, 7691);
   (7692, 7693); (7694, 7695); (7696, 7697); (7698, 7699); (7700, 7701);
   (7702, 7703); (7704, 7705); (7706, 7707); (7708, 7709); (7710, 7711);
   (7712, 7713); (7714, 7715); (7716, 7717); (7718, 7719); (7720, 7721);
   (7722, 7723); (7724, 7725); (7726, 7727); (7728, 7729); (7730, 7731);
   (7732, 7733); (7734, 7735); (7736, 7737); (7738, 7739); (7740, 7741);
   (7742, 7743); (7744, 7745); (7746, 7747); (7748, 7749); (7750, 7751);
   (7752, 7753); (7754, 7755); (7756, 7757); (7758, 7759); (7760, 7761);
   (7762, 7763); (7764, 7765); (7766, 7767); (7768, 7769); (7770, 7771);
   (7772, 7773); (7774, 7775); (7776, 7777); (7778, 7779); (7780, 7781);
   (7782, 7783); (7784, 7785); (7786, 7787); (7788, 7789); (7790, 7791);
   (7792, 7793); (7794, 7795); (7796, 7797); (7798, 7799); (7800, 7801);
   (7802, 7803); (7804, 7805); (7806, 7807); (7808, 7809); (7810, 7811);
   (7812, 7813); (7814, 7815); (7816, 7817); (7818, 7819); (7820, 7821);
   (7822, 7823); (7824, 7825); (7826, 7827); (7828, 7829); (7838, 223);
   (7840, 7841); (7842, 7843); (7844, 7845); (7846, 7847); (7848, 7849);
   (7850, 7851); (7852, 7853); (7854, 7855); (7856, 7857); (7858, 7859);
   (7860, 7861); (7862, 7863); (7864, 7865); (7866, 7867); (7868, 7869);
   (7870, 7871); (7872, 7873); (7874, 7875); (7876, 7877); (7878, 7879);
   (7880, 7881); (7882, 7883); (7884, 7885); (7886, 7887); (7888, 7889);
   (7890, 7891); (7892, 7893); (7894, 7895); (7896, 7897); (7898, 7899);
   (7900, 7901); (7902, 7903); (7904, 7905); (7906, 7907); (7908, 7909);
   (7910, 7911); (7912, 7913); (7914, 7915); (7916, 7917); (7918, 7919);
   (7920, 7921); (7922, 7923); (7924, 7925); (7926, 7927); (7928, 7929);
   (7930, 7931); (7932, 7933); (7934, 7935); (7944, 7936); (7945, 7937);
   (7946, 7938); (7947, 7939); (7948, 7940); (7949, 7941); (7950, 7942);
   (7951, 7943); (7960, 7952); (7961, 7953); (7962, 7954); (7963, 7955);
   (7964, 7956); (7965, 7957); (7976, 7968); (7977, 7969); (7978, 7970);
   (7979, 7971); (7980, 7972); (7981, 7973); (7982, 7974); (7983, 7975);
   (7992, 7984); (7993, 7985); (7994, 7986); (7995, 7987); (7996, 7988);
   (7997, 7989); (7998, 7990); (7999, 7991); (8008, 8000); (8009, 8001);
   (8010, 8002); (8011, 8003); (8012, 8004); (8013, 8005); (8025, 8017);
   (8027, 8019); (8029, 8021); (8031, 8023); (8040, 8032); (8041, 8033);
   (8042, 8034); (8043, 8035); (8044, 8036); (8045, 8037); (8046, 8038);
   (8047, 8039); (8072, 8064); (8073, 8065); (8074, 8066); (8075, 8067);
   (8076, 8068); (8077, 8069); (8078, 8070); (8079, 8071); (8088, 8080);
   (8089, 8081); (8090, 8082); (8091, 8083); (8092, 8084); (8093, 8085);
   (8094, 8086); (8095, 8087); (8104, 8096); (8105, 8097); (8106, 8098);
   (8107, 8099); (8108, 8100); (8109, 8101); (8110, 8102); (8111, 8103);
   (8120, 8112); (8121, 8113); (8122, 8048); (8123, 8049); (8124, 8115);
   (8136, 8050); (8137, 8051); (8138, 8052); (8139, 8053); (8140, 8131);
   (8152, 8144); (8153, 8145); (8154, 8054); (8155, 8055); (8168, 8160);
   (8169, 8161); (8170, 8058); (8171, 8059); (8172, 8165); (8184, 8056);
   (8185, 8057); (8186, 8060); (8187, 8061); (8188, 8179); (8486, 969);
   (8490, 107); (8491, 229); (8498, 8526); (8544, 8560); (8545, 8561);
   (8546, 8562); (8547, 8563); (8548, 8564); (8549, 8565); (8550, 8566);
   (8551, 8567); (8552, 8568); (8553, 8569); (8554, 8570); (8555, 8571);
   (8556, 8572); (8557, 8573); (8558, 8574); (8559, 8575); (8579, 8580);
   (9398, 9424); (9399, 9425); (9400, 9426); (9401, 9427); (9402, 9428);
   (9403, 9429); (9404, 9430); (9405, 9431); (9406, 9432); (9407, 9433);
   (9408, 9434); (9409, 9435); (9410, 9436); (9411, 9437); (9412, 9438);
   (9413, 9439); (9414, 9440); (9415, 9441); (9416, 9442); (9417, 9443);
   (9418, 9444); (9419, 9445); (9420, 9446); (9421, 9447); (9422, 9448);
   (9423, 9449); (11264, 11312); (11265, 11313); (11266, 11314);
   (11267, 11315); (11268, 11316); (11269, 11317); (11270, 11318);
   (11271, 11319); (11272, 11320); (11273, 11321); (11274, 11322);
   (11275, 11323); (11276, 11324); (11277, 11325); (11278, 11326);
   (11279, 11327); (11280, 11328); (11281, 11329); (11282, 11330);
   (11283, 11331); (11284, 11332); (11285, 11333); (11286, 11334);
   (11287, 11335); (11288, 11336); (11289, 11337); (11290, 11338);
   (11291, 11339); (11292, 11340); (11293, 11341); (11294, 11342);
   (11295, 11343); (11296, 11344); (11297, 11345); (11298, 11346);
   (11299, 11347); (11300, 11348); (11301, 11349); (11302, 11350);
   (11303, 11351); (11304, 11352); (11305, 11353); (11306, 11354);
   (11307, 11355); (11308, 11356); (11309, 11357); (11310, 11358);
   (11311, 11359); (11360, 11361); (11362, 619); (11363, 7549);
   (11364, 637); (11367, 11368); (11369, 11370); (11371, 11372);
   (11373, 593); (11374, 625); (11375, 592); (11376, 594); (11378, 11379);
   (11381, 11382); (11390, 575); (11391, 576); (11392, 11393);
   (11394, 11395); (11396, 11397); (11398, 11399); (11400, 11401);
   (11402, 11403); (11404, 11405); (11406, 11407); (11408, 11409);
   (11410, 11411); (11412, 11413); (11414, 11415); (11416, 11417);
   (11418, 11419); (11420, 11421); (11422, 11423); (11424, 11425);
   (11426, 11427); (11428, 11429); (11430, 11431); (11432, 11433);
   (11434, 11435); (11436, 11437); (11438, 11439); (11440, 11441);
   (11442, 11443); (11444, 11445); (11446, 11447); (11448, 11449);
   (11450, 11451); (11452, 11453); (11454, 11455); (11456, 11457);
   (11458, 11459); (11460, 11461); (11462, 11463); (11464, 11465);
   (11466, 11467); (11468, 11469); (11470, 11471); (11472, 11473);
   (11474, 11475); (11476, 11477); (11478, 11479); (11480, 11481);
   (11482, 11483); (11484, 11485); (11486, 11487); (11488, 11489);
   (11490, 11491); (11499, 11500); (11501, 11502); (11506, 11507);
   (42560, 42561); (42562, 42563); (42564, 42565); (42566, 42567);
   (42568, 42569); (42570, 42571); (42572, 42573); (42574, 42575);
   (42576, 42577); (42578, 42579); (42580, 42581); (42582, 42583);
   (42584, 42585); (42586, 42587); (42588, 42589); (42590, 42591);
   (42592, 42593); (42594, 42595); (42596, 42597); (42598, 42599);
   (42600, 42601); (42602, 42603); (42604, 42605); (42624, 42625);
   (42626, 42627); (42628, 42629); (42630, 42631); (42632, 42633);
   (42634, 42635); (42636, 42637); (42638, 42639); (42640, 42641);
   (42642, 42643); (42644, 42645); (42646, 42647); (42648, 42649);
   (42650, 42651); (42786, 42787); (42788, 42789); (42790, 42791);
   (42792, 42793); (42794, 42795); (42796, 42797); (42798, 42799);
   (42802, 42803); (42804, 42805); (42806, 42807); (42808, 42809);
   (42810, 42811); (42812, 42813); (42814, 42815); (42816, 42817);
   (42818, 42819); (42820, 42821); (42822, 42823); (42824, 42825);
   (42826, 42827); (42828, 42829); (42830, 42831); (42832, 42833);
   (42834, 42835); (42836, 42837); (42838, 42839); (42840, 42841);
   (42842, 42843); (42844, 42845); (42846, 42847); (42848, 42849);
   (42850, 42851); (42852, 42853); (42854, 42855); (42856, 42857);
   (42858, 42859); (42860, 42861); (42862, 42863); (42873, 42874);
   (42875, 42876); (42877, 7545); (42878, 42879); (42880, 42881);
   (42882, 42883); (42884, 42885); (42886, 42887); (42891, 42892);
   (42893, 613); (42896, 42897); (42898, 42899); (42902, 42903);
   (42904, 42905); (42906, 42907); (42908, 42909); (42910, 42911);
   (42912, 42913); (42914, 42915); (42916, 42917); (42918, 42919);
   (42920, 42921); (42922, 614); (42923, 604); (42924, 609); (42925, 620);
   (42926, 618); (42928, 670); (42929, 647); (42930, 669); (42931, 43859);
   (42932, 42933); (42934, 42935); (42936, 42937); (42938, 42939);
   (42940, 42941); (42942, 42943); (42944, 42945); (42946, 42947);
   (42948, 42900); (42949, 642); (42950, 7566); (42951, 42952);
   (42953, 42954); (42960, 42961); (42966, 42967); (42968, 42969);
   (42997, 42998); (65313, 65345); (65314, 65346); (65315, 65347);
   (65316, 65348); (65317, 65349); (65318, 65350); (65319, 65351);
   (65320, 65352); (65321, 65353); (65322, 65354); (65323, 65355);
   (65324, 65356); (65325, 65357); (65326, 65358); (65327, 65359);
   (65328, 65360); (65329, 65361); (65330, 65362); (65331, 65363);
   (65332, 65364); (65333, 65365); (65334, 65366); (65335, 65367);
   (65336, 65368); (65337, 65369); (65338, 65370); (66560, 66600);
   (66561, 66601); (66562, 66602); (66563, 66603); (66564, 66604);
   (66565, 66605); (66566, 66606); (66567, 66607); (66568, 66608);
   (66569, 66609); (66570, 66610); (66571, 66611); (66572, 66612);
   (66573, 66613); (66574, 66614); (66575, 66615); (66576, 66616);
   (66577, 66617); (66578, 66618); (66579, 66619); (66580, 66620);
   (66581, 66621); (66582, 66622); (66583, 66623); (66584, 66624);
   (66585, 66625); (66586, 66626); (66587, 66627); (66588, 66628);
   (66589, 66629); (66590, 66630); (66591, 66631); (66592, 66632);
   (66593, 66633); (66594, 66634); (66595, 66635); (66596, 66636);
   (66597, 66637); (66598, 66638); (66599, 66639); (66736, 66776);
   (66737, 66777); (66738, 66778); (66739, 66779); (66740, 66780);
   (66741, 66781); (66742, 66782); (66743, 66783); (66744, 66784);
   (66745, 66785); (66746, 66786); (66747, 66787); (66748, 66788);
   (66749, 66789); (66750, 66790); (66751, 66791); (66752, 66792);
   (66753, 66793); (66754, 66794); (66755, 66795); (66756, 66796);
   (66757, 66797); (66758, 66798); (66759, 66799); (66760, 66800);
   (66761, 66801); (66762, 66802); (66763, 66803); (66764, 66804);
   (66765, 66805); (66766, 66806); (66767, 66807); (66768, 66808);
   (66769, 66809); (66770, 66810); (66771, 66811); (66928, 66967);
   (66929, 66968); (66930, 66969); (66931, 66970); (66932, 66971);
   (66933, 66972); (66934, 66973); (66935, 66974); (66936, 66975);
   (66937, 66976); (66938, 66977); (66940, 66979); (66941, 66980);
   (66942, 66981); (66943, 66982); (66944, 66983); (66945, 66984);
   (66946, 66985); (66947, 66986); (66948, 66987); (66949, 66988);
   (66950, 66989); (66951, 66990); (66952, 66991); (66953, 66992);
   (66954, 66993); (66956, 66995); (66957, 66996); (66958, 66997);
   (66959, 66998); (66960, 66999); (66961, 67000); (66962, 67001);
   (66964, 67003); (66965, 67004); (68736, 68800); (68737, 68801);
   (68738, 68802); (68739, 68803); (68740, 68804); (68741, 68805);
   (68742, 68806); (68743, 68807); (68744, 68808); (68745, 68809);
   (68746, 68810); (68747, 68811); (68748, 68812); (68749, 68813);
   (68750, 68814); (68751, 68815); (68752, 68816); (68753, 68817);
   (68754, 68818); (68755, 68819); (68756, 68820); (68757, 68821);
   (68758, 68822); (68759, 68823); (68760, 68824); (68761, 68825);
   (68762, 68826); (68763, 68827); (68764, 68828); (68765, 68829);
   (68766, 68830); (68767, 68831); (68768, 68832); (68769, 68833);
   (68770, 68834); (68771, 68835); (68772, 68836); (68773, 68837);
   (68774, 68838); (68775, 68839); (68776, 68840); (68777, 68841);
   (68778, 68842); (68779, 68843); (68780, 68844); (68781, 68845);
   (68782, 68846); (68783, 68847); (68784, 68848); (68785, 68849);
   (68786, 68850); (71840, 71872); (71841, 71873); (71842, 71874);
   (71843, 71875); (71844, 71876); (71845, 71877); (71846, 71878);
   (71847, 71879); (71848, 71880); (71849, 71881); (71850, 71882);
   (71851, 71883); (71852, 71884); (71853, 71885); (71854, 71886);
   (71855, 71887); (71856, 71888); (71857, 71889); (71858, 71890);
   (71859, 71891); (71860, 71892); (71861, 71893); (71862, 71894);
   (71863, 71895); (71864, 71896); (71865, 71897); (71866, 71898);
   (71867, 71899); (71868, 71900); (71869, 71901); (71870, 71902);
   (71871, 71903); (93760, 93792); (93761, 93793); (93762, 93794);
   (93763, 93795); (93764, 93796); (93765, 93797); (93766, 93798);
   (93767, 93799); (93768, 93800); (93769, 93801); (93770, 93802);
   (93771, 93803); (93772, 93804); (93773, 93805); (93774, 93806);
   (93775, 93807); (93776, 93808); (93777, 93809); (93778, 93810);
   (93779, 93811); (93780, 93812); (93781, 93813); (93782, 93814);
   (93783, 93815); (93784, 93816); (93785, 93817); (93786, 93818);
   (93787, 93819); (93788, 93820); (93789, 93821); (93790, 93822);
   (93791, 93823); (125184, 125218); (125185, 125219); (125186, 125220);
   (125187, 125221); (125188, 125222); (125189, 125223); (125190, 125224);
   (125191, 125225); (125192, 125226); (125193, 125227); (125194, 125228);
   (125195, 125229); (125196, 125230); (125197, 125231); (125198, 125232);
   (125199, 125233); (125200, 125234); (125201, 125235); (125202, 125236);
   (125203, 125237); (125204, 125238); (125205, 125239); (125206, 125240);
   (125207, 125241); (125208, 125242); (125209, 125243); (125210, 125244);
   (125211, 125245); (125212, 125246); (125213, 125247); (125214, 125248);
   (125215, 125249); (125216, 125250); (125217, 125251)]%N.

(** Code points that the lower-case or the upper-case mapping moves. *)
Definition iscased_ranges : list (N * N) :=
  [(256, 311); (313, 396); (398, 410); (412, 425); (428, 441); (444, 445);
   (447, 447); (452, 544); (546, 563); (570, 596); (598, 599); (601, 601);
   (603, 604); (608, 609); (611, 611); (613, 614); (616, 620); (623, 623);
   (625, 626); (629, 629); (637, 637); (640, 640); (642, 643); (647, 652);
   (658, 658); (669, 670); (837, 837); (880, 883); (886, 887); (891, 893);
   (895, 895); (902, 902); (904, 906); (908, 908); (910, 929); (931, 977);
   (981, 1013); (1015, 1019); (1021, 1153); (1162, 1327); (1329, 1366);
   (1377, 1415); (4256, 4293); (4295, 4295); (4301, 4301); (4304, 4346);
   (4349, 4351); (5024, 5109); (5112, 5117); (7296, 7304); (7312, 7354);
   (7357, 7359); (7545, 7545); (7549, 7549); (7566, 7566); (7680, 7835);
   (7838, 7838); (7840, 7957); (7960, 7965); (7968, 8005); (8008, 8013);
   (8016, 8023); (8025, 8025); (8027, 8027); (8029, 8029); (8031, 8061);
   (8064, 8116); (8118, 8124); (8126, 8126); (8130, 8132); (8134, 8140);
   (8144, 8147); (8150, 8155); (8160, 8172); (8178, 8180); (8182, 8188);
   (8486, 8486); (8490, 8491); (8498, 8498); (8526, 8526); (8544, 8575);
   (8579, 8580); (9398, 9449); (11264, 11376); (11378, 11379);
   (11381, 11382); (11390, 11491); (11499, 11502); (11506, 11507);
   (11520, 11557); (11559, 11559); (11565, 11565); (42560, 42605);
   (42624, 42651); (42786, 42799); (42802, 42863); (42873, 42887);
   (42891, 42893); (42896, 42900); (42902, 42926); (42928, 42954);
   (42960, 42961); (42966, 42969); (42997, 42998); (43859, 43859);
   (43888, 43967); (64256, 64262); (64275, 64279); (65313, 65338);
   (65345, 65370); (66560, 66639); (66736, 66771); (66776, 66811);
   (66928, 66938); (66940, 66954); (66956, 66962); (66964, 66965);
   (66967, 66977); (66979, 66993); (66995, 67001); (67003, 67004);
   (68736, 68786); (68800, 68850); (71840, 71903); (93760, 93823);
   (125184, 125251)]%N.

(** The letters that match each other without regard to case besides
    those with the same lower-case form (table [_EXTRA_CASES] of [re]). *)
Definition extra_cases : list (N * list N) :=
  [(105, [305]); (115, [383]); (181, [956]); (305, [105]); (383, [115]);
   (837, [953; 8126]); (912, [8147]); (944, [8163]); (946, [976]);
   (949, [1013]); (952, [977]); (953, [837; 8126]); (954, [1008]);
   (956, [181]); (960, [982]); (961, [1009]); (962, [963]); (963, [962]);
   (966, [981]); (976, [946]); (977, [952]); (981, [966]); (982, [960]);
   (1008, [954]); (1009, [961]); (1013, [949]); (1074, [7296]);
   (1076, [7297]); (1086, [7298]); (1089, [7299]); (1090, [7300; 7301]);
   (1098, [7302]); (1123, [7303]); (7296, [1074]); (7297, [1076]);
   (7298, [1086]); (7299, [1089]); (7300, [1090; 7301]);
   (7301, [1090; 7300]); (7302, [1098]); (7303, [1123]); (7304, [42571]);
   (7777, [7835]); (7835, [7777]); (8126, [837; 953]); (8147, [912]);
   (8163, [944]); (42571, [7304]); (64261, [64262]); (64262, [64261])]%N.

(** The properties Cased and Case_Ignorable, which decide the form of the
    lower-case sigma. *)
Definition cased_ranges : list (N * N) :=
  [(65, 90); (97, 122); (170, 170); (181, 181); (186, 186); (192, 214);
   (216, 246); (248, 442); (444, 447); (452, 659); (661, 696); (704, 705);
   (736, 740); (837, 837); (880, 883); (886, 887); (890, 893); (895, 895);
   (902, 902); (904, 906); (908, 908); (910, 929); (931, 1013);
   (1015, 1153); (1162, 1327); (1329, 1366); (1376, 1416); (4256, 4293);
   (4295, 4295); (4301, 4301); (4304, 4346); (4349, 4351); (5024, 5109);
   (5112, 5117); (7296, 7304); (7312, 7354); (7357, 7359); (7424, 7615);
   (7680, 7957); (7960, 7965); (7968, 8005); (8008, 8013); (8016, 8023);
   (8025, 8025); (8027, 8027); (8029, 8029); (8031, 8061); (8064, 8116);
   (8118, 8124); (8126, 8126); (8130, 8132); (8134, 8140); (8144, 8147);
   (8150, 8155); (8160, 8172); (8178, 8180); (8182, 8188); (8305, 8305);
   (8319, 8319); (8336, 8348); (8450, 8450); (8455, 8455); (8458, 8467);
   (8469, 8469); (8473, 8477); (8484, 8484); (8486, 8486); (8488, 8488);
   (8490, 8493); (8495, 8500); (8505, 8505); (8508, 8511); (8517, 8521);
   (8526, 8526); (8544, 8575); (8579, 8580); (9398, 9449); (11264, 11492);
   (11499, 11502); (11506, 11507); (11520, 11557); (11559, 11559);
   (11565, 11565); (42560, 42605); (42624, 42653); (42786, 42887);
   (42891, 42894); (42896, 42954); (42960, 42961); (42963, 42963);
   (42965, 42969); (42997, 42998); (43000, 43002); (43824, 43866);
   (43868, 43880); (43888, 43967); (64256, 64262); (64275, 64279);
   (65313, 65338); (65345, 65370); (66560, 66639); (66736, 66771);
   (66776, 66811); (66928, 66938); (66940, 66954); (66956, 66962);
   (66964, 66965); (66967, 66977); (66979, 66993); (66995, 67001);
   (67003, 67004); (67456, 67456); (67459, 67461); (67463, 67504);
   (67506, 67514); (68736, 68786); (68800, 68850); (71840, 71903);
   (93760, 93823); (119808, 119892); (119894, 119964); (119966, 119967);
   (119970, 119970); (119973, 119974); (119977, 119980); (119982, 119993);
   (119995, 119995); (119997, 120003); (120005, 120069); (120071, 120074);
   (120077, 120084); (120086, 120092); (120094, 120121); (120123, 120126);
   (120128, 120132); (120134, 120134); (120138, 120144); (120146, 120485);
   (120488, 120512); (120514, 120538); (120540, 120570); (120572, 120596);
   (120598, 120628); (120630, 120654); (120656, 120686); (120688, 120712);
   (120714, 120744); (120746, 120770); (120772, 120779); (122624, 122633);
   (122635, 122654); (125184, 125251); (127280, 127305); (127312, 127337);
   (127344, 127369)]%N.

Definition case_ignorable_ranges : list (N * N) :=
  [(39, 39); (46, 46); (58, 58); (94, 94); (96, 96); (168, 168); (173, 173);
   (175, 175); (180, 180); (183, 184); (688, 879); (884, 885); (890, 890);
   (900, 901); (903, 903); (1155, 1161); (1369, 1369); (1375, 1375);
   (1425, 1469); (1471, 1471); (1473, 1474); (1476, 1477); (1479, 1479);
   (1524, 1524); (1536, 1541); (1552, 1562); (1564, 1564); (1600, 1600);
   (1611, 1631); (1648, 1648); (1750, 1757); (1759, 1768); (1770, 1773);
   (1807, 1807); (1809, 1809); (1840, 1866); (1958, 1968); (2027, 2037);
   (2042, 2042); (2045, 2045); (2070, 2093); (2137, 2139); (2184, 2184);
   (2192, 2193); (2200, 2207); (2249, 2306); (2362, 2362); (2364, 2364);
   (2369, 2376); (2381, 2381); (2385, 2391); (2402, 2403); (2417, 2417);
   (2433, 2433); (2492, 2492); (2497, 2500); (2509, 2509); (2530, 2531);
   (2558, 2558); (2561, 2562); (2620, 2620); (2625, 2626); (2631, 2632);
   (2635, 2637); (2641, 2641); (2672, 2673); (2677, 2677); (2689, 2690);
   (2748, 2748); (2753, 2757); (2759, 2760); (2765, 2765); (2786, 2787);
   (2810, 2815); (2817, 2817); (2876, 2876); (2879, 2879); (2881, 2884);
   (2893, 2893); (2901, 2902); (2914, 2915); (2946, 2946); (3008, 3008);
   (3021, 3021); (3072, 3072); (3076, 3076); (3132, 3132); (3134, 3136);
   (3142, 3144); (3146, 3149); (3157, 3158); (3170, 3171); (3201, 3201);
   (3260, 3260); (3263, 3263); (3270, 3270); (3276, 3277); (3298, 3299);
   (3328, 3329); (3387, 3388); (3393, 3396); (3405, 3405); (3426, 3427);
   (3457, 3457); (3530, 3530); (3538, 3540); (3542, 3542); (3633, 3633);
   (3636, 3642); (3654, 3662); (3761, 3761); (3764, 3772); (3782, 3782);
   (3784, 3789); (3864, 3865); (3893, 3893); (3895, 3895); (3897, 3897);
   (3953, 3966); (3968, 3972); (3974, 3975); (3981, 3991); (3993, 4028);
   (4038, 4038); (4141, 4144); (4146, 4151); (4153, 4154); (4157, 4158);
   (4184, 4185); (4190, 4192); (4209, 4212); (4226, 4226); (4229, 4230);
   (4237, 4237); (4253, 4253); (4348, 4348); (4957, 4959); (5906, 5908);
   (5938, 5939); (5970, 5971); (6002, 6003); (6068, 6069); (6071, 6077);
   (6086, 6086); (6089, 6099); (6103, 6103); (6109, 6109); (6155, 6159);
   (6211, 6211); (6277, 6278); (6313, 6313); (6432, 6434); (6439, 6440);
   (6450, 6450); (6457, 6459); (6679, 6680); (6683, 6683); (6742, 6742);
   (6744, 6750); (6752, 6752); (6754, 6754); (6757, 6764); (6771, 6780);
   (6783, 6783); (6823, 6823); (6832, 6862); (6912, 6915); (6964, 6964);
   (6966, 6970); (6972, 6972); (6978, 6978); (7019, 7027); (7040, 7041);
   (7074, 7077); (7080, 7081); (7083, 7085); (7142, 7142); (7144, 7145);
   (7149, 7149); (7151, 7153); (7212, 7219); (7222, 7223); (7288, 7293);
   (7376, 7378); (7380, 7392); (7394, 7400); (7405, 7405); (7412, 7412);
   (7416, 7417); (7468, 7530); (7544, 7544); (7579, 7679); (8125, 8125);
   (8127, 8129); (8141, 8143); (8157, 8159); (8173, 8175); (8189, 8190);
   (8203, 8207); (8216, 8217); (8228, 8228); (8231, 8231); (8234, 8238);
   (8288, 8292); (8294, 8303); (8305, 8305); (8319, 8319); (8336, 8348);
   (8400, 8432); (11388, 11389); (11503, 11505); (11631, 11631);
   (11647, 11647); (11744, 11775); (11823, 11823); (12293, 12293);
   (12330, 12333); (12337, 12341); (12347, 12347); (12441, 12446);
   (12540, 12542); (40981, 40981); (42232, 42237); (42508, 42508);
   (42607, 42610); (42612, 42621); (42623, 42623); (42652, 42655);
   (42736, 42737); (42752, 42785); (42864, 42864); (42888, 42890);
   (42994, 42996); (43000, 43001); (43010, 43010); (43014, 43014);
   (43019, 43019); (43045, 43046); (43052, 43052); (43204, 43205);
   (43232, 43249); (43263, 43263); (43302, 43309); (43335, 43345);
   (43392, 43394); (43443, 43443); (43446, 43449); (43452, 43453);
   (43471, 43471); (43493, 43494); (43561, 43566); (43569, 43570);
   (43573, 43574); (43587, 43587); (43596, 43596); (43632, 43632);
   (43644, 43644); (43696, 43696); (43698, 43700); (43703, 43704);
   (43710, 43711); (43713, 43713); (43741, 43741); (43756, 43757);
   (43763, 43764); (43766, 43766); (43867, 43871); (43881, 43883);
   (44005, 44005); (44008, 44008); (44013, 44013); (64286, 64286);
   (64434, 64450); (65024, 65039); (65043, 65043); (65056, 65071);
   (65106, 65106); (65109, 65109); (65279, 65279); (65287, 65287);
   (65294, 65294); (65306, 65306); (65342, 65342); (65344, 65344);
   (65392, 65392); (65438, 65439); (65507, 65507); (65529, 65531);
   (66045, 66045); (66272, 66272); (66422, 66426); (67456, 67461);
   (67463, 67504); (67506, 67514); (68097, 68099); (68101, 68102);
   (68108, 68111); (68152, 68154); (68159, 68159); (68325, 68326);
   (68900, 68903); (69291, 69292); (69446, 69456); (69506, 69509);
   (69633, 69633); (69688, 69702); (69744, 69744); (69747, 69748);
   (69759, 69761); (69811, 69814); (69817, 69818); (69821, 69821);
   (69826, 69826); (69837, 69837); (69888, 69890); (69927, 69931);
   (69933, 69940); (70003, 70003); (70016, 70017); (70070, 70078);
   (70089, 70092); (70095, 70095); (70191, 70193); (70196, 70196);
   (70198, 70199); (70206, 70206); (70367, 70367); (70371, 70378);
   (70400, 70401); (70459, 70460); (70464, 70464); (70502, 70508);
   (70512, 70516); (70712, 70719); (70722, 70724); (70726, 70726);
   (70750, 70750); (70835, 70840); (70842, 70842); (70847, 70848);
   (70850, 70851); (71090, 71093); (71100, 71101); (71103, 71104);
   (71132, 71133); (71219, 71226); (71229, 71229); (71231, 71232);
   (71339, 71339); (71341, 71341); (71344, 71349); (71351, 71351);
   (71453, 71455); (71458, 71461); (71463, 71467); (71727, 71735);
   (71737, 71738); (71995, 71996); (71998, 71998); (72003, 72003);
   (72148, 72151); (72154, 72155); (72160, 72160); (72193, 72202);
   (72243, 72248); (72251, 72254); (72263, 72263); (72273, 72278);
   (72281, 72283); (72330, 72342); (72344, 72345); (72752, 72758);
   (72760, 72765); (72767, 72767); (72850, 72871); (72874, 72880);
   (72882, 72883); (72885, 72886); (73009, 73014); (73018, 73018);
   (73020, 73021); (73023, 73029); (73031, 73031); (73104, 73105);
   (73109, 73109); (73111, 73111); (73459, 73460); (78896, 78904);
   (92912, 92916); (92976, 92982); (92992, 92995); (94031, 94031);
   (94095, 94111); (94176, 94177); (94179, 94180); (110576, 110579);
   (110581, 110587); (110589, 110590); (113821, 113822); (113824, 113827);
   (118528, 118573); (118576, 118598); (119143, 119145); (119155, 119170);
   (119173, 119179); (119210, 119213); (119362, 119364); (121344, 121398);
   (121403, 121452); (121461, 121461); (121476, 121476); (121499, 121503);
   (121505, 121519); (122880, 122886); (122888, 122904); (122907, 122913);
   (122915, 122916); (122918, 122922); (123184, 123197); (123566, 123566);
   (123628, 123631); (125136, 125142); (125252, 125259); (127995, 127999);
   (917505, 917505); (917536, 917631); (917760, 917999)]%N.

(** *** Character classes *)

(** [str.isspace] / [\s] *)
Definition is_space (c : N) : bool :=
  if (c <? 256)%N
  then in_range 9 13 c || in_range 28 32 c || (c =? 133)%N || (c =? 160)%N
  else (c =? 5760)%N || in_range 8192 8202 c || in_range 8232 8233 c
       || (c =? 8239)%N || (c =? 8287)%N || (c =? 12288)%N.

(** [\d]: decimal digits. *)
Definition is_digit (c : N) : bool :=
  if (c <? 256)%N then in_range 48 57 c
  else existsb (fun z => in_range z (z + 9) c) decimal_zeros
       || in_range 120782 120831 c.

(** [str.isalnum] *)
Definition is_alnum (c : N) : bool :=
  if (c <? 256)%N
  then in_range 48 57 c || in_range 65 90 c || in_range 97 122 c
       || (c =? 170)%N || in_range 178 179 c || (c =? 181)%N
       || in_range 185 186 c || in_range 188 190 c
       || in_range 192 214 c || in_range 216 246 c || in_range 248 255 c
  else in_ranges alnum_ranges c.

(** [\w]: alphanumeric or underscore. *)
Definition is_word (c : N) : bool := is_alnum c || (c =? 95)%N.

(** The lower-case form of one code point, as [re] takes it under [(?i)];
    it is what [str.lower] gives for every code point but U+0130 and, in
    some contexts, U+03A3. *)
Definition lower_cp (c : N) : N :=
  if (c <? 256)%N
  then if in_range 65 90 c || (in_range 192 222 c && negb (c =? 215)%N)
       then (c + 32)%N else c
  else match assoc c lower_table with Some l => l | None => c end.

(** A code point with another lower-case or upper-case form. *)
Definition iscased (c : N) : bool :=
  if (c <? 256)%N
  then in_range 65 90 c || in_range 97 122 c || (c =? 181)%N
       || in_range 192 214 c || in_range 216 246 c || in_range 248 255 c
  else in_ranges iscased_ranges c.

(** The extra cases of a lower-case letter. *)
Definition fixes (lo : N) : list N :=
  if (lo <? 181)%N
  then if (lo =? 105)%N then [305%N]
       else if (lo =? 115)%N then [383%N] else []
  else match assoc lo extra_cases with Some l => l | None => [] end.

Definition is_cased (c : N) : bool := in_ranges cased_ranges c.
Definition is_case_ignorable (c : N) : bool :=
  in_ranges case_ignorable_ranges c.

End Chars.
Import Chars.

(** [s.lower()]: every code point gives its lower-case form; U+0130
    gives two code points, and the capital sigma U+03A3 gives the final
    form U+03C2 when a cased letter stands before it and none after it,
    case-ignorable code points apart. *)
Definition lower_full (c : N) : text :=
  if (c =? 304)%N then [105; 775]%N else [lower_cp c].

Fixpoint skip_ignorable (s : text) : option N :=
  match s with
  | [] => None
  | c :: s' => if is_case_ignorable c then skip_ignorable s' else Some c
  end.

Definition final_sigma (before after : text) : bool :=
  match skip_ignorable before with
  | Some c => is_cased c
  | None => false
  end
  && match skip_ignorable after with
     | Some c => negb (is_cased c)
     | None => true
     end.

(** [before] holds the characters already passed, the nearest first. *)
Fixpoint lower_from (before s : text) : text :=
  match s with
  | [] => []
  | c :: s' =>
      (if (c =? 931)%N
       then [if final_sigma before s' then 962%N else 963%N]
       else lower_full c)
      ++ lower_from (c :: before) s'
  end.

Definition lower (s : text) : text := lower_from [] s.

(** [s.strip()] *)
Fixpoint lstrip (s : text) : text :=
  match s with
  | c :: s' => if is_space c then lstrip s' else s
  | [] => []
  end.

Definition rstrip (s : text) : text := rev (lstrip (rev s)).

Definition strip (s : text) : text := rstrip (lstrip s).

(** Truth value of a string: non-empty. *)
Definition truthy (s : text) : bool :=
  match s with [] => false | _ :: _ => true end.

Fixpoint starts_with (p s : text) : bool :=
  match p, s with
  | [], _ => true
  | _ :: _, [] => false
  | a :: p', b :: s' => (a =? b)%N && starts_with p' s'
  end.

(** [p in s] for strings. *)
Fixpoint contains (p s : text) : bool :=
  starts_with p s ||
  match s with
  | [] => false
  | _ :: s' => contains p s'
  end.

(** [t[i:j]] with Python's treatment of negative and out-of-range bounds. *)
Definition norm_index (len i : Z) : Z :=
  if (i <? 0)%Z then Z.max 0 (i + len) else Z.min i len.

Definition slice (t : text) (i j : Z) : text :=
  let len := Z.of_nat (length t) in
  let a := norm_index len i in
  let b := norm_index len j in
  take (Z.to_nat (b - a)) (drop (Z.to_nat a) t).

Definition slice_nat (t : text) (a b : nat) : text :=
  slice t (Z.of_nat a) (Z.of_nat b).

(** [s.split(sep)] for a non-empty separator: cut at every occurrence of
    [sep], leftmost first.  [acc] is the current piece in reverse and
    [skip] the number of separator characters still to pass over. *)
Fixpoint split_on (sep acc : text) (skip : nat) (s : text) : list text :=
  match s with
  | [] => [rev acc]
  | c :: s' =>
      match skip with
      | S n => split_on sep acc n s'
      | O =>
          if starts_with sep s
          then rev acc :: split_on sep [] (length sep - 1) s'
          else split_on sep (c :: acc) 0 s'
      end
  end.

Definition str_split (sep s : text) : list text := split_on sep [] 0 s.

(** [sep.join(l)] *)
Fixpoint join (sep : text) (l : list text) : text :=
  match l with
  | [] => []
  | [x] => x
  | x :: l' => x ++ sep ++ join sep l'
  end.

(** The line feed, and lines joined by it. *)
Definition nl : N := 10.
Definition unlines (l : list string) : text := join [nl] (map str l).

(** [str(n)] for an integer. *)
Definition decimal (n : Z) : text :=
  str (DecimalString.NilZero.string_of_int (Z.to_int n)).

(* ===================================================================== *)
(** ** Regular expressions *)
(* ===================================================================== *)

Module Re.

(** Members of a bracketed character set. *)
Inductive citem :=
| CChar (c : N)
| CRange (lo hi : N)
| CSpace
| CDigit
| CWord.

Inductive regex :=
| Empty
| Lit (c : N)
| Dot
| CSet (neg : bool) (items : list citem)
| WordBoundary
| Cat (r1 r2 : regex)
| Alt (r1 r2 : regex)
| Repeat (lo : nat) (hi : option nat) (r : regex)
| Group (i : nat) (r : regex).

(** A compiled pattern: the [(?i)] flag, the body and the number of
    capturing groups. *)
Record pattern := Pattern {
  ignorecase : bool;
  body : regex;
  ngroups : nat
}.

(** Matcher state: offset into the subject, the text still ahead, the
    character just behind (for [\b]) and the spans of closed groups. *)
Record mstate := MState {
  pos : nat;
  rest : text;
  prev : option N;
  caps : list (nat * (nat * nat))
}.

Definition advance (x : N) (t : text) (s : mstate) : mstate :=
  {| pos := S (pos s); rest := t; prev := Some x; caps := caps s |}.

Definition set_cap (i a b : nat) (s : mstate) : mstate :=
  {| pos := pos s; rest := rest s; prev := prev s;
     caps := (i, (a, b)) :: caps s |}.

(** [y] is the lower-case letter [lo] or one of its extra cases. *)
Definition same_letter (lo y : N) : bool :=
  (y =? lo)%N || existsb (N.eqb y) (fixes lo).

(** A literal: under [(?i)] a cased literal matches the code points whose
    lower-case form is its own or one of the extra cases; any other
    literal matches itself. *)
Definition lit_match (ic : bool) (c x : N) : bool :=
  if ic && iscased c then same_letter (lower_cp c) (lower_cp x)
  else (x =? c)%N.

(** A member of a set against [y], the subject character or, under
    [(?i)], its lower-case form when the set has a cased member. *)
Definition item_match (ic : bool) (it : citem) (y : N) : bool :=
  match it with
  | CChar c => if ic then same_letter (lower_cp c) y else (y =? c)%N
  | CRange lo hi =>
      if ic
      then existsb (fun r => same_letter (lower_cp r) y) (N_range lo hi)
      else in_range lo hi y
  | CSpace => is_space y
  | CDigit => is_digit y
  | CWord => is_word y
  end.

Definition item_cased (it : citem) : bool :=
  match it with
  | CChar c => iscased c
  | CRange lo hi => existsb iscased (N_range lo hi)
  | _ => false
  end.

Definition set_match (ic neg : bool) (items : list citem) (x : N) : bool :=
  let y := if ic && existsb item_cased items then lower_cp x else x in
  xorb neg (existsb (fun it => item_match ic it y) items).

Definition is_word_opt (o : option N) : bool :=
  match o with Some c => is_word c | None => false end.

Definition under_max (cnt : nat) (hi : option nat) : bool :=
  match hi with Some h => cnt <? h | None => true end.

(** One character against a predicate. *)
Definition eat (f : N -> bool) (k : mstate -> option mstate) (s : mstate)
  : option mstate :=
  match rest s with
  | x :: t => if f x then k (advance x t s) else None
  | [] => None
  end.

(** The loop of a greedy quantifier over [body]: try one more iteration
    before trying to stop.  An iteration that consumes nothing is not
    taken, so [fuel], one more than the length of the text ahead, is
    never used up. *)
Fixpoint rep_loop (lo : nat) (hi : option nat)
         (body : (mstate -> option mstate) -> mstate -> option mstate)
         (k : mstate -> option mstate)
         (fuel cnt : nat) (s : mstate) {struct fuel} : option mstate :=
  match fuel with
  | O => None
  | S fuel' =>
      let more :=
        if under_max cnt hi
        then body (fun s' =>
                     if length (rest s') <? length (rest s)
                     then rep_loop lo hi body k fuel' (S cnt) s'
                     else None) s
        else None in
      match more with
      | Some res => Some res
      | None => if lo <=? cnt then k s else None
      end
  end.

(** [rmatch ic r k s]: match [r] at [s], then continue with [k]; the
    first success in backtracking order is returned (leftmost
    alternative first, longest repetition first). *)
Fixpoint rmatch (ic : bool) (r : regex) (k : mstate -> option mstate)
         (s : mstate) {struct r} : option mstate :=
  match r with
  | Empty => k s
  | Lit c => eat (lit_match ic c) k s
  | Dot => eat (fun x => negb (x =? 10)%N) k s
  | CSet neg items => eat (set_match ic neg items) k s
  | WordBoundary =>
      if xorb (is_word_opt (prev s)) (is_word_opt (head (rest s)))
      then k s else None
  | Cat r1 r2 => rmatch ic r1 (rmatch ic r2 k) s
  | Alt r1 r2 =>
      match rmatch ic r1 k s with
      | Some res => Some res
      | None => rmatch ic r2 k s
      end
  | Repeat lo hi r' =>
      rep_loop lo hi (rmatch ic r') k (S (length (rest s))) 0 s
  | Group i r' =>
      rmatch ic r' (fun s' => k (set_cap i (pos s) (pos s') s')) s
  end.

(** A match object: [start()], [end()] and the group spans. *)
Record Match := MkMatch {
  m_start : nat;
  m_end : nat;
  m_caps : list (nat * (nat * nat))
}.

(** One attempt at the current offset.  After an empty match the next
    attempt at the same offset must consume something. *)
Definition match_at (p : pattern) (must_advance : bool) (s : mstate)
  : option mstate :=
  rmatch (ignorecase p) (body p)
    (fun s' => if must_advance && (pos s' =? pos s) then None else Some s')
    s.

Definition restart (s : mstate) : mstate :=
  {| pos := pos s; rest := rest s; prev := prev s; caps := [] |}.

(** The scanner behind [finditer], [findall], [search] and [split]:
    leftmost match from the current offset, then on from its end. *)
Fixpoint scan (p : pattern) (fuel : nat) (must_advance : bool) (s : mstate)
  : list Match :=
  match fuel with
  | O => []
  | S fuel' =>
      match match_at p must_advance s with
      | Some s' =>
          MkMatch (pos s) (pos s') (caps s')
            :: scan p fuel' (pos s' =? pos s) (restart s')
      | None =>
          match rest s with
          | [] => []
          | x :: t => scan p fuel' false (advance x t s)
          end
      end
  end.

Definition finditer (p : pattern) (t : text) : list Match :=
  scan p (2 * length t + 2) false
    {| pos := 0; rest := t; prev := None; caps := [] |}.

(** [re.search]: the first match, if any. *)
Definition search (p : pattern) (t : text) : option Match :=
  head (finditer p t).

Fixpoint cap_lookup (i : nat) (c : list (nat * (nat * nat)))
  : option (nat * nat) :=
  match c with
  | [] => None
  | (j, sp) :: c' => if i =? j then Some sp else cap_lookup i c'
  end.

(** [m.group(0)] *)
Definition group0 (t : text) (m : Match) : text :=
  slice_nat t (m_start m) (m_end m).

(** Group [i] as [findall] reports it: empty when it did not take part. *)
Definition group_text (t : text) (m : Match) (i : nat) : text :=
  match cap_lookup i (m_caps m) with
  | Some (a, b) => slice_nat t a b
  | None => []
  end.

(** The result of [re.findall]: whole matches when the pattern has no
    group, the group's text when it has one, tuples of all groups when
    it has several. *)
Inductive found :=
| FoundStrs (l : list text)
| FoundTuples (l : list (list text)).

Definition findall (p : pattern) (t : text) : found :=
  let ms := finditer p t in
  match ngroups p with
  | 0 => FoundStrs (map (group0 t) ms)
  | 1 => FoundStrs (map (fun m => group_text t m 1) ms)
  | n => FoundTuples (map (fun m => map (group_text t m) (seq 1 n)) ms)
  end.

(** [re.split] for a pattern without groups: the pieces between
    successive matches. *)
Fixpoint split_pieces (t : text) (last : nat) (ms : list Match)
  : list text :=
  match ms with
  | [] => [slice_nat t last (length t)]
  | m :: ms' => slice_nat t last (m_start m) :: split_pieces t (m_end m) ms'
  end.

Definition split (p : pattern) (t : text) : list text :=
  split_pieces t 0 (finditer p t).

(** *** Pattern syntax helpers *)

Fixpoint lit (s : string) : regex :=
  match s with
  | EmptyString => Empty
  | String a EmptyString => Lit (N_of_ascii a)
  | String a s' => Cat (Lit (N_of_ascii a)) (lit s')
  end.

Fixpoint cat (l : list regex) : regex :=
  match l with
  | [] => Empty
  | [r] => r
  | r :: l' => Cat r (cat l')
  end.

Fixpoint alt (l : list regex) : regex :=
  match l with
  | [] => Empty
  | [r] => r
  | r :: l' => Alt r (alt l')
  end.

Definition star (r : regex) : regex := Repeat 0 None r.
Definition plus (r : regex) : regex := Repeat 1 None r.
Definition opt (r : regex) : regex := Repeat 0 (Some 1) r.
Definition times (a b : nat) (r : regex) : regex := Repeat a (Some b) r.

Definition ch (s : string) : N :=
  match s with String a _ => N_of_ascii a | EmptyString => 0%N end.

Definition ws : regex := CSet false [CSpace].        (* \s *)
Definition digit : regex := CSet false [CDigit].     (* \d *)
Definition word : regex := CSet false [CWord].       (* \w *)
Definition ws1 : regex := plus ws.                   (* \s+ *)
Definition ws0 : regex := star ws.                   (* \s* *)
Definition any : regex := star Dot.                  (* .* *)

End Re.
Import Re.

(* ===================================================================== *)
(** ** [modules/nlp_engine.py]: class [LegalNLPEngine] *)
(* ===================================================================== *)

Module LegalNLPEngine.

Definition quote : N := 34.

(** [self.legal_patterns], in declaration order. *)
Definition party_patterns : list pattern :=
  [ (* (?i)(party|company|firm|organization)\s+[A-Z][a-zA-Z\s&,\.]+ *)
    Pattern true
      (cat [Group 1 (alt [lit "party"; lit "company"; lit "firm";
                          lit "organization"]);
            ws1;
            CSet false [CRange (ch "A") (ch "Z")];
            plus (CSet false [CRange (ch "a") (ch "z");
                              CRange (ch "A") (ch "Z");
                              CSpace; CChar (ch "&"); CChar (ch ",");
                              CChar (ch ".")])])
      1;
    (* (?i)(hereinafter referred to as|referred to as)\s+Q([^Q]+)Q
       where Q stands for the double-quote character *)
    Pattern true
      (cat [Group 1 (alt [lit "hereinafter referred to as";
                          lit "referred to as"]);
            ws1; Lit quote;
            Group 2 (plus (CSet true [CChar quote]));
            Lit quote])
      2 ].

(** The rupee sign of the second pattern is stored in the source file as
    the three code points U+00E2 U+201A U+00B9. *)
Definition amount_patterns : list pattern :=
  [ (* (?i)(rs\.?|inr|rupees)\s*[\d,]+(?:\.\d{2})? *)
    Pattern true
      (cat [Group 1 (alt [Cat (lit "rs") (opt (Lit (ch ".")));
                          lit "inr"; lit "rupees"]);
            ws0;
            plus (CSet false [CDigit; CChar (ch ",")]);
            opt (Cat (Lit (ch ".")) (times 2 2 digit))])
      1;
    (* â‚¹\s*[\d,]+(?:\.\d{2})? *)
    Pattern false
      (cat [Lit 226; Lit 8218; Lit 185;
            ws0;
            plus (CSet false [CDigit; CChar (ch ",")]);
            opt (Cat (Lit (ch ".")) (times 2 2 digit))])
      0;
    (* (?i)\d+\s*(lakh|crore|thousand) *)
    Pattern true
      (cat [plus digit; ws0;
            Group 1 (alt [lit "lakh"; lit "crore"; lit "thousand"])])
      1 ].

Definition date_sep : regex := CSet false [CChar (ch "/"); CChar (ch "-")].

Definition date_patterns : list pattern :=
  [ (* \d{1,2}[/-]\d{1,2}[/-]\d{2,4} *)
    Pattern false
      (cat [times 1 2 digit; date_sep; times 1 2 digit; date_sep;
            times 2 4 digit])
      0;
    (* (?i)(january|february|march|april|may|june|july|august|september
           |october|november|december)\s+\d{1,2},?\s+\d{4} *)
    Pattern true
      (cat [Group 1 (alt [lit "january"; lit "february"; lit "march";
                          lit "april"; lit "may"; lit "june"; lit "july";
                          lit "august"; lit "september"; lit "october";
                          lit "november"; lit "december"]);
            ws1; times 1 2 digit; opt (Lit (ch ",")); ws1;
            times 4 4 digit])
      1 ].

Definition duration_patterns : list pattern :=
  [ (* (?i)\d+\s*(days?|weeks?|months?|years?) *)
    Pattern true
      (cat [plus digit; ws0;
            Group 1 (alt [Cat (lit "day") (opt (Lit (ch "s")));
                          Cat (lit "week") (opt (Lit (ch "s")));
                          Cat (lit "month") (opt (Lit (ch "s")));
                          Cat (lit "year") (opt (Lit (ch "s")))])])
      1;
    (* (?i)(term of|period of)\s+\d+\s*(days?|months?|years?) *)
    Pattern true
      (cat [Group 1 (alt [lit "term of"; lit "period of"]);
            ws1; plus digit; ws0;
            Group 2 (alt [Cat (lit "day") (opt (Lit (ch "s")));
                          Cat (lit "month") (opt (Lit (ch "s")));
                          Cat (lit "year") (opt (Lit (ch "s")))])])
      2 ].

Definition legal_patterns : list (string * list pattern) :=
  [ ("party", party_patterns);
    ("amount", amount_patterns);
    ("date", date_patterns);
    ("duration", duration_patterns) ].

Definition obligation_markers : list text :=
  [str "shall"; str "must"; str "required to"; str "obligated to";
   str "agrees to"].
Definition right_markers : list text :=
  [str "may"; str "entitled to"; str "has the right to";
   str "permitted to"].
Definition prohibition_markers : list text :=
  [str "shall not"; str "must not"; str "prohibited from";
   str "restricted from"].

(** *** [extract_entities] *)

(** A value stored in the [entities] dictionary: a list of strings, or
    the nested dictionary under ['custom']. *)
Inductive value :=
| VList (l : list text)
| VDict (d : gmap string (list text)).

(** [list(set(l))]: the distinct elements, in the set's own order. *)
Definition list_of_set (l : list text) : list text :=
  elements (list_to_set l : gset text).

Definition upper_letter : regex := CSet false [CRange (ch "A") (ch "Z")].
Definition lower_letter : regex := CSet false [CRange (ch "a") (ch "z")].

(* \b[A-Z][a-z]+(?:\s+[A-Z][a-z]+)*\s+(?:Ltd|Limited|Inc|Corp|Company|Pvt)\b *)
Definition org_pattern : pattern :=
  Pattern false
    (cat [WordBoundary; upper_letter; plus lower_letter;
          star (cat [ws1; upper_letter; plus lower_letter]);
          ws1;
          alt [lit "Ltd"; lit "Limited"; lit "Inc"; lit "Corp";
               lit "Company"; lit "Pvt"];
          WordBoundary])
    0.

(** The strings of a [findall] result without tuples. *)
Definition found_strs (f : found) : list text :=
  match f with
  | FoundStrs l => l
  | FoundTuples l => concat l
  end.

(** What one pattern adds to [matches]: the non-empty members of every
    tuple when [findall] returned tuples, the returned strings
    otherwise. *)
Definition found_items (f : found) : list text :=
  match f with
  | FoundTuples (g :: l) => concat (map (filter (fun m => truthy m = true)) (g :: l))
  | FoundTuples [] => []
  | FoundStrs l => l
  end.

Definition collect (patterns : list pattern) (t : text) : list text :=
  fold_left (fun matches p => matches ++ found_items (findall p t))
            patterns [].

(** [entities['custom'][k] = v] *)
Definition set_custom (k : string) (v : list text)
           (entities : gmap string value) : gmap string value :=
  match entities !! "custom" with
  | Some (VDict d) => <["custom" := VDict (<[k := v]> d)]> entities
  | _ => entities
  end.

Definition extract_entities (t : text) : gmap string value :=
  let entities : gmap string value :=
    <["custom" := VDict ∅]>
      (<["locations" := VList []]>
         (<["money" := VList []]>
            (<["dates" := VList []]>
               (<["persons" := VList []]>
                  (<["organizations" := VList []]> ∅))))) in
  let entities :=
    <["organizations" :=
        VList (list_of_set (found_strs (findall org_pattern t)))]>
      entities in
  fold_left
    (fun entities '(entity_type, patterns) =>
       set_custom entity_type (list_of_set (collect patterns t)) entities)
    legal_patterns entities.

(** *** Sentence splitting, shared by the two functions below *)

(* [.!?]+ *)
Definition sentence_end : pattern :=
  Pattern false
    (plus (CSet false [CChar (ch "."); CChar (ch "!"); CChar (ch "?")]))
    0.

(** [[s.strip() for s in re.split(r'[.!?]+', text) if s.strip()]] *)
Definition sentences (t : text) : list text :=
  map strip (filter (fun s => truthy (strip s) = true) (split sentence_end t)).

(** [any(marker in s for marker in markers)] *)
Definition any_in (markers : list text) (s : text) : bool :=
  existsb (fun marker => contains marker s) markers.

(** *** [classify_clauses] *)

Record classified := Classified {
  obligations : list text;
  rights : list text;
  prohibitions : list text
}.

Definition classify_step (c : classified) (sent : text) : classified :=
  let sent_lower := lower sent in
  if any_in prohibition_markers sent_lower then
    Classified (obligations c) (rights c) (prohibitions c ++ [sent])
  else if any_in obligation_markers sent_lower then
    Classified (obligations c ++ [sent]) (rights c) (prohibitions c)
  else if any_in right_markers sent_lower then
    Classified (obligations c) (rights c ++ [sent]) (prohibitions c)
  else c.

Definition classify_clauses (t : text) : classified :=
  fold_left classify_step (sentences t) (Classified [] [] []).

(** *** [detect_ambiguous_terms] *)

Definition ambiguous_terms : list text :=
  [str "reasonable"; str "appropriate"; str "as soon as possible";
   str "promptly"; str "substantial"; str "material"; str "best efforts";
   str "good faith"; str "approximately"; str "around"; str "may";
   str "might"; str "could"].

Record flag := Flag {
  sentence : text;
  terms : list text;
  concern : string
}.

Definition flag_step (flagged : list flag) (sent : text) : list flag :=
  let sent_lower := lower sent in
  let found_terms :=
    filter (fun term => contains term sent_lower = true) ambiguous_terms in
  match found_terms with
  | [] => flagged
  | _ :: _ =>
      flagged ++ [Flag sent found_terms "Vague language may lead to disputes"]
  end.

Definition detect_ambiguous_terms (t : text) : list flag :=
  fold_left flag_step (sentences t) [].

End LegalNLPEngine.

(* ===================================================================== *)
(** ** [modules/risk_analyzer.py]: class [RiskAnalyzer] *)
(* ===================================================================== *)

Module RiskAnalyzer.

(** The three keys of [self.risk_patterns] and of [weights]. *)
Inductive tier := High | Medium | Low.

Definition ci (l : list regex) (n : nat) : pattern := Pattern true (cat l) n.

(** [self.risk_patterns['high']] *)
Definition high_patterns : list (string * list pattern) :=
  [ ("unlimited_liability",
     [ (* (?i)unlimited\s+liability *)
       ci [lit "unlimited"; ws1; lit "liability"] 0;
       (* (?i)without\s+any\s+limit *)
       ci [lit "without"; ws1; lit "any"; ws1; lit "limit"] 0;
       (* (?i)entire\s+liability *)
       ci [lit "entire"; ws1; lit "liability"] 0 ]);
    ("unilateral_termination",
     [ (* (?i)(party\s+[AB]|company|first\s+party)\s+may\s+terminate
              .*without\s+(notice|cause) *)
       ci [Group 1 (alt [cat [lit "party"; ws1;
                              CSet false [CChar (ch "A"); CChar (ch "B")]];
                         lit "company";
                         cat [lit "first"; ws1; lit "party"]]);
           ws1; lit "may"; ws1; lit "terminate"; any; lit "without"; ws1;
           Group 2 (alt [lit "notice"; lit "cause"])] 2;
       (* (?i)terminate\s+at\s+will *)
       ci [lit "terminate"; ws1; lit "at"; ws1; lit "will"] 0;
       (* (?i)sole\s+discretion.*terminate *)
       ci [lit "sole"; ws1; lit "discretion"; any; lit "terminate"] 0 ]);
    ("ip_transfer",
     [ (* (?i)all\s+intellectual\s+property.*transferred *)
       ci [lit "all"; ws1; lit "intellectual"; ws1; lit "property"; any;
           lit "transferred"] 0;
       (* (?i)ownership.*vests.*exclusively *)
       ci [lit "ownership"; any; lit "vests"; any; lit "exclusively"] 0;
       (* (?i)irrevocable.*assignment.*ip *)
       ci [lit "irrevocable"; any; lit "assignment"; any; lit "ip"] 0 ]);
    ("non_compete_broad",
     [ (* (?i)non-compete.*\d+\s+(years|year) *)
       ci [lit "non-compete"; any; plus digit; ws1;
           Group 1 (alt [lit "years"; lit "year"])] 1;
       (* (?i)not\s+engage.*competing.*business *)
       ci [lit "not"; ws1; lit "engage"; any; lit "competing"; any;
           lit "business"] 0;
       (* (?i)restricted.*similar.*activity *)
       ci [lit "restricted"; any; lit "similar"; any; lit "activity"] 0 ]) ].

(** [self.risk_patterns['medium']] *)
Definition medium_patterns : list (string * list pattern) :=
  [ ("auto_renewal",
     [ (* (?i)automatically\s+renewed? *)
       ci [lit "automatically"; ws1; lit "renewe"; opt (Lit (ch "d"))] 0;
       (* (?i)auto-renewal *)
       ci [lit "auto-renewal"] 0;
       (* (?i)unless.*notice.*\d+\s+days.*renew *)
       ci [lit "unless"; any; lit "notice"; any; plus digit; ws1;
           lit "days"; any; lit "renew"] 0 ]);
    ("penalty_clause",
     [ (* (?i)penalty.*â‚¹?\d+ : the optional character is U+00B9 *)
       ci [lit "penalty"; any; Lit 226; Lit 8218; opt (Lit 185);
           plus digit] 0;
       (* (?i)liquidated\s+damages *)
       ci [lit "liquidated"; ws1; lit "damages"] 0;
       (* (?i)shall\s+pay.*breach *)
       ci [lit "shall"; ws1; lit "pay"; any; lit "breach"] 0 ]);
    ("jurisdiction_limited",
     [ (* (?i)exclusive\s+jurisdiction *)
       ci [lit "exclusive"; ws1; lit "jurisdiction"] 0;
       (* (?i)courts?\s+at\s+\w+\s+only *)
       ci [lit "court"; opt (Lit (ch "s")); ws1; lit "at"; ws1; plus word;
           ws1; lit "only"] 0;
       (* (?i)subject\s+to.*jurisdiction.*\w+ *)
       ci [lit "subject"; ws1; lit "to"; any; lit "jurisdiction"; any;
           plus word] 0 ]);
    ("indemnity_broad",
     [ (* (?i)indemnify.*hold\s+harmless *)
       ci [lit "indemnify"; any; lit "hold"; ws1; lit "harmless"] 0;
       (* (?i)defend.*against\s+any\s+claims? *)
       ci [lit "defend"; any; lit "against"; ws1; lit "any"; ws1;
           lit "claim"; opt (Lit (ch "s"))] 0;
       (* (?i)indemnification.*losses *)
       ci [lit "indemnification"; any; lit "losses"] 0 ]) ].

(** [self.risk_patterns['low']] *)
Definition low_patterns : list (string * list pattern) :=
  [ ("notice_period",
     [ (* (?i)\d+\s+days?\s+notice *)
       ci [plus digit; ws1; lit "day"; opt (Lit (ch "s")); ws1;
           lit "notice"] 0;
       (* (?i)notice\s+period.*\d+ *)
       ci [lit "notice"; ws1; lit "period"; any; plus digit] 0 ]);
    ("confidentiality",
     [ (* (?i)confidential\s+information *)
       ci [lit "confidential"; ws1; lit "information"] 0;
       (* (?i)non-disclosure *)
       ci [lit "non-disclosure"] 0 ]) ].

Definition risk_patterns : list (tier * list (string * list pattern)) :=
  [ (High, high_patterns); (Medium, medium_patterns); (Low, low_patterns) ].

Record RiskFinding := Finding {
  category : string;
  matched_text : text;
  context : text;
  position : Z
}.

(** [risk_findings] while the pattern loops run. *)
Record findings := Findings {
  f_high : list RiskFinding;
  f_medium : list RiskFinding;
  f_low : list RiskFinding
}.

(** [risk_findings[level]] *)
Definition tier_findings (rf : findings) (level : tier) : list RiskFinding :=
  match level with
  | High => f_high rf
  | Medium => f_medium rf
  | Low => f_low rf
  end.

(** [risk_findings[risk_level].append(f)] *)
Definition append_finding (level : tier) (f : RiskFinding) (rf : findings)
  : findings :=
  match level with
  | High => Findings (f_high rf ++ [f]) (f_medium rf) (f_low rf)
  | Medium => Findings (f_high rf) (f_medium rf ++ [f]) (f_low rf)
  | Low => Findings (f_high rf) (f_medium rf) (f_low rf ++ [f])
  end.

(** The body of the innermost loop: the finding built from one match. *)
Definition finding_of (t : text) (cat_name : string) (m : Match)
  : RiskFinding :=
  let start := Z.max 0 (Z.of_nat (m_start m) - 50) in
  let end_ := Z.min (Z.of_nat (length t)) (Z.of_nat (m_end m) + 50) in
  let context := slice t start end_ in
  Finding cat_name (group0 t m) context (Z.of_nat (m_start m)).

Definition scan_pattern (t : text) (level : tier) (cat_name : string)
           (rf : findings) (p : pattern) : findings :=
  fold_left (fun rf m => append_finding level (finding_of t cat_name m) rf)
            (finditer p t) rf.

Definition scan_category (t : text) (level : tier) (rf : findings)
           (c : string * list pattern) : findings :=
  fold_left (scan_pattern t level (fst c)) (snd c) rf.

Definition scan_tier (t : text) (rf : findings)
           (l : tier * list (string * list pattern)) : findings :=
  fold_left (scan_category t (fst l)) (snd l) rf.

Definition weights : list (tier * Z) := [(High, 10); (Medium, 5); (Low, 1)]%Z.

(** [sum(...)] over a list of integers. *)
Definition sum (l : list Z) : Z := fold_left Z.add l 0%Z.

Definition total_score (rf : findings) : Z :=
  sum (map (fun lw => Z.of_nat (length (tier_findings rf (fst lw))) * snd lw)%Z
           weights).

(** The returned dictionary. *)
Record RiskReport := Report {
  high : list RiskFinding;
  medium : list RiskFinding;
  low : list RiskFinding;
  composite_score : Z;
  level : string;
  recommendation : string
}.

(** [analyze_contract(text, entities)] *)
Definition analyze_contract (t : text)
           (entities : gmap string LegalNLPEngine.value) : RiskReport :=
  let rf := fold_left (scan_tier t) risk_patterns (Findings [] [] []) in
  let score := Z.min 100 (total_score rf) in
  if (score >? 60)%Z then
    Report (f_high rf) (f_medium rf) (f_low rf) score
           "HIGH RISK" "Immediate legal review recommended"
  else if (score >? 30)%Z then
    Report (f_high rf) (f_medium rf) (f_low rf) score
           "MEDIUM RISK" "Review and negotiate key clauses"
  else
    Report (f_high rf) (f_medium rf) (f_low rf) score
           "LOW RISK" "Standard contract with minor concerns".

(** *** [check_indian_compliance] *)

Definition essential_elements : list (string * pattern) :=
  [ ("consideration",
     (* (?i)(consideration|valuable\s+consideration|monetary|payment) *)
     ci [Group 1 (alt [lit "consideration";
                       cat [lit "valuable"; ws1; lit "consideration"];
                       lit "monetary"; lit "payment"])] 1);
    ("free_consent",
     (* (?i)(consent|agree|acceptance|mutual\s+understanding) *)
     ci [Group 1 (alt [lit "consent"; lit "agree"; lit "acceptance";
                       cat [lit "mutual"; ws1; lit "understanding"]])] 1);
    ("competent_parties",
     (* (?i)(major|age\s+of\s+majority|sound\s+mind|competent) *)
     ci [Group 1 (alt [lit "major";
                       cat [lit "age"; ws1; lit "of"; ws1; lit "majority"];
                       cat [lit "sound"; ws1; lit "mind"];
                       lit "competent"])] 1);
    ("lawful_object",
     (* (?i)(lawful\s+purpose|legal\s+object|legitimate) *)
     ci [Group 1 (alt [cat [lit "lawful"; ws1; lit "purpose"];
                       cat [lit "legal"; ws1; lit "object"];
                       lit "legitimate"])] 1) ].

(** One entry of the returned list; [note] is the optional key. *)
Record ComplianceResult := Compliance {
  element : string;
  status : string;
  severity : string;
  note : option string
}.

Definition check_element (t : text) (e : string * pattern)
  : ComplianceResult :=
  match search (snd e) t with
  | None =>
      Compliance (fst e) "MISSING" "high"
        (Some (String.append "Contract should explicitly mention "
                 (String.append (fst e)
                    " as per Section 10, Indian Contract Act")))
  | Some _ => Compliance (fst e) "PRESENT" "none" None
  end.

(** [check_indian_compliance(text, contract_type)] *)
Definition check_indian_compliance (t : text) (contract_type : string)
  : list ComplianceResult :=
  fold_left (fun compliance_checks e => compliance_checks ++ [check_element t e])
            essential_elements [].

End RiskAnalyzer.

(* ===================================================================== *)
(** ** [modules/parser.py]: class [ContractParser] *)
(* ===================================================================== *)

(** The PDF and Word libraries and the file system are outside the
    program.  What they do with the file at [file_path] is an input of
    the model: each call returns a value or raises an exception, of which
    the program keeps the message [str(e)]. *)
Module ContractParser.

(** One entry of [sections]. *)
Record section := Section_ {
  header : text;
  position : Z
}.

(** A value of the [metadata] dictionary. *)
Inductive meta :=
| MInt (n : Z)
| MStr (s : text).

(** The dictionary every parser returns. *)
Record parsed := Parsed {
  raw_text : text;
  sections : list section;
  metadata : gmap string meta
}.

Definition section_patterns : list pattern :=
  [ (* (?i)(article|section|clause)\s+(\d+) *)
    Pattern true
      (cat [Group 1 (alt [lit "article"; lit "section"; lit "clause"]);
            ws1; Group 2 (plus digit)])
      2;
    (* (?i)(parties|definitions|scope|term|payment|liability) *)
    Pattern true
      (Group 1 (alt [lit "parties"; lit "definitions"; lit "scope";
                     lit "term"; lit "payment"; lit "liability"]))
      1 ].

(** [_detect_sections(text)].  [re.finditer] does not raise on these
    patterns, so the [except] branch of the loop is never taken. *)
Definition _detect_sections (t : text) : list section :=
  if negb (truthy t) || (Z.of_nat (length t) <? 10)%Z then []
  else
    fold_left
      (fun sections p =>
         fold_left
           (fun sections m =>
              sections ++ [Section_ (group0 t m) (Z.of_nat (m_start m))])
           (finditer p t) sections)
      section_patterns [].

(** One call of [page.extract_text()]: a string or [None], or an
    exception. *)
Inductive page_result :=
| PageText (s : option text)
| PageRaises (e : text).

(** One PDF library at work on the file: it raises before any page is
    counted, or it shows the pages, each read in turn, and may still
    raise when the file is closed. *)
Inductive pdf_run :=
| OpenRaises (e : text)
| Opened (pages : list page_result) (close : option text).

(** The loop over the pages ([text] is [txt] here): the text so far, and
    stopped the loop, if any. *)
Fixpoint read_pages (pages : list page_result) (txt : text)
  : text * option text :=
  match pages with
  | [] => (txt, None)
  | PageText (Some page_text) :: pages' =>
      read_pages pages'
        (if truthy page_text then txt ++ page_text ++ [nl; nl] else txt)
  | PageText None :: pages' => read_pages pages' txt
  | PageRaises e :: _ => (txt, Some e)
  end.

(** The body of one [try] block of [_parse_pdf]: the new [text] and
    [metadata], and the exception that left the block, if any. *)
Definition run_pdf (r : pdf_run) (txt : text) (metadata : gmap string meta)
  : text * gmap string meta * option text :=
  match r with
  | OpenRaises e => (txt, metadata, Some e)
  | Opened pages close =>
      let metadata := <["pages" := MInt (Z.of_nat (length pages))]> metadata in
      match read_pages pages txt with
      | (txt, Some e) => (txt, metadata, Some e)
      | (txt, None) => (txt, metadata, close)
      end
  end.

(** [_parse_pdf(file_path)], given what pdfplumber and PyPDF2 do with the
    file. *)
Definition _parse_pdf (plumber pypdf : pdf_run) : parsed :=
  let '(txt, metadata, e) := run_pdf plumber [] ∅ in
  let '(txt, metadata) :=
    match e with
    | None => (txt, metadata)
    | Some _ =>
        match run_pdf pypdf txt metadata with
        | (txt, metadata, None) => (txt, metadata)
        | (_, metadata, Some e2) =>
            (str "Could not extract text from PDF",
             <["error" := MStr e2]> metadata)
        end
    end in
  let txt :=
    if truthy (strip txt) then txt else str "No text extracted from PDF" in
  Parsed txt (_detect_sections txt) metadata.

(** [Document(file_path)]: the paragraphs' texts, or an exception. *)
Inductive docx_run :=
| DocxRaises (e : text)
| Paragraphs (paras : list text).

(** [_parse_docx(file_path)] *)
Definition _parse_docx (d : docx_run) : parsed :=
  match d with
  | Paragraphs paras =>
      let txt :=
        join [nl; nl] (filter (fun p => truthy (strip p) = true) paras) in
      Parsed txt (_detect_sections txt)
             {[ "paragraphs" := MInt (Z.of_nat (length paras)) ]}
  | DocxRaises e =>
      Parsed (str "Error reading Word document") []
             {[ "error" := MStr e ]}
  end.

(** [open(...).read()] with one encoding: the decoded text, or an
    exception. *)
Inductive read_result :=
| ReadOk (t : text)
| ReadRaises (e : text).

(** [_parse_txt(file_path)], given the outcome of reading the file as
    UTF-8 and as Latin-1. *)
Definition _parse_txt (utf8 latin1 : read_result) : parsed :=
  let ok txt := Parsed txt (_detect_sections txt) ∅ in
  match utf8 with
  | ReadOk txt => ok txt
  | ReadRaises _ =>
      match latin1 with
      | ReadOk txt => ok txt
      | ReadRaises e =>
          Parsed (str "Error reading text file") [] {[ "error" := MStr e ]}
      end
  end.

(** What the outside world does with one [file_path]. *)
Record file := File {
  pdfplumber : pdf_run;
  pypdf2 : pdf_run;
  docx : docx_run;
  read_utf8 : read_result;
  read_latin1 : read_result
}.

(** [parse_document(file_path, file_type)] *)
Definition parse_document (f : file) (file_type : text) : parsed :=
  if bool_decide (file_type = str "pdf") then
    _parse_pdf (pdfplumber f) (pypdf2 f)
  else if bool_decide (file_type = str "docx") then
    _parse_docx (docx f)
  else
    _parse_txt (read_utf8 f) (read_latin1 f).

End ContractParser.

(* ===================================================================== *)
(** ** [modules/llm_assistant.py]: class [ClaudeAssistant] *)
(* ===================================================================== *)

(** The HTTP exchange is outside the program: [requests.post] is a
    function of the URL and the prompt that returns a response or raises
    an exception. *)
Module ClaudeAssistant.

(** A value found in the decoded answer: a string, or anything else
    (null, a number, a boolean, a list, an object), none of which has a
    method [strip]. *)
Inductive json :=
| JStr (s : text)
| JOther.

(** What the program reads of a response: the status code, the body, and
    what [response.json()['candidates'][0]['content']['parts'][0]['text']]
    evaluates to, a value or the message of the exception it raises. *)
Record response := Response {
  status_code : Z;
  response_text : text;
  candidate_text : json + text
}.

(** A call returns a value or raises the named exception. *)
Inductive outcome (A : Type) :=
| Returns (a : A)
| Raises (exception : string).
Arguments Returns {A} a.
Arguments Raises {A} exception.

Inductive post_result :=
| PostReturns (r : response)
| PostRaises (e : text).

(** [self]: the key, and the network the requests go to. *)
Record assistant := Assistant {
  api_key : text;
  post : text -> text -> post_result
}.

Definition base_url : text :=
  str "https://generativelanguage.googleapis.com/v1beta/models/gemini-2.0-flash:generateContent".

(** [_call_gemini(prompt)]: the value at the expected place of the
    answer, whatever its type, or a message that starts with [Error]. *)
Definition _call_gemini (self : assistant) (prompt : text) : json :=
  let url := base_url ++ str "?key=" ++ api_key self in
  match post self url prompt with
  | PostReturns r =>
      if (status_code r =? 200)%Z then
        match candidate_text r with
        | inl v => v
        | inr e => JStr (str "Error calling API: " ++ e)
        end
      else
        JStr (str "Error: " ++ decimal (status_code r) ++ str " - "
                ++ response_text r)
  | PostRaises e => JStr (str "Error calling API: " ++ e)
  end.

Definition quote : text := [34%N].

Definition alternatives_prompt (unfavorable_clause concern : text) : text :=
  unlines ["This contract clause is concerning:"; ""]
  ++ [nl] ++ str "Original Clause: " ++ quote ++ unfavorable_clause ++ quote
  ++ [nl] ++ str "Concern: " ++ concern ++ [nl]
  ++ unlines
       [""; "Suggest 2 alternative wordings that would be more balanced and fair for an SME. Make them:";
        "- Legally sound"; "- Protecting both parties";
        "- Clear and unambiguous"; "- Suitable for Indian business context";
        ""; "Format: Return only the alternative clauses, numbered 1 and 2."].

(** [suggest_alternatives(unfavorable_clause, concern)]: [result.strip()]
    is outside every [try], and raises when [result] is no string. *)
Definition suggest_alternatives (self : assistant)
           (unfavorable_clause concern : text) : outcome (list text) :=
  match _call_gemini self (alternatives_prompt unfavorable_clause concern) with
  | JStr result =>
      let alternatives := str_split [nl; nl] (strip result) in
      Returns (map strip
                 (filter (fun alt => truthy (strip alt) = true) alternatives))
  | JOther => Raises "AttributeError"
  end.

Definition classify_prompt (t : text) : text :=
  unlines ["Classify this contract into ONE of these categories:";
           "- Employment Agreement"; "- Vendor/Supplier Contract";
           "- Service Agreement"; "- Lease Agreement"; "- Partnership Deed";
           "- NDA/Confidentiality Agreement"; "- Sales Agreement";
           "- Consulting Agreement"; "- Other"; ""; "Contract excerpt:"]
  ++ [nl] ++ slice t 0 1500 ++ [nl]
  ++ unlines [""; "Return ONLY the category name, nothing else."].

(** [classify_contract_type(text)] *)
Definition classify_contract_type (self : assistant) (t : text) : json :=
  _call_gemini self (classify_prompt t).

End ClaudeAssistant.

(* ===================================================================== *)
(** ** [app.py]: the steps around the analysis *)
(* ===================================================================== *)

Module App.

(** [uploaded_file.name.split('.')[-1]] *)
Definition file_ext (name : text) : text :=
  default [] (last (str_split (str ".") name)).

(** The style class of the risk level badge. *)
Definition badge (risk_level : string) : string :=
  if contains (str "HIGH") (str risk_level) then "risk-high"
  else if contains (str "MEDIUM") (str risk_level) then "risk-medium"
  else "risk-low".

(** What one run of the analysis stores in [contract_data] of the
    modules' results. *)
Record contract_data := ContractData {
  parsed : ContractParser.parsed;
  entities : gmap string LegalNLPEngine.value;
  classified : LegalNLPEngine.classified;
  ambiguous : list LegalNLPEngine.flag;
  risks : RiskAnalyzer.RiskReport;
  compliance : list RiskAnalyzer.ComplianceResult
}.

(** The analysis started on an uploaded file, from the file name and
    what the outside world does with the saved copy. *)
Definition start_analysis (f : ContractParser.file) (name : text)
  : contract_data :=
  let file_ext := file_ext name in
  let parsed := ContractParser.parse_document f file_ext in
  let entities :=
    LegalNLPEngine.extract_entities (ContractParser.raw_text parsed) in
  let classified :=
    LegalNLPEngine.classify_clauses (ContractParser.raw_text parsed) in
  let ambiguous :=
    LegalNLPEngine.detect_ambiguous_terms (ContractParser.raw_text parsed) in
  let risks :=
    RiskAnalyzer.analyze_contract (ContractParser.raw_text parsed) entities in
  let compliance :=
    RiskAnalyzer.check_indian_compliance (ContractParser.raw_text parsed)
                                         "general" in
  ContractData parsed entities classified ambiguous risks compliance.

End App.

(* ===================================================================== *)
(** ** Splitting and classification, as the specification words them *)
(* ===================================================================== *)

Module Spec.

(** One of the sentence terminators [.], [!], [?]. *)
Definition is_terminator (c : N) : bool :=
  (c =? 46)%N || (c =? 33)%N || (c =? 63)%N.

(** Split on one or more consecutive terminators: [acc] holds the
    current fragment in reverse, [in_run] tells that the previous
    character was a terminator. *)
Fixpoint split_runs (acc : text) (in_run : bool) (t : text) : list text :=
  match t with
  | [] => [rev acc]
  | c :: t' =>
      if is_terminator c
      then (if in_run then split_runs [] true t'
            else rev acc :: split_runs [] true t')
      else split_runs (c :: acc) false t'
  end.

(** Trim whitespace, drop empty fragments. *)
Definition sentences (t : text) : list text :=
  filter (fun s => s ≠ []) (map strip (split_runs [] false t)).

(** No whitespace at either end. *)
Definition trimmed (s : text) : Prop :=
  (∀ c, head s = Some c → is_space c = false)
  ∧ (∀ c, last s = Some c → is_space c = false).

(** The three clause classes. *)
Inductive clause_class := Prohibition | Obligation | Right.

#[export] Instance clause_class_eq_dec : EqDecision clause_class.
Proof. solve_decision. Defined.

(** Some marker of the list occurs in the lower-cased sentence. *)
Definition has_marker (markers : list text) (s : text) : bool :=
  existsb (fun marker => contains marker (lower s)) markers.

(** First matching rule wins: prohibition before obligation before right;
    a sentence with no marker has no class. *)
Definition class_of (s : text) : option clause_class :=
  if has_marker LegalNLPEngine.prohibition_markers s then Some Prohibition
  else if has_marker LegalNLPEngine.obligation_markers s then Some Obligation
  else if has_marker LegalNLPEngine.right_markers s then Some Right
  else None.

(** The vague terms that occur in the lower-cased sentence, in the order
    of the fixed list. *)
Definition vague_terms_in (s : text) : list text :=
  filter (fun term => contains term (lower s) = true)
         LegalNLPEngine.ambiguous_terms.

(** The flag raised for a sentence. *)
Definition flag_of (s : text) : LegalNLPEngine.flag :=
  LegalNLPEngine.Flag s (vague_terms_in s)
                      "Vague language may lead to disputes".

End Spec.

(* ===================================================================== *)
(** ** Vocabulary of the statements *)
(* ===================================================================== *)

Module Aux.

Import RiskAnalyzer.

(** [s'] is reached from [s] by consuming characters of the subject. *)
Definition follows (s s' : mstate) : Prop :=
  pos s ≤ pos s' ∧ pos s' + length (rest s') = pos s + length (rest s).

(** A matcher in continuation-passing style is sound when every result
    it returns was produced by its continuation, at a state further
    along the subject. *)
Definition sound_matcher
           (m : (mstate → option mstate) → mstate → option mstate) : Prop :=
  ∀ k s res, m k s = Some res → ∃ s', follows s s' ∧ k s' = Some res.

(** A matcher that treats its continuation as a function: continuations
    that agree everywhere give the same result. *)
Definition ext_matcher
           (m : (mstate → option mstate) → mstate → option mstate) : Prop :=
  ∀ k1 k2, (∀ s, k1 s = k2 s) → ∀ s, m k1 s = m k2 s.

(** The members of the set in [[.!?]+]. *)
Definition terminator_items : list citem :=
  [CChar (ch "."); CChar (ch "!"); CChar (ch "?")].

#[export] Instance tier_eq_dec : EqDecision tier.
Proof. solve_decision. Defined.

(** The findings of one tier: for every category and every pattern of
    the catalog, in declaration order, one finding per match. *)
Definition findings_for (t : text) (cats : list (string * list pattern))
  : list RiskFinding :=
  flat_map (λ c, flat_map (λ p, map (finding_of t (fst c)) (finditer p t))
                          (snd c)) cats.

(** The state of [risk_findings] when the pattern loops are done. *)
Definition scanned (t : text) : findings :=
  fold_left (scan_tier t) risk_patterns (Findings [] [] []).

(** [n] copies of [s], one after the other. *)
Fixpoint copies (n : nat) (s : text) : text :=
  match n with
  | O => []
  | S n' => s ++ copies n' s
  end.

(** Texts with six, six and three high-severity matches; the first one
    has a low-severity match besides. *)
Definition text_61 : text :=
  copies 6 (str "terminate at will. ") ++ str "non-disclosure".
Definition text_60 : text := copies 6 (str "terminate at will. ").
Definition text_30 : text := copies 3 (str "terminate at will. ").

(** The finding [f] shows the offset, the text and the clamped window of
    the match [m]. *)
Definition window_ok (t : text) (m : Match) (f : RiskFinding) : Prop :=
  let start := Z.of_nat (m_start m) in
  let stop := Z.of_nat (m_end m) in
  (0 ≤ start ≤ stop)%Z ∧ (stop ≤ Z.of_nat (length t))%Z
  ∧ position f = start
  ∧ matched_text f = slice t start stop
  ∧ (position f + Z.of_nat (length (matched_text f)))%Z = stop
  ∧ context f
    = slice t (Z.max 0 (start - 50))
              (Z.min (Z.of_nat (length t)) (stop + 50)).

(** [report[level]] for one of the three tiers. *)
Definition tier_of (r : RiskReport) (lvl : tier) : list RiskFinding :=
  match lvl with High => high r | Medium => medium r | Low => low r end.

(** [entities['custom'].get(k)], as the display layer reads a category. *)
Definition custom_entities (ents : gmap string LegalNLPEngine.value)
           (k : string) : list text :=
  match ents !! "custom" with
  | Some (LegalNLPEngine.VDict d) => default [] (d !! k)
  | _ => []
  end.

(** Code points outside U+0000..U+00FF used in the examples: the em
    space U+2003, the thin space U+2009, the ideographic space U+3000,
    the Devanagari digits U+0966.., the Greek capital omega U+03A9, the
    Kelvin sign U+212A, the capital I with dot U+0130 and the combining
    dot above U+0307. *)
Definition em_space : N := 8195.
Definition thin_space : N := 8201.
Definition ideographic_space : N := 12288.
Definition devanagari (d : N) : N := (2406 + d)%N.
Definition omega : N := 937.
Definition kelvin : N := 8490.
Definition dotted_I : N := 304.
Definition dot_above : N := 775.

(** The scenario text of the specification. *)
Definition scenario_text : text :=
  str "Party A shall pay Rs. 50,000 within 30 days. Party A shall not disclose confidential information.".

(** *** Measures and orders on matches *)

(** The least number of characters a match of [r] consumes. *)
Fixpoint min_len (r : regex) : nat :=
  match r with
  | Empty | WordBoundary => 0
  | Lit _ | Dot | CSet _ _ => 1
  | Cat r1 r2 => min_len r1 + min_len r2
  | Alt r1 r2 => Nat.min (min_len r1) (min_len r2)
  | Repeat lo _ r' => lo * min_len r'
  | Group _ r' => min_len r'
  end.

(** The matches of [ms] follow one another from offset [n] on, without
    overlap. *)
Fixpoint ordered_from (n : nat) (ms : list Match) : Prop :=
  match ms with
  | [] => True
  | m :: ms' =>
      n ≤ m_start m ∧ m_start m ≤ m_end m ∧ ordered_from (m_end m) ms'
  end.

(** The scanner's move to the next offset when no match starts here. *)
Definition step (s : mstate) : mstate :=
  match rest s with
  | x :: t => advance x t s
  | [] => s
  end.

Fixpoint skip (n : nat) (s : mstate) : mstate :=
  match n with
  | O => s
  | S n' => skip n' (step s)
  end.

(** A continuation that accepts every state. *)
Definition accepting (k : mstate → option mstate) : Prop :=
  ∀ s, is_Some (k s).

(** A matcher that consumes at least [n] characters. *)
Definition consumes (n : nat)
           (m : (mstate → option mstate) → mstate → option mstate) : Prop :=
  ∀ k s res, m k s = Some res →
             ∃ s', pos s + n ≤ pos s' ∧ k s' = Some res.

(** Every pattern of the risk catalog. *)
Definition catalog_patterns : list pattern :=
  concat (map snd (concat (map snd risk_patterns))).

(** One finding ends before the next begins. *)
Definition before (f g : RiskFinding) : Prop :=
  (position f + Z.of_nat (length (matched_text f)) ≤ position g)%Z.

(** The compliance entry of [name] says PRESENT. *)
Definition present (checks : list ComplianceResult) (name : string) : Prop :=
  ∃ r, r ∈ checks ∧ element r = name ∧ status r = "PRESENT".

(** *** The parser *)

(** The section recorded for a match. *)
Definition section_of (t : text) (m : Match) : ContractParser.section :=
  ContractParser.Section_ (group0 t m) (Z.of_nat (m_start m)).

(** One section header ends before the next begins. *)
Definition header_before (a b : ContractParser.section) : Prop :=
  (ContractParser.position a
   + Z.of_nat (length (ContractParser.header a))
   ≤ ContractParser.position b)%Z.

(** The exception a PDF library ends with on a file, if it ends with
    one. *)
Fixpoint pages_fail (pages : list ContractParser.page_result)
  : option text :=
  match pages with
  | [] => None
  | ContractParser.PageRaises e :: _ => Some e
  | ContractParser.PageText _ :: pages' => pages_fail pages'
  end.

Definition pdf_fails (r : ContractParser.pdf_run) : option text :=
  match r with
  | ContractParser.OpenRaises e => Some e
  | ContractParser.Opened pages close =>
      match pages_fail pages with
      | Some e => Some e
      | None => close
      end
  end.

(** The text of pages that were read: each non-empty page followed by a
    blank line. *)
Definition pages_text (pages : list text) : text :=
  concat (map (λ page_text, page_text ++ [nl; nl])
              (filter (λ page_text, truthy page_text = true) pages)).

(** Pages that are read without an exception. *)
Definition readable (pages : list text) : list ContractParser.page_result :=
  map (λ page_text, ContractParser.PageText (Some page_text)) pages.

(** *** The assistant and the application *)


(** The exchange gave status 200 and the value [v] at the expected place
    of the JSON body. *)
Definition answer_is (p : ClaudeAssistant.post_result)
           (v : ClaudeAssistant.json) : Prop :=
  ∃ r, p = ClaudeAssistant.PostReturns r
       ∧ ClaudeAssistant.status_code r = 200%Z
       ∧ ClaudeAssistant.candidate_text r = inl v.

(** The fixed text of the classification prompt, before and after the
    excerpt. *)
Definition classify_head : text :=
  unlines ["Classify this contract into ONE of these categories:";
           "- Employment Agreement"; "- Vendor/Supplier Contract";
           "- Service Agreement"; "- Lease Agreement"; "- Partnership Deed";
           "- NDA/Confidentiality Agreement"; "- Sales Agreement";
           "- Consulting Agreement"; "- Other"; ""; "Contract excerpt:"]
  ++ [nl].
Definition classify_tail : text :=
  [nl; nl] ++ str "Return ONLY the category name, nothing else.".

(** An assistant whose service answers every request with status 200
    and the value [v] where the text is expected. *)
Definition answering (v : ClaudeAssistant.json) : ClaudeAssistant.assistant :=
  ClaudeAssistant.Assistant (str "key")
    (λ _ _, ClaudeAssistant.PostReturns
              (ClaudeAssistant.Response 200 (str "{}") (inl v))).

(** The separator of file name and extension. *)
Definition dot : N := 46.

(** The URL every request goes to. *)
Definition request_url (self : ClaudeAssistant.assistant) : text :=
  ClaudeAssistant.base_url ++ str "?key=" ++ ClaudeAssistant.api_key self.

(** A file that can only be read as UTF-8 text. *)
Definition text_file (t : text) : ContractParser.file :=
  ContractParser.File
    (ContractParser.OpenRaises (str "not a PDF"))
    (ContractParser.OpenRaises (str "not a PDF"))
    (ContractParser.DocxRaises (str "not a Word file"))
    (ContractParser.ReadOk t)
    (ContractParser.ReadOk t).

(** A file that no reader can open. *)
Definition unreadable : ContractParser.file :=
  ContractParser.File
    (ContractParser.OpenRaises (str "not a PDF"))
    (ContractParser.OpenRaises (str "not a PDF"))
    (ContractParser.DocxRaises (str "not a Word file"))
    (ContractParser.ReadRaises (str "permission denied"))
    (ContractParser.ReadRaises (str "permission denied")).

(** The texts the parsers return in place of a document they could not
    read. *)
Definition notices : list text :=
  [str "Could not extract text from PDF";
   str "Error reading Word document";
   str "Error reading text file"].


(** *** What a group can capture *)

(** A text without decimal digit. *)
Definition digit_free (l : text) : Prop := Forall (λ x, is_digit x = false) l.

(** No character the pattern consumes is a digit: it is made of literals
    other than digits. *)
Fixpoint no_digit_regex (r : regex) : bool :=
  match r with
  | Empty | WordBoundary => true
  | Lit c => negb (is_digit c) && negb (is_digit (lower_cp c))
  | Dot | CSet _ _ => false
  | Cat r1 r2 | Alt r1 r2 => no_digit_regex r1 && no_digit_regex r2
  | Repeat _ _ r' => no_digit_regex r'
  | Group _ r' => no_digit_regex r'
  end.

(** Every capturing group of the pattern is made of such literals. *)
Fixpoint groups_digit_free (r : regex) : bool :=
  match r with
  | Group _ r' => no_digit_regex r' && groups_digit_free r'
  | Cat r1 r2 | Alt r1 r2 => groups_digit_free r1 && groups_digit_free r2
  | Repeat _ _ r' => groups_digit_free r'
  | _ => true
  end.

(** A matcher state on the subject [t] whose groups captured no digit. *)
Definition good (t : text) (s : mstate) : Prop :=
  rest s = drop (pos s) t ∧ pos s ≤ length t
  ∧ Forall (λ c, digit_free (slice_nat t c.2.1 c.2.2)) (caps s).

(** A matcher that keeps states good and, when [pure], consumes no
    digit. *)
Definition clean_matcher (t : text) (pure : bool)
           (m : (mstate → option mstate) → mstate → option mstate) : Prop :=
  ∀ k s res, good t s → m k s = Some res →
    ∃ s', good t s' ∧ pos s ≤ pos s'
          ∧ (pure = true → digit_free (slice_nat t (pos s) (pos s')))
          ∧ k s' = Some res.

(** *** Letter case *)

(** Lower case within U+0000..U+00FF, where it keeps every code point in
    its place. *)
Definition low_cp (x : N) : N := if (x <? 256)%N then lower_cp x else x.

(** A matcher state over the subject so lower-cased. *)
Definition low_state (s : mstate) : mstate :=
  {| pos := pos s; rest := map low_cp (rest s);
     prev := option_map low_cp (prev s); caps := caps s |}.

(** Two continuations that do the same on a state and on its lower-cased
    twin. *)
Definition same_up_to_case (k k' : mstate → option mstate) : Prop :=
  ∀ s, k' (low_state s) = option_map low_state (k s).

(** The place and the category of a finding. *)
Definition place (f : RiskAnalyzer.RiskFinding) : string * Z :=
  (RiskAnalyzer.category f, RiskAnalyzer.position f).

(** What lower-casing keeps of a code point. *)
Definition case_blind (x : N) : bool :=
  (lower_cp (low_cp x) =? lower_cp x)%N
  && Bool.eqb (is_space (low_cp x)) (is_space x)
  && Bool.eqb (is_digit (low_cp x)) (is_digit x)
  && Bool.eqb (is_word (low_cp x)) (is_word x)
  && Bool.eqb (low_cp x =? 10)%N (x =? 10)%N
  && ((low_cp x =? x)%N || iscased x && iscased (low_cp x)).

End Aux.
Import Aux.

(* ===================================================================== *)
(** ** Properties of the matcher *)
(* ===================================================================== *)

Section MatcherInvariant.

Lemma follows_refl s : follows s s.
Proof. split; lia. Qed.

Lemma follows_trans s1 s2 s3 : follows s1 s2 → follows s2 s3 → follows s1 s3.
Proof. unfold follows. lia. Qed.

Lemma follows_advance s x t : rest s = x :: t → follows s (advance x t s).
Proof. unfold follows. intros ->. simpl. lia. Qed.

Lemma follows_set_cap s s' i a b : follows s s' → follows s (set_cap i a b s').
Proof. unfold follows. simpl. lia. Qed.

Lemma follows_restart s s' : follows s s' → follows s (restart s').
Proof. unfold follows. simpl. lia. Qed.

Lemma eat_sound f : sound_matcher (eat f).
Proof.
  intros k s res. unfold eat.
  destruct (rest s) as [|x t] eqn:Hr; [done|].
  destruct (f x); [|done].
  intros Hk. exists (advance x t s). split; [by apply follows_advance|done].
Qed.

Lemma rep_loop_sound lo hi body k :
  sound_matcher body →
  ∀ fuel cnt s res,
    rep_loop lo hi body k fuel cnt s = Some res →
    ∃ s', follows s s' ∧ k s' = Some res.
Proof.
  intros Hbody. induction fuel as [|fuel IH]; intros cnt s res; simpl; [done|].
  destruct (under_max cnt hi).
  - destruct (body _ s) as [res'|] eqn:Hb.
    + intros [= ->]. apply Hbody in Hb as (s1 & Hf1 & Hk1).
      destruct (length (rest s1) <? length (rest s)); [|done].
      apply IH in Hk1 as (s2 & Hf2 & Hk2).
      exists s2. split; [by eapply follows_trans|done].
    + destruct (lo <=? cnt); [|done].
      intros Hk. exists s. split; [apply follows_refl|done].
  - destruct (lo <=? cnt); [|done].
    intros Hk. exists s. split; [apply follows_refl|done].
Qed.

Lemma rmatch_sound ic r : sound_matcher (rmatch ic r).
Proof.
  induction r as [|c| |neg items| |r1 IH1 r2 IH2|r1 IH1 r2 IH2|lo hi r IH|i r IH];
    intros k s res; cbn [rmatch].
  - intros Hk. exists s. split; [apply follows_refl|done].
  - apply eat_sound.
  - apply eat_sound.
  - apply eat_sound.
  - destruct (xorb _ _); [|done].
    intros Hk. exists s. split; [apply follows_refl|done].
  - intros H. apply IH1 in H as (s1 & Hf1 & H).
    apply IH2 in H as (s2 & Hf2 & H).
    exists s2. split; [by eapply follows_trans|done].
  - destruct (rmatch ic r1 k s) as [res'|] eqn:H1.
    + intros [= ->]. by apply IH1.
    + apply IH2.
  - by apply rep_loop_sound.
  - intros H. apply IH in H as (s1 & Hf1 & H).
    exists (set_cap i (pos s) (pos s1) s1).
    split; [by apply follows_set_cap|done].
Qed.

Lemma match_at_follows p ma s s' :
  match_at p ma s = Some s' → follows s s'.
Proof.
  unfold match_at. intros H.
  apply rmatch_sound in H as (s1 & Hf & H).
  destruct (ma && (pos s1 =? pos s)); [done|]. by injection H as <-.
Qed.

(** Every match the scanner reports lies between the scanning offset
    and the end of the subject. *)
Lemma scan_bounds p fuel : ∀ ma s m,
  m ∈ scan p fuel ma s →
  pos s ≤ m_start m ∧ m_start m ≤ m_end m
  ∧ m_end m ≤ pos s + length (rest s).
Proof.
  induction fuel as [|fuel IH]; intros ma s m; simpl.
  - by intros ?%elem_of_nil.
  - destruct (match_at p ma s) as [s'|] eqn:Hm.
    + apply match_at_follows in Hm as [Hle Hlen].
      intros [->|Hin]%elem_of_cons; simpl; [lia|].
      apply IH in Hin. simpl in Hin. lia.
    + destruct (rest s) as [|x t] eqn:Hr; [by intros ?%elem_of_nil|].
      intros Hin%IH. simpl in *. lia.
Qed.

Lemma finditer_bounds p t m :
  m ∈ finditer p t → m_start m ≤ m_end m ∧ m_end m ≤ length t.
Proof.
  unfold finditer. intros H%scan_bounds. simpl in H. lia.
Qed.

(** *** The fuel of the two loops is never used up *)

Lemma eat_ext f : ext_matcher (eat f).
Proof.
  intros k1 k2 Hk s. unfold eat.
  destruct (rest s) as [|x t]; [done|]. by destruct (f x).
Qed.

Lemma rep_loop_ext lo hi body :
  ext_matcher body →
  ∀ fuel k1 k2, (∀ s, k1 s = k2 s) →
  ∀ cnt s, rep_loop lo hi body k1 fuel cnt s = rep_loop lo hi body k2 fuel cnt s.
Proof.
  intros Hbody. induction fuel as [|fuel IH]; intros k1 k2 Hk cnt s; simpl; [done|].
  rewrite (Hk s).
  destruct (under_max cnt hi); [|done].
  erewrite Hbody; [done|].
  intros s'. simpl. destruct (_ <? _); [by apply IH|done].
Qed.

Lemma rmatch_ext ic r : ext_matcher (rmatch ic r).
Proof.
  induction r as [|c| |neg items| |r1 IH1 r2 IH2|r1 IH1 r2 IH2|lo hi r IH|i r IH];
    intros k1 k2 Hk s; cbn [rmatch]; try (by apply eat_ext).
  - done.
  - by rewrite Hk.
  - apply IH1. intros s'. by apply IH2.
  - by rewrite (IH1 k1 k2 Hk), (IH2 k1 k2 Hk).
  - by apply rep_loop_ext.
  - apply IH. intros s'. apply Hk.
Qed.

(** Any fuel above the length of the text ahead gives the same result. *)
Lemma rep_loop_fuel lo hi body k :
  ext_matcher body →
  ∀ fuel1 fuel2 cnt s,
    length (rest s) < fuel1 → length (rest s) < fuel2 →
    rep_loop lo hi body k fuel1 cnt s = rep_loop lo hi body k fuel2 cnt s.
Proof.
  intros Hbody. induction fuel1 as [|fuel1 IH]; intros fuel2 cnt s H1 H2; [lia|].
  destruct fuel2 as [|fuel2]; [lia|]. simpl.
  destruct (under_max cnt hi); [|done].
  erewrite Hbody; [done|].
  intros s'. simpl. destruct (_ <? _) eqn:E; [|done].
  apply Nat.ltb_lt in E. apply IH; lia.
Qed.

Lemma match_at_advances p s s' :
  match_at p true s = Some s' → pos s' ≠ pos s.
Proof.
  unfold match_at. intros H.
  apply rmatch_sound in H as (s1 & _ & H). simpl in H.
  destruct (pos s1 =? pos s) eqn:E; [done|].
  injection H as <-. by apply Nat.eqb_neq.
Qed.

(** The scanner takes at most two steps per character. *)
Lemma scan_fuel p : ∀ fuel1 fuel2 (ma : bool) s,
  2 * length (rest s) + (if ma then 1 else 2) ≤ fuel1 →
  2 * length (rest s) + (if ma then 1 else 2) ≤ fuel2 →
  scan p fuel1 ma s = scan p fuel2 ma s.
Proof.
  induction fuel1 as [|fuel1 IH]; intros fuel2 ma s H1 H2;
    [destruct ma; lia|].
  destruct fuel2 as [|fuel2]; [destruct ma; lia|]. simpl.
  destruct (match_at p ma s) as [s'|] eqn:Hm.
  - f_equal. pose proof (match_at_follows _ _ _ _ Hm) as [Hle Hlen].
    assert (2 * length (rest s') + (if pos s' =? pos s then 1 else 2)
            ≤ 2 * length (rest s) + (if ma then 1 else 2) - 1) as Hstep.
    { destruct (pos s' =? pos s) eqn:E.
      - apply Nat.eqb_eq in E. destruct ma; [|lia].
        by apply match_at_advances in Hm.
      - apply Nat.eqb_neq in E. destruct ma; lia. }
    apply IH; simpl; lia.
  - destruct (rest s) as [|x t] eqn:Hr; [done|].
    apply IH; simpl in *; destruct ma; lia.
Qed.

Lemma finditer_fuel p t fuel :
  2 * length t + 2 ≤ fuel →
  scan p fuel false {| pos := 0; rest := t; prev := None; caps := [] |}
  = finditer p t.
Proof. intros H. unfold finditer. apply scan_fuel; simpl; lia. Qed.

End MatcherInvariant.

(* ===================================================================== *)
(** ** Properties of the string operations *)
(* ===================================================================== *)

Section TextFacts.

Lemma norm_index_nonneg len i :
  (0 ≤ i ≤ len)%Z → norm_index len i = i.
Proof.
  intros H. unfold norm_index.
  destruct (i <? 0)%Z eqn:E; [apply Z.ltb_lt in E; lia|lia].
Qed.

(** Inside the bounds a slice is a [take] of a [drop]. *)
Lemma slice_inside (t : text) (a b : nat) :
  a ≤ b → b ≤ length t →
  slice t (Z.of_nat a) (Z.of_nat b) = take (b - a) (drop a t).
Proof.
  intros Hab Hb. unfold slice.
  rewrite !norm_index_nonneg by lia.
  f_equal; [lia|]. f_equal. lia.
Qed.

Lemma slice_nat_length (t : text) (a b : nat) :
  a ≤ b → b ≤ length t → length (slice_nat t a b) = b - a.
Proof.
  intros Hab Hb. unfold slice_nat. rewrite slice_inside by done.
  rewrite length_take, length_drop. lia.
Qed.

Lemma slice_nat_mid (pre mid u : text) :
  slice_nat (pre ++ mid ++ u) (length pre) (length pre + length mid) = mid.
Proof.
  unfold slice_nat. rewrite slice_inside.
  - rewrite drop_app_length.
    replace (length pre + length mid - length pre) with (length mid) by lia.
    by rewrite take_app_length.
  - lia.
  - rewrite !length_app. lia.
Qed.

Lemma starts_with_spec (p s : text) :
  starts_with p s = true ↔ ∃ b, s = p ++ b.
Proof.
  revert s. induction p as [|a p IH]; intros s; simpl.
  - split; [eauto|done].
  - destruct s as [|c s].
    + split; [done|]. by intros [b ?].
    + rewrite andb_true_iff, N.eqb_eq, IH. split.
      * intros [-> [b ->]]. eauto.
      * intros [b [= -> ->]]. eauto.
Qed.

(** [contains] is the substring relation. *)
Lemma contains_spec (p s : text) :
  contains p s = true ↔ ∃ a b, s = a ++ p ++ b.
Proof.
  induction s as [|c s IH]; simpl.
  - rewrite orb_false_r, starts_with_spec. split.
    + intros [b ->]. by exists [], b.
    + intros (a & b & H). destruct a; [by exists b|done].
  - rewrite orb_true_iff, starts_with_spec, IH. split.
    + intros [[b ->]|(a & b & ->)]; [by exists [], b|by exists (c :: a), b].
    + intros (a & b & H). destruct a as [|x a]; simpl in H.
      * left. eauto.
      * injection H as -> ->. right. eauto.
Qed.

Lemma lstrip_suffix (s : text) : ∃ a, s = a ++ lstrip s.
Proof.
  induction s as [|c s [a IH]]; simpl; [by exists []|].
  destruct (is_space c); [|by exists []].
  exists (c :: a). simpl. by f_equal.
Qed.

(** A stripped string is a contiguous part of the original. *)
Lemma strip_infix (s : text) : ∃ a b, s = a ++ strip s ++ b.
Proof.
  unfold strip, rstrip.
  destruct (lstrip_suffix s) as [a Ha].
  destruct (lstrip_suffix (rev (lstrip s))) as [b Hb].
  exists a, (rev b).
  rewrite <- rev_app_distr, <- Hb, rev_involutive. done.
Qed.

Lemma lstrip_head (s : text) :
  match lstrip s with [] => True | c :: _ => is_space c = false end.
Proof.
  induction s as [|c s IH]; simpl; [done|].
  destruct (is_space c) eqn:E; done.
Qed.

End TextFacts.

Section Splitting.

Import Spec.

Lemma terminator_set c :
  set_match false false terminator_items c = is_terminator c.
Proof.
  unfold set_match, is_terminator. simpl.
  by rewrite orb_false_r, orb_assoc.
Qed.

(** Every text is a maximal run of characters satisfying [f] followed
    by a remainder that does not start with one. *)
Lemma maximal_run (f : N → bool) (l : text) :
  ∃ run u, l = run ++ u ∧ Forall (λ c, f c = true) run
           ∧ (∀ x, head u = Some x → f x = false).
Proof.
  induction l as [|c l (run & u & -> & Hrun & Hu)].
  - exists [], []. by repeat split.
  - destruct (f c) eqn:E.
    + exists (c :: run), u. repeat split; [by constructor|done].
    + exists [], (c :: run ++ u). repeat split; [constructor|].
      intros x [= <-]. done.
Qed.

(** The greedy loop of [f+] takes the whole maximal run, when nothing
    after it can fail. *)
Lemma rep_loop_run (f : N → bool) body :
  (∀ k s, body k s = eat f k s) →
  ∀ run fuel cnt s u,
    rest s = run ++ u →
    Forall (λ c, f c = true) run →
    (∀ x, head u = Some x → f x = false) →
    length run < fuel →
    1 ≤ cnt + length run →
    ∃ s', rep_loop 1 None body Some fuel cnt s = Some s'
          ∧ pos s' = pos s + length run ∧ rest s' = u.
Proof.
  intros Hbody. induction run as [|x run IH]; intros fuel cnt s u Hr Hrun Hu Hf Hc.
  - simpl in *. destruct fuel as [|fuel]; [lia|].
    destruct cnt as [|cnt]; [lia|]. simpl.
    rewrite Hbody. unfold eat. rewrite Hr.
    destruct u as [|y u].
    + exists s. split; [done|]. split; [lia|done].
    + rewrite (Hu y eq_refl). exists s. split; [done|]. split; [lia|done].
  - destruct fuel as [|fuel]; [simpl in Hf; lia|]. simpl.
    rewrite Hbody. unfold eat at 1. rewrite Hr. simpl.
    apply Forall_cons in Hrun as [-> Hrun].
    assert ((length (run ++ u) <? S (length (run ++ u))) = true) as ->
      by (apply Nat.ltb_lt; lia).
    destruct (IH fuel (S cnt) (advance x (run ++ u) s) u)
      as (s' & -> & Hp & Hrest); simpl in *; try done; try lia.
    exists s'. split; [done|]. split; [lia|done].
Qed.

Lemma rep_loop_none (f : N → bool) body :
  (∀ k s, body k s = eat f k s) →
  ∀ fuel s k,
    (∀ x, head (rest s) = Some x → f x = false) →
    rep_loop 1 None body k fuel 0 s = None.
Proof.
  intros Hbody [|fuel] s k Hu; simpl; [done|].
  rewrite Hbody. unfold eat.
  destruct (rest s) as [|x t]; [done|]. by rewrite (Hu x eq_refl).
Qed.

Lemma split_runs_skip (run u : text) :
  Forall (λ c, is_terminator c = true) run →
  split_runs [] true (run ++ u) = split_runs [] true u.
Proof.
  induction 1 as [|c run Hc _ IH]; simpl; [done|]. by rewrite Hc.
Qed.

Lemma split_runs_restart (u : text) :
  (∀ x, head u = Some x → is_terminator x = false) →
  split_runs [] true u = split_runs [] false u.
Proof.
  destruct u as [|x u]; simpl; [done|]. intros H. by rewrite (H x eq_refl).
Qed.

(** The scanner for [[.!?]+] cuts the subject exactly where
    [split_runs] does.  [pre] is the text before the last cut and [mid]
    the fragment collected since. *)
Lemma scan_sentence_end fuel : ∀ s pre mid,
  pos s = length pre + length mid →
  length (rest s) < fuel →
  split_pieces (pre ++ mid ++ rest s) (length pre)
               (scan LegalNLPEngine.sentence_end fuel false s)
  = split_runs (rev mid) false (rest s).
Proof.
  induction fuel as [fuel IH] using lt_wf_ind.
  intros s pre mid Hpos Hfuel.
  destruct fuel as [|fuel]; [lia|]. cbn [scan].
  unfold match_at. cbn [LegalNLPEngine.sentence_end ignorecase body plus rmatch andb].
  change (λ s' : mstate, Some s') with (@Some mstate).
  match goal with |- context [rep_loop 1 None ?b _ _ _ _] => set (m := b) end.
  assert (∀ k s, m k s = eat is_terminator k s) as Hbody.
  { intros k s0. unfold m, eat. destruct (rest s0) as [|x t]; [done|].
    change (set_match false false _ x)
      with (set_match false false terminator_items x).
    by rewrite terminator_set. }
  destruct (maximal_run is_terminator (rest s)) as (run & u & Hr & Hrun & Hu).
  destruct run as [|c run].
  - (* no terminator here *)
    simpl in Hr.
    rewrite (rep_loop_none is_terminator) by (done || by rewrite Hr).
    destruct (rest s) as [|x t] eqn:Hs.
    + simpl. rewrite app_nil_r, rev_involutive.
      replace (length (pre ++ mid)) with (length pre + length mid)
        by (by rewrite length_app).
      f_equal. rewrite <- (app_nil_r mid) at 1. apply slice_nat_mid.
    + subst u. simpl. rewrite (Hu x eq_refl).
      specialize (IH fuel ltac:(lia) (advance x t s) pre (mid ++ [x])).
      simpl in IH. rewrite <- !app_assoc in IH. simpl in IH.
      rewrite IH; [by rewrite rev_app_distr| rewrite length_app; simpl; lia
                  | simpl in Hfuel; lia].
  - (* a run of terminators starts here *)
    destruct (rep_loop_run is_terminator _ Hbody (c :: run)
                (S (length (rest s))) 0 s u)
      as (s' & Hm & Hp & Hrest); try done.
    { rewrite Hr, length_app. simpl. lia. }
    { simpl. lia. }
    rewrite Hm. cbn [split_pieces m_start m_end].
    assert ((pos s' =? pos s) = false) as ->.
    { apply Nat.eqb_neq. simpl in Hp. lia. }
    rewrite Hr. simpl.
    apply Forall_cons in Hrun as [Hc Hrun]. rewrite Hc.
    rewrite rev_involutive. f_equal.
    + rewrite Hpos. apply slice_nat_mid.
    + rewrite split_runs_skip, split_runs_restart by done.
      specialize (IH fuel ltac:(lia) (restart s') (pre ++ mid ++ c :: run) []).
      simpl in IH. rewrite Hrest in IH.
      rewrite <- IH.
      * f_equal; [by rewrite <- !app_assoc|].
        rewrite Hp, Hpos, !length_app. simpl. lia.
      * rewrite Hp, Hpos, !length_app. simpl. lia.
      * rewrite Hr, length_app in Hfuel. simpl in Hfuel. lia.
Qed.

(** [re.split(r'[.!?]+', text)] splits on runs of terminators. *)
Lemma split_sentence_end (t : text) :
  split LegalNLPEngine.sentence_end t = split_runs [] false t.
Proof.
  unfold split, finditer.
  pose proof (scan_sentence_end (2 * length t + 2)
                {| pos := 0; rest := t; prev := None; caps := [] |} [] [])
    as H.
  simpl in H. apply H; lia.
Qed.

End Splitting.

Section Sentences.

Import Spec.

Lemma strip_trimmed (s : text) : trimmed (strip s).
Proof.
  unfold strip, rstrip.
  set (w := lstrip s). set (r := lstrip (rev w)).
  split; intros c; rewrite rev_alt; fold (reverse r).
  - rewrite head_reverse. intros Hl.
    destruct (lstrip_suffix (rev w)) as [a Ha]. fold r in Ha.
    assert (last (rev w) = Some c) as Hw.
    { rewrite Ha, last_app, Hl. done. }
    rewrite rev_alt in Hw. fold (reverse w) in Hw.
    rewrite last_reverse in Hw.
    pose proof (lstrip_head s) as Hh. fold w in Hh.
    destruct w as [|x w']; [done|]. by injection Hw as ->.
  - rewrite last_reverse. intros Hh.
    pose proof (lstrip_head (rev w)) as Hr. fold r in Hr.
    destruct r as [|x r']; [done|]. by injection Hh as ->.
Qed.

Lemma truthy_nonempty (s : text) : truthy s = true ↔ s ≠ [].
Proof. by destruct s. Qed.

Lemma map_filter_strip (l : list text) :
  map strip (filter (λ s, truthy (strip s) = true) l)
  = filter (λ s, s ≠ []) (map strip l).
Proof.
  induction l as [|x l IH]; [done|]. simpl.
  rewrite !filter_cons.
  destruct (decide (truthy (strip x) = true)) as [H|H];
    destruct (decide (strip x ≠ [])) as [H'|H'];
    rewrite ?truthy_nonempty in H; try done; simpl; by rewrite IH.
Qed.

(** The sentences the code computes are those of the specification. *)
Lemma sentences_spec (t : text) :
  LegalNLPEngine.sentences t = Spec.sentences t.
Proof.
  unfold LegalNLPEngine.sentences, Spec.sentences.
  by rewrite split_sentence_end, map_filter_strip.
Qed.

Lemma split_runs_no_terminator (t : text) : ∀ acc in_run,
  Forall (λ c, is_terminator c = false) acc →
  Forall (Forall (λ c, is_terminator c = false)) (split_runs acc in_run t).
Proof.
  induction t as [|c t IH]; intros acc in_run Hacc; simpl.
  - constructor; [|constructor].
    apply Forall_forall. intros x Hx. apply list_elem_of_In, in_rev in Hx.
    apply list_elem_of_In in Hx. by eapply Forall_forall in Hacc.
  - destruct (is_terminator c) eqn:E.
    + destruct in_run; [by apply IH|].
      constructor; [|by apply IH].
      apply Forall_forall. intros x Hx. apply list_elem_of_In, in_rev in Hx.
      apply list_elem_of_In in Hx. by eapply Forall_forall in Hacc.
    + apply IH. by constructor.
Qed.

(** Every sentence is non-empty, trimmed and free of terminators. *)
Lemma sentences_shape (t : text) (s : text) :
  s ∈ LegalNLPEngine.sentences t →
  s ≠ [] ∧ trimmed s ∧ Forall (λ c, is_terminator c = false) s.
Proof.
  rewrite sentences_spec. unfold Spec.sentences.
  intros [Hne Hin]%list_elem_of_filter.
  apply list_elem_of_In, in_map_iff in Hin as (p & <- & Hp).
  split; [done|]. split; [apply strip_trimmed|].
  apply list_elem_of_In in Hp.
  pose proof (split_runs_no_terminator t [] false (Forall_nil_2 _)) as Hall.
  eapply Forall_forall in Hall; [|done].
  destruct (strip_infix p) as (a & b & Hab).
  rewrite Hab in Hall.
  by apply Forall_app in Hall as [_ [Hs _]%Forall_app].
Qed.

End Sentences.

(* ===================================================================== *)
(** ** The risk scorer *)
(* ===================================================================== *)

Section RiskScorer.

Import RiskAnalyzer.

Lemma append_all_tier t lvl lvl' cat_name (ms : list Match) : ∀ rf,
  tier_findings
    (fold_left (λ rf m, append_finding lvl (finding_of t cat_name m) rf) ms rf)
    lvl'
  = tier_findings rf lvl'
    ++ (if decide (lvl = lvl') then map (finding_of t cat_name) ms else []).
Proof.
  induction ms as [|m ms IH]; intros rf; simpl.
  - destruct (decide _); by rewrite app_nil_r.
  - rewrite IH. destruct lvl, lvl'; simpl; by rewrite <- ?app_assoc.
Qed.

Lemma scan_category_tier t lvl lvl' (c : string * list pattern) rf :
  tier_findings (scan_category t lvl rf c) lvl'
  = tier_findings rf lvl'
    ++ (if decide (lvl = lvl') then findings_for t [c] else []).
Proof.
  unfold scan_category, findings_for. simpl. rewrite app_nil_r.
  generalize (fst c) as cat_name. intros cat_name.
  revert rf. induction (snd c) as [|p ps IH]; intros rf; simpl.
  - destruct (decide _); by rewrite app_nil_r.
  - rewrite IH. unfold scan_pattern. rewrite append_all_tier.
    destruct (decide _); by rewrite <- ?app_assoc, ?app_nil_r.
Qed.

Lemma findings_for_cons t c cats :
  findings_for t (c :: cats) = findings_for t [c] ++ findings_for t cats.
Proof. unfold findings_for. simpl. by rewrite app_nil_r. Qed.

Lemma scan_tier_tier t lvl lvl' cats : ∀ rf,
  tier_findings (scan_tier t rf (lvl, cats)) lvl'
  = tier_findings rf lvl'
    ++ (if decide (lvl = lvl') then findings_for t cats else []).
Proof.
  unfold scan_tier. cbn [fst snd].
  induction cats as [|c cats IH]; intros rf; cbn [fold_left].
  - destruct (decide _); by rewrite app_nil_r.
  - rewrite IH, scan_category_tier, (findings_for_cons t c cats).
    destruct (decide _); by rewrite <- ?app_assoc, ?app_nil_r.
Qed.

Lemma scanned_tiers t :
  f_high (scanned t) = findings_for t high_patterns
  ∧ f_medium (scanned t) = findings_for t medium_patterns
  ∧ f_low (scanned t) = findings_for t low_patterns.
Proof.
  unfold scanned, risk_patterns. cbn [fold_left].
  repeat split.
  - change (f_high ?x) with (tier_findings x High).
    rewrite !scan_tier_tier. simpl. by rewrite !app_nil_r.
  - change (f_medium ?x) with (tier_findings x Medium).
    rewrite !scan_tier_tier. simpl. by rewrite !app_nil_r.
  - change (f_low ?x) with (tier_findings x Low).
    rewrite !scan_tier_tier. simpl. by rewrite !app_nil_r.
Qed.

(** The report copies the three lists and the capped score. *)
Lemma report_fields t ents :
  let r := analyze_contract t ents in
  high r = f_high (scanned t) ∧ medium r = f_medium (scanned t)
  ∧ low r = f_low (scanned t)
  ∧ composite_score r = Z.min 100 (total_score (scanned t)).
Proof.
  unfold analyze_contract. fold (scanned t).
  destruct (_ >? 60)%Z; [done|]. destruct (_ >? 30)%Z; done.
Qed.

Lemma in_findings_for t cats f :
  f ∈ findings_for t cats ↔
  ∃ c p m, c ∈ cats ∧ p ∈ snd c ∧ m ∈ finditer p t
           ∧ f = finding_of t (fst c) m.
Proof.
  unfold findings_for. rewrite list_elem_of_In, in_flat_map. split.
  - intros (c & Hc & Hf). apply in_flat_map in Hf as (p & Hp & Hf).
    apply in_map_iff in Hf as (m & <- & Hm).
    exists c, p, m. by rewrite !list_elem_of_In.
  - intros (c & p & m & Hc & Hp & Hm & ->).
    exists c. split; [by apply list_elem_of_In|].
    apply in_flat_map. exists p. split; [by apply list_elem_of_In|].
    apply in_map_iff. exists m. split; [done|by apply list_elem_of_In].
Qed.

End RiskScorer.

Section RiskClaims.

Import RiskAnalyzer.

(** C1. For every text the composite score of the report is
    min(100, 10*|high| + 5*|medium| + 1*|low|), and it lies in
    [0,100]. *)
Theorem composite_score_formula (t : text)
        (ents : gmap string LegalNLPEngine.value) :
  let r := analyze_contract t ents in
  composite_score r
  = Z.min 100 (10 * Z.of_nat (length (high r))
               + 5 * Z.of_nat (length (medium r))
               + 1 * Z.of_nat (length (low r)))
  ∧ (0 ≤ composite_score r ≤ 100)%Z.
Proof.
  intros r. destruct (report_fields t ents) as (Hh & Hm & Hl & Hs).
  fold r in Hh, Hm, Hl, Hs. rewrite Hs, Hh, Hm, Hl.
  unfold total_score, sum, weights. simpl. lia.
Qed.

(** C2. Level and recommendation depend on the composite score alone,
    with strict thresholds: above 60 HIGH RISK, above 30 and up to 60
    MEDIUM RISK, up to 30 LOW RISK.  The boundary scores 61, 60 and 30
    are reached, and give HIGH, MEDIUM and LOW RISK. *)
Theorem verdict_thresholds :
  (∀ (t : text) (ents : gmap string LegalNLPEngine.value),
     let r := analyze_contract t ents in
     ((60 < composite_score r)%Z →
        level r = "HIGH RISK"
        ∧ recommendation r = "Immediate legal review recommended")
     ∧ ((30 < composite_score r ≤ 60)%Z →
        level r = "MEDIUM RISK"
        ∧ recommendation r = "Review and negotiate key clauses")
     ∧ ((composite_score r ≤ 30)%Z →
        level r = "LOW RISK"
        ∧ recommendation r = "Standard contract with minor concerns"))
  ∧ (composite_score (analyze_contract text_61 ∅) = 61%Z
     ∧ level (analyze_contract text_61 ∅) = "HIGH RISK")
  ∧ (composite_score (analyze_contract text_60 ∅) = 60%Z
     ∧ level (analyze_contract text_60 ∅) = "MEDIUM RISK")
  ∧ (composite_score (analyze_contract text_30 ∅) = 30%Z
     ∧ level (analyze_contract text_30 ∅) = "LOW RISK").
Proof.
  split; [|by vm_compute].
  intros t ents. unfold analyze_contract.
  set (score := Z.min 100 _).
  destruct (score >? 60)%Z eqn:E60; [|destruct (score >? 30)%Z eqn:E30];
    simpl; rewrite ?Z.gtb_ltb, ?Z.ltb_lt, ?Z.ltb_ge in *;
    repeat split; intros; try done; lia.
Qed.

(** C7. Neither the [entities] argument of [analyze_contract] nor the
    [contract_type] argument of [check_indian_compliance] has any
    influence on the result. *)
Theorem extra_arguments_unused (t : text)
        (ents1 ents2 : gmap string LegalNLPEngine.value)
        (type1 type2 : string) :
  analyze_contract t ents1 = analyze_contract t ents2
  ∧ check_indian_compliance t type1 = check_indian_compliance t type2.
Proof. split; reflexivity. Qed.

Lemma finding_of_window t cat_name p m :
  m ∈ finditer p t → window_ok t m (finding_of t cat_name m).
Proof.
  intros [Hse Hel]%finditer_bounds. unfold window_ok, finding_of. simpl.
  repeat split; try lia.
  unfold group0. rewrite slice_nat_length by done. lia.
Qed.

(** C8. The findings of a report are exactly the findings emitted for
    the matches of the catalog patterns, and the finding emitted for a
    match has as context the slice from 50 characters before the
    match start to 50 characters after the match end, clamped to the
    text, and as position the offset of the match, where the text
    reads [matched_text].  In the scenario text the one finding starts at
    offset 72 and its window is cut at the end of the text; a notice
    period written in Devanagari digits is found as well. *)
Theorem finding_context_and_position :
  (∀ (t : text) (ents : gmap string LegalNLPEngine.value),
  let r := analyze_contract t ents in
  (∀ lvl cats f,
      (lvl, cats) ∈ risk_patterns →
      (f ∈ tier_of r lvl ↔
       ∃ c p m, c ∈ cats ∧ p ∈ snd c ∧ m ∈ finditer p t
                ∧ f = finding_of t (fst c) m))
  ∧ (∀ f, f ∈ high r ++ medium r ++ low r →
          ∃ p m, m ∈ finditer p t ∧ window_ok t m f
                 ∧ slice t (position f)
                     (position f + Z.of_nat (length (matched_text f)))
                   = matched_text f))
  ∧ low (analyze_contract scenario_text ∅)
    = [Finding "confidentiality" (str "confidential information")
         (str "50,000 within 30 days. Party A shall not disclose confidential information.")
         72]
  ∧ low (analyze_contract
           (str "Give " ++ [devanagari 3; devanagari 0] ++ str " days notice.")
           ∅)
    = [Finding "notice_period"
         ([devanagari 3; devanagari 0] ++ str " days notice")
         (str "Give " ++ [devanagari 3; devanagari 0] ++ str " days notice.")
         5].
Proof.
  split; [|split; vm_compute; reflexivity].
  intros t ents r.
  destruct (report_fields t ents) as (Hh & Hm & Hl & _).
  destruct (scanned_tiers t) as (Sh & Sm & Sl).
  fold r in Hh, Hm, Hl.
  assert (∀ lvl cats f, (lvl, cats) ∈ risk_patterns →
            (f ∈ tier_of r lvl ↔ f ∈ findings_for t cats)) as Htier.
  { intros lvl cats f Hin. unfold risk_patterns in Hin.
    repeat (apply elem_of_cons in Hin as [[= -> ->]|Hin]);
      [| | |by apply elem_of_nil in Hin]; simpl;
      by rewrite ?Hh, ?Hm, ?Hl, ?Sh, ?Sm, ?Sl. }
  split.
  - intros lvl cats f Hin. rewrite (Htier _ _ _ Hin). apply in_findings_for.
  - intros f Hf.
    assert (∃ cats, f ∈ findings_for t cats) as [cats Hc].
    { rewrite Hh, Hm, Hl, Sh, Sm, Sl in Hf.
      apply elem_of_app in Hf as [Hf|Hf]; [eauto|].
      apply elem_of_app in Hf as [Hf|Hf]; eauto. }
    apply in_findings_for in Hc as (c & p & m & _ & _ & Hm' & ->).
    exists p, m. split; [done|].
    pose proof (finding_of_window t (fst c) p m Hm') as Hw.
    split; [done|].
    destruct Hw as (_ & _ & Hp & Hmt & Hlen & _).
    by rewrite Hlen, Hp.
Qed.

End RiskClaims.

(* ===================================================================== *)
(** ** The clause classifier and the ambiguity detector *)
(* ===================================================================== *)

Section Clauses.

Import Spec LegalNLPEngine.

Lemma any_in_spec (markers : list text) (s : text) :
  any_in markers s = true ↔
  ∃ marker, marker ∈ markers ∧ ∃ a b, s = a ++ marker ++ b.
Proof.
  unfold any_in. rewrite existsb_exists. split.
  - intros (m & Hm & Hc). exists m.
    split; [by apply list_elem_of_In|by apply contains_spec].
  - intros (m & Hm & Hc). exists m.
    split; [by apply list_elem_of_In|by apply contains_spec].
Qed.

Lemma classify_step_class (c : classified) (s : text) :
  classify_step c s
  = match class_of s with
    | Some Prohibition =>
        Classified (obligations c) (rights c) (prohibitions c ++ [s])
    | Some Obligation =>
        Classified (obligations c ++ [s]) (rights c) (prohibitions c)
    | Some Right =>
        Classified (obligations c) (rights c ++ [s]) (prohibitions c)
    | None => c
    end.
Proof.
  unfold classify_step, class_of, has_marker, any_in.
  destruct (existsb _ prohibition_markers); [done|].
  destruct (existsb _ obligation_markers); [done|].
  by destruct (existsb _ right_markers).
Qed.

(** The loop of [classify_clauses] files every sentence under its class,
    in order. *)
Lemma classify_fold (l : list text) : ∀ c,
  fold_left classify_step l c
  = Classified
      (obligations c ++ filter (λ s, class_of s = Some Obligation) l)
      (rights c ++ filter (λ s, class_of s = Some Right) l)
      (prohibitions c ++ filter (λ s, class_of s = Some Prohibition) l).
Proof.
  induction l as [|x l IH]; intros c; cbn [fold_left].
  - rewrite !filter_nil, !app_nil_r. by destruct c.
  - rewrite IH, !filter_cons, classify_step_class.
    destruct (class_of x) as [[| |]|]; repeat case_decide; try done;
      simpl; by rewrite <- ?app_assoc.
Qed.

Lemma detect_fold (l : list text) : ∀ flagged,
  fold_left flag_step l flagged
  = flagged ++ map flag_of (filter (λ s, vague_terms_in s ≠ []) l).
Proof.
  induction l as [|x l IH]; intros flagged; cbn [fold_left].
  - by rewrite filter_nil, app_nil_r.
  - rewrite IH, filter_cons. unfold flag_step. fold (vague_terms_in x).
    destruct (vague_terms_in x) as [|term terms] eqn:E.
    + destruct (decide _) as [H|H]; [done|]. done.
    + destruct (decide _) as [H|H]; [|by destruct H].
      simpl. unfold flag_of at 2. rewrite E. by rewrite <- app_assoc.
Qed.

End Clauses.

Section ClauseClaims.

Import Spec LegalNLPEngine.

(** C3. [classify_clauses] splits the text on runs of [.], [!], [?],
    trims the fragments and drops the empty ones; every sentence goes to
    at most one class, prohibition before obligation before right, by
    substring search in the lower-cased sentence.  A sentence with a
    prohibition marker and an obligation marker is a prohibition only, and
    a sentence without marker is in no class; the last parts evaluate an
    example with one sentence of each kind, one with the markers in
    capitals, one with whitespace beyond U+00FF around the sentences, and
    the lower-casing itself. *)
Theorem classify_clauses_first_match :
  (∀ t : text,
  let c := classify_clauses t in
  LegalNLPEngine.sentences t = Spec.sentences t
  ∧ (∀ s, s ∈ Spec.sentences t →
          s ≠ [] ∧ trimmed s ∧ Forall (λ x, is_terminator x = false) s)
  ∧ prohibitions c
    = filter (λ s, class_of s = Some Prohibition) (Spec.sentences t)
  ∧ obligations c
    = filter (λ s, class_of s = Some Obligation) (Spec.sentences t)
  ∧ rights c = filter (λ s, class_of s = Some Right) (Spec.sentences t)
  ∧ (∀ s, s ∈ Spec.sentences t →
          has_marker prohibition_markers s = true →
          has_marker obligation_markers s = true →
          s ∈ prohibitions c ∧ (s ∉ obligations c) ∧ (s ∉ rights c))
  ∧ (∀ s, has_marker prohibition_markers s = false →
          has_marker obligation_markers s = false →
          has_marker right_markers s = false →
          (s ∉ prohibitions c) ∧ (s ∉ obligations c) ∧ (s ∉ rights c))
  ∧ (∀ s, (¬ (s ∈ prohibitions c ∧ s ∈ obligations c))
          ∧ (¬ (s ∈ prohibitions c ∧ s ∈ rights c))
          ∧ (¬ (s ∈ obligations c ∧ s ∈ rights c))))
  ∧ classify_clauses
      (str "The vendor shall not assign and must notify!  It is fine. You may go.. Buyer must pay?")
    = Classified [str "Buyer must pay"] [str "You may go"]
                 [str "The vendor shall not assign and must notify"]
  ∧ classify_clauses
      (str "Buyer SHALL NOT resell. Seller Must deliver! You MAY inspect?")
    = Classified [str "Seller Must deliver"] [str "You MAY inspect"]
                 [str "Buyer SHALL NOT resell"]
  ∧ classify_clauses
      (str "He shall pay" ++ [em_space] ++ str ". Maybe" ++ [em_space]
         ++ str "! " ++ [ideographic_space])
    = Classified [str "He shall pay"] [str "Maybe"] []
  ∧ lower (str "SHALL Not, MAY") = str "shall not, may"
  ∧ lower [kelvin; dotted_I; omega] = [107; 105; dot_above; 969]%N.
Proof.
  split; [|repeat split; vm_compute; reflexivity].
  intros t c.
  assert (c = Classified
                (filter (λ s, class_of s = Some Obligation) (Spec.sentences t))
                (filter (λ s, class_of s = Some Right) (Spec.sentences t))
                (filter (λ s, class_of s = Some Prohibition) (Spec.sentences t)))
    as Hc.
  { unfold c, classify_clauses. by rewrite classify_fold, sentences_spec. }
  split; [apply sentences_spec|].
  split; [intros s Hs; apply (sentences_shape t); by rewrite sentences_spec|].
  rewrite Hc. cbn [prohibitions obligations rights].
  repeat split; try done.
  - apply list_elem_of_filter. split; [|done].
    unfold class_of. by rewrite H0.
  - intros [Hcl _]%list_elem_of_filter. unfold class_of in Hcl. by rewrite H0 in Hcl.
  - intros [Hcl _]%list_elem_of_filter. unfold class_of in Hcl. by rewrite H0 in Hcl.
  - intros [Hcl _]%list_elem_of_filter. unfold class_of in Hcl.
    by rewrite H, H0, H1 in Hcl.
  - intros [Hcl _]%list_elem_of_filter. unfold class_of in Hcl.
    by rewrite H, H0, H1 in Hcl.
  - intros [Hcl _]%list_elem_of_filter. unfold class_of in Hcl.
    by rewrite H, H0, H1 in Hcl.
  - intros [[H1 _]%list_elem_of_filter [H2 _]%list_elem_of_filter]. congruence.
  - intros [[H1 _]%list_elem_of_filter [H2 _]%list_elem_of_filter]. congruence.
  - intros [[H1 _]%list_elem_of_filter [H2 _]%list_elem_of_filter]. congruence.
Qed.

(** C9. [detect_ambiguous_terms] raises one flag for each sentence, in
    order and with repetitions, that contains a vague term as a substring
    of its lower-cased text; the flag lists all the terms found.  A
    sentence with two terms gives one flag, a sentence repeated twice
    gives two flags, a sentence without term gives none, and whitespace
    beyond U+00FF is trimmed from the flagged sentence. *)
Theorem detect_ambiguous_terms_flags :
  (∀ t : text,
     detect_ambiguous_terms t
     = map flag_of (filter (λ s, vague_terms_in s ≠ []) (Spec.sentences t)))
  ∧ (∀ s term : text,
       term ∈ vague_terms_in s ↔
       term ∈ ambiguous_terms ∧ ∃ a b, lower s = a ++ term ++ b)
  ∧ detect_ambiguous_terms (str "Use Reasonable and appropriate care.")
    = [Flag (str "Use Reasonable and appropriate care")
            [str "reasonable"; str "appropriate"]
            "Vague language may lead to disputes"]
  ∧ detect_ambiguous_terms (str "We may go. We may go.")
    = [Flag (str "We may go") [str "may"]
            "Vague language may lead to disputes";
       Flag (str "We may go") [str "may"]
            "Vague language may lead to disputes"]
  ∧ detect_ambiguous_terms (str "Pay now. Sign here!") = []
  ∧ detect_ambiguous_terms
      (str "We MAY go" ++ [em_space] ++ str "." ++ [ideographic_space])
    = [Flag (str "We MAY go") [str "may"]
            "Vague language may lead to disputes"].
Proof.
  split; [|split; [|repeat split; vm_compute; reflexivity]].
  - intros t. unfold detect_ambiguous_terms.
    by rewrite detect_fold, sentences_spec.
  - intros s term. unfold vague_terms_in.
    by rewrite list_elem_of_filter, contains_spec, (comm and).
Qed.

End ClauseClaims.

(* ===================================================================== *)
(** ** The entity extractor *)
(* ===================================================================== *)

Section Entities.

Import LegalNLPEngine.

(** The dictionary under ['custom'] once the loop over [legal_patterns]
    is done. *)
Lemma extract_entities_unfold (t : text) :
  extract_entities t
  = <["custom" :=
        VDict (<["duration" := list_of_set (collect duration_patterns t)]>
              (<["date" := list_of_set (collect date_patterns t)]>
              (<["amount" := list_of_set (collect amount_patterns t)]>
              (<["party" := list_of_set (collect party_patterns t)]> ∅))))]>
    (<["organizations" :=
         VList (list_of_set (found_strs (findall org_pattern t)))]>
    (<["locations" := VList []]>
    (<["money" := VList []]>
    (<["dates" := VList []]>
    (<["persons" := VList []]> ∅))))).
Proof.
  unfold extract_entities, legal_patterns. cbn [fold_left].
  unfold set_custom.
  repeat (rewrite ?lookup_insert_eq;
          rewrite ?lookup_insert_ne by done).
  apply map_eq. intros k.
  repeat (rewrite lookup_insert; case_decide; [done|]). done.
Qed.

Import Spec RiskAnalyzer.

(** Closed facts about concrete texts are settled by evaluation, one
    conjunct at a time. *)
Ltac by_evaluation :=
  repeat match goal with |- _ ∧ _ => split end; vm_compute; reflexivity.

(** C10. For every text the keys ['persons'], ['dates'], ['money'] and
    ['locations'] hold empty lists; the categories party, amount, date and
    duration are keys of the dictionary under ['custom'] and of nothing at
    the top level. *)
Theorem extract_entities_keys (t : text) :
  let e := extract_entities t in
  e !! "persons" = Some (VList [])
  ∧ e !! "dates" = Some (VList [])
  ∧ e !! "money" = Some (VList [])
  ∧ e !! "locations" = Some (VList [])
  ∧ e !! "party" = None ∧ e !! "amount" = None
  ∧ e !! "date" = None ∧ e !! "duration" = None
  ∧ dom e = {[ "organizations"; "persons"; "dates"; "money"; "locations";
               "custom" ]}
  ∧ ∃ d, e !! "custom" = Some (VDict d)
         ∧ d !! "party" = Some (list_of_set (collect party_patterns t))
         ∧ d !! "amount" = Some (list_of_set (collect amount_patterns t))
         ∧ d !! "date" = Some (list_of_set (collect date_patterns t))
         ∧ d !! "duration" = Some (list_of_set (collect duration_patterns t))
         ∧ dom d = {[ "party"; "amount"; "date"; "duration" ]}.
Proof.
  intros e. unfold e. rewrite extract_entities_unfold.
  do 8 (split; [by simplify_map_eq|]).
  split.
  { rewrite !dom_insert_L, dom_empty_L. set_solver. }
  eexists. split; [by simplify_map_eq|].
  do 4 (split; [by simplify_map_eq|]).
  rewrite !dom_insert_L, dom_empty_L. set_solver.
Qed.

(** C5. On the empty string every component returns an empty result:
    each entity category is present and empty, no clause is classified,
    no flag is raised, and the report has no finding, score 0 and level
    LOW RISK. *)
Theorem empty_input_results (ents : gmap string value) :
  extract_entities []
  = list_to_map
      [("organizations", VList []); ("persons", VList []);
       ("dates", VList []); ("money", VList []); ("locations", VList []);
       ("custom",
        VDict (list_to_map [("party", []); ("amount", []); ("date", []);
                            ("duration", [])]))]
  ∧ custom_entities (extract_entities []) "party" = []
  ∧ custom_entities (extract_entities []) "amount" = []
  ∧ custom_entities (extract_entities []) "date" = []
  ∧ custom_entities (extract_entities []) "duration" = []
  ∧ classify_clauses [] = Classified [] [] []
  ∧ detect_ambiguous_terms [] = []
  ∧ analyze_contract [] ents
    = Report [] [] [] 0 "LOW RISK" "Standard contract with minor concerns".
Proof. by_evaluation. Qed.

(** The classes of the scenario text, by evaluation. *)
Lemma scenario_classes :
  classify_clauses scenario_text
  = Classified [str "Party A shall pay Rs"] []
      [str "Party A shall not disclose confidential information"].
Proof. vm_compute. reflexivity. Qed.

(** C4, as the code has it.  In the scenario text the full stop of the
    abbreviation ends a sentence, so the text splits into three
    fragments: the first is the only obligation, the third the only
    prohibition, and the second belongs to no class. *)
Theorem scenario_classification :
  LegalNLPEngine.sentences scenario_text
  = [str "Party A shall pay Rs"; str "50,000 within 30 days";
     str "Party A shall not disclose confidential information"]
  ∧ obligations (classify_clauses scenario_text)
    = [str "Party A shall pay Rs"]
  ∧ prohibitions (classify_clauses scenario_text)
    = [str "Party A shall not disclose confidential information"]
  ∧ rights (classify_clauses scenario_text) = [].
Proof. by_evaluation. Qed.

(** What [extract_entities] stores for the scenario text: [findall]
    reports the text of the single group of a pattern, not the whole
    match. *)
Lemma scenario_entities :
  custom_entities (extract_entities scenario_text) "amount" = [str "Rs."]
  ∧ custom_entities (extract_entities scenario_text) "duration"
    = [str "days"]
  ∧ map (group0 scenario_text)
        (concat (map (λ p, finditer p scenario_text) amount_patterns))
    = [str "Rs. 50,000"]
  ∧ map (group0 scenario_text)
        (concat (map (λ p, finditer p scenario_text) duration_patterns))
    = [str "30 days"].
Proof. by_evaluation. Qed.

(** C4, as the specification states it, does not hold.  The second
    sentence is among the prohibitions, but the first sentence is not
    among the obligations, no string of the amount category shows the
    figure 50,000 and no string of the duration category the figure
    30. *)
Lemma scenario_counterexample :
  str "Party A shall not disclose confidential information"
    ∈ prohibitions (classify_clauses scenario_text)
  ∧ (¬ (str "Party A shall pay Rs. 50,000 within 30 days"
          ∈ obligations (classify_clauses scenario_text)))
  ∧ (¬ (str "Party A shall pay Rs. 50,000 within 30 days."
          ∈ obligations (classify_clauses scenario_text)))
  ∧ (¬ (∃ a, a ∈ custom_entities (extract_entities scenario_text) "amount"
             ∧ contains (str "50,000") a = true))
  ∧ (¬ (∃ d, d ∈ custom_entities (extract_entities scenario_text) "duration"
             ∧ contains (str "30") d = true)).
Proof.
  destruct scenario_entities as (Ea & Ed & _).
  rewrite scenario_classes, Ea, Ed. cbn [obligations prohibitions].
  split; [by apply list_elem_of_singleton|].
  split; [intros H%list_elem_of_singleton; vm_compute in H; discriminate H|].
  split; [intros H%list_elem_of_singleton; vm_compute in H; discriminate H|].
  split.
  - intros (a & ->%list_elem_of_singleton & H).
    vm_compute in H. discriminate H.
  - intros (d & ->%list_elem_of_singleton & H).
    vm_compute in H. discriminate H.
Qed.

End Entities.

(* ===================================================================== *)
(** ** The compliance checker *)
(* ===================================================================== *)

Section Compliance.

Import RiskAnalyzer.

Lemma check_indian_compliance_unfold (t : text) (contract_type : string) :
  check_indian_compliance t contract_type
  = map (check_element t) essential_elements.
Proof. reflexivity. Qed.

(** The entry for an element whose pattern is searched in [t]. *)
Lemma check_element_cases (t : text) (e : string * pattern) :
  element (check_element t e) = fst e
  ∧ match search (snd e) t with
    | None =>
        status (check_element t e) = "MISSING"
        ∧ severity (check_element t e) = "high"
        ∧ note (check_element t e)
          = Some (String.append "Contract should explicitly mention "
                    (String.append (fst e)
                       " as per Section 10, Indian Contract Act"))
    | Some _ =>
        status (check_element t e) = "PRESENT"
        ∧ severity (check_element t e) = "none"
        ∧ note (check_element t e) = None
    end.
Proof. unfold check_element. by destruct (search (snd e) t). Qed.

(** C6. For every text [check_indian_compliance] returns four entries,
    for consideration, free_consent, competent_parties and lawful_object
    in this order.  An element whose pattern finds no match is MISSING
    with severity high and a non-empty note; an element whose pattern
    matches is PRESENT with severity none and no note.  A text without
    any of the keywords misses all four; the whitespace inside a keyword
    may be any that [\s] matches. *)
Theorem compliance_entries :
  (∀ (t : text) (contract_type : string),
     let checks := check_indian_compliance t contract_type in
     map element checks
     = ["consideration"; "free_consent"; "competent_parties";
        "lawful_object"]
     ∧ Forall2
         (λ e r,
            element r = fst e
            ∧ match search (snd e) t with
              | None =>
                  status r = "MISSING" ∧ severity r = "high"
                  ∧ ∃ n, note r = Some n ∧ n ≠ ""
              | Some _ =>
                  status r = "PRESENT" ∧ severity r = "none"
                  ∧ note r = None
              end)
         essential_elements checks)
  ∧ map (λ r, (status r, severity r))
        (check_indian_compliance (str "Deliver the goods on Monday.") "general")
    = [("MISSING", "high"); ("MISSING", "high"); ("MISSING", "high");
       ("MISSING", "high")]
  ∧ map (λ r, (status r, severity r, note r))
        (check_indian_compliance
           (str "Payment is made by mutual understanding for a lawful purpose.")
           "general")
    = [("PRESENT", "none", None); ("PRESENT", "none", None);
       ("MISSING", "high",
        Some "Contract should explicitly mention competent_parties as per Section 10, Indian Contract Act");
       ("PRESENT", "none", None)]
  ∧ map status
        (check_indian_compliance
           (str "by MUTUAL" ++ [em_space] ++ str "understanding") "general")
    = ["MISSING"; "PRESENT"; "MISSING"; "MISSING"].
Proof.
  split; [|repeat split; vm_compute; reflexivity].
  intros t contract_type checks. unfold checks.
  rewrite check_indian_compliance_unfold. unfold essential_elements.
  cbn [map]. split.
  - pose proof (λ e, proj1 (check_element_cases t e)) as He.
    by rewrite !He.
  - repeat (apply Forall2_cons; split;
            [|]).
    all: try apply Forall2_nil_2.
    all: match goal with
         | |- context [check_element ?u ?e] =>
             destruct (check_element_cases u e) as [He Hs]; split; [done|];
             destruct (search (snd e) u); [done|];
             destruct Hs as (? & ? & Hn); repeat split; try done;
             eexists; split; [exact Hn|done]
         end.
Qed.

End Compliance.

(* ===================================================================== *)
(** ** Further properties of the matcher *)
(* ===================================================================== *)

Section MatchLength.

Lemma eat_consumes f : consumes 1 (eat f).
Proof.
  intros k s res. unfold eat.
  destruct (rest s) as [|x t]; [done|]. destruct (f x); [|done].
  intros Hk. exists (advance x t s). simpl. split; [lia|done].
Qed.

Lemma rep_loop_consumes lo hi body k n :
  consumes n body →
  ∀ fuel cnt s res,
    rep_loop lo hi body k fuel cnt s = Some res →
    ∃ s', pos s + (lo - cnt) * n ≤ pos s' ∧ k s' = Some res.
Proof.
  intros Hbody. induction fuel as [|fuel IH]; intros cnt s res; simpl; [done|].
  assert ((lo <=? cnt) = true → k s = Some res →
          ∃ s', pos s + (lo - cnt) * n ≤ pos s' ∧ k s' = Some res) as Hstop.
  { intros Hle%Nat.leb_le Hk. exists s.
    replace (lo - cnt) with 0 by lia. split; [lia|done]. }
  destruct (under_max cnt hi).
  - destruct (body _ s) as [res'|] eqn:Hb.
    + intros [= ->]. apply Hbody in Hb as (s1 & Hp1 & Hk1).
      destruct (length (rest s1) <? length (rest s)); [|done].
      apply IH in Hk1 as (s2 & Hp2 & Hk2). exists s2. split; [|done].
      destruct (decide (cnt < lo)) as [Hlt|Hge].
      * replace (lo - cnt) with (S (lo - S cnt)) by lia. simpl. lia.
      * replace (lo - cnt) with 0 by lia. lia.
    + destruct (lo <=? cnt) eqn:E; [by apply Hstop|done].
  - destruct (lo <=? cnt) eqn:E; [by apply Hstop|done].
Qed.

Lemma rmatch_consumes ic r : consumes (min_len r) (rmatch ic r).
Proof.
  induction r as [|c| |neg items| |r1 IH1 r2 IH2|r1 IH1 r2 IH2|lo hi r IH|i r IH];
    intros k s res; cbn [rmatch min_len]; try (by apply eat_consumes).
  - intros Hk. exists s. split; [lia|done].
  - destruct (xorb _ _); [|done]. intros Hk. exists s. split; [lia|done].
  - intros H. apply IH1 in H as (s1 & Hp1 & H).
    apply IH2 in H as (s2 & Hp2 & H). exists s2. split; [lia|done].
  - destruct (rmatch ic r1 k s) as [res'|] eqn:H1.
    + intros [= ->]. apply IH1 in H1 as (s1 & Hp & Hk). exists s1. split; [lia|done].
    + intros H2. apply IH2 in H2 as (s1 & Hp & Hk). exists s1. split; [lia|done].
  - intros H. eapply rep_loop_consumes in H as (s1 & Hp & Hk); [|exact IH].
    exists s1. split; [|done]. by rewrite Nat.sub_0_r in Hp.
  - intros H. apply IH in H as (s1 & Hp & Hk).
    by exists (set_cap i (pos s) (pos s1) s1).
Qed.

Lemma match_at_min_len p ma s s' :
  match_at p ma s = Some s' → pos s + min_len (body p) ≤ pos s'.
Proof.
  unfold match_at. intros H.
  apply rmatch_consumes in H as (s1 & Hp & H).
  destruct (ma && (pos s1 =? pos s)); [done|]. by injection H as <-.
Qed.

(** No match is shorter than the pattern's least length. *)
Lemma scan_min_len p fuel : ∀ ma s m,
  m ∈ scan p fuel ma s → m_start m + min_len (body p) ≤ m_end m.
Proof.
  induction fuel as [|fuel IH]; intros ma s m; simpl.
  - by intros ?%elem_of_nil.
  - destruct (match_at p ma s) as [s'|] eqn:Hm.
    + apply match_at_min_len in Hm.
      intros [->|Hin]%elem_of_cons; simpl; [done|]. by eapply IH.
    + destruct (rest s) as [|x t]; [by intros ?%elem_of_nil|]. apply IH.
Qed.

Lemma finditer_min_len p t m :
  m ∈ finditer p t → m_start m + min_len (body p) ≤ m_end m.
Proof. apply scan_min_len. Qed.

Lemma ordered_from_weaken n n' ms :
  n' ≤ n → ordered_from n ms → ordered_from n' ms.
Proof.
  destruct ms as [|m ms]; simpl; [done|].
  intros Hn (H1 & H2 & H3). split; [lia|done].
Qed.

(** The scanner reports its matches from left to right, each one
    starting at or after the end of the one before. *)
Lemma scan_ordered p fuel : ∀ ma s, ordered_from (pos s) (scan p fuel ma s).
Proof.
  induction fuel as [|fuel IH]; intros ma s; simpl; [done|].
  destruct (match_at p ma s) as [s'|] eqn:Hm.
  - apply match_at_follows in Hm as [Hle _]. simpl.
    split; [lia|]. split; [done|]. apply (IH _ (restart s')).
  - destruct (rest s) as [|x t]; [done|].
    eapply ordered_from_weaken; [|apply (IH false (advance x t s))].
    simpl. lia.
Qed.

Lemma finditer_ordered p t : ordered_from 0 (finditer p t).
Proof.
  unfold finditer.
  apply (scan_ordered p _ false
           {| pos := 0; rest := t; prev := None; caps := [] |}).
Qed.

Lemma ordered_from_lower n ms :
  ordered_from n ms → Forall (λ m, n ≤ m_start m) ms.
Proof.
  revert n. induction ms as [|m ms IH]; intros n; simpl; [constructor|].
  intros (H1 & H2 & H3). constructor; [done|].
  eapply Forall_impl; [by apply IH|]. simpl. intros m' Hm'. lia.
Qed.

Lemma ordered_from_sorted n ms :
  ordered_from n ms →
  StronglySorted (λ m1 m2, m_end m1 ≤ m_start m2) ms.
Proof.
  revert n. induction ms as [|m ms IH]; intros n; simpl; [constructor|].
  intros (H1 & H2 & H3). constructor; [by eapply IH|].
  by apply ordered_from_lower.
Qed.

End MatchLength.


(* ===================================================================== *)
(** ** The risk scorer: order, windows and detection *)
(* ===================================================================== *)

Section ScorerFacts.

Import RiskAnalyzer.

Lemma slice_nat_split (t : text) (a b c : nat) :
  a ≤ b → b ≤ c → c ≤ length t →
  slice_nat t a c = slice_nat t a b ++ slice_nat t b c.
Proof.
  intros Hab Hbc Hc. unfold slice_nat.
  rewrite !slice_inside by lia.
  replace (c - a) with ((b - a) + (c - b)) by lia.
  rewrite <- take_take_drop, drop_drop.
  by replace (a + (b - a)) with b by lia.
Qed.

(** Every pattern of the risk catalog consumes at least one character. *)
Lemma catalog_min_len :
  Forall (λ p, 1 ≤ min_len (body p)) catalog_patterns.
Proof. repeat constructor. Qed.

Lemma findings_for_pattern t cats f :
  f ∈ findings_for t cats →
  ∃ c p m, c ∈ cats ∧ p ∈ snd c ∧ m ∈ finditer p t
           ∧ f = finding_of t (fst c) m.
Proof. apply in_findings_for. Qed.

Lemma catalog_member lvl cats c p :
  (lvl, cats) ∈ risk_patterns → c ∈ cats → p ∈ snd c →
  p ∈ catalog_patterns.
Proof.
  intros Hl Hc Hp. unfold catalog_patterns.
  apply list_elem_of_In, in_concat. exists (snd c).
  split; [|by apply list_elem_of_In].
  apply in_map. apply in_concat. exists cats.
  split; [|by apply list_elem_of_In].
  apply list_elem_of_In in Hl. by apply (in_map snd) in Hl.
Qed.

(** The report holds the findings of its three tiers. *)
Lemma report_tiers t ents :
  let r := analyze_contract t ents in
  high r = findings_for t high_patterns
  ∧ medium r = findings_for t medium_patterns
  ∧ low r = findings_for t low_patterns.
Proof.
  intros r. destruct (report_fields t ents) as (Hh & Hm & Hl & _).
  destruct (scanned_tiers t) as (Sh & Sm & Sl).
  fold r in Hh, Hm, Hl. by rewrite Hh, Hm, Hl, Sh, Sm, Sl.
Qed.

Lemma all_findings t ents f :
  let r := analyze_contract t ents in
  f ∈ high r ++ medium r ++ low r →
  ∃ p m c, p ∈ catalog_patterns ∧ m ∈ finditer p t
           ∧ f = finding_of t c m.
Proof.
  intros r. destruct (report_tiers t ents) as (Hh & Hm & Hl).
  fold r in Hh, Hm, Hl. rewrite Hh, Hm, Hl, !elem_of_app.
  intros [H|[H|H]]; apply findings_for_pattern in H as (c & p & m & Hc & Hp & Hm' & ->);
    exists p, m, (fst c); (split; [|done]).
  - eapply (catalog_member High); [|done..].
    apply list_elem_of_In. simpl. tauto.
  - eapply (catalog_member Medium); [|done..].
    apply list_elem_of_In. simpl. tauto.
  - eapply (catalog_member Low); [|done..].
    apply list_elem_of_In. simpl. tauto.
Qed.

Lemma finding_of_before t c m1 m2 p :
  m1 ∈ finditer p t → m_end m1 ≤ m_start m2 →
  before (finding_of t c m1) (finding_of t c m2).
Proof.
  intros [Hse Hel]%finditer_bounds Hle. unfold before, finding_of. simpl.
  unfold group0. rewrite slice_nat_length by done. lia.
Qed.

Lemma sorted_findings t c p (ms : list Match) :
  Forall (λ m, m ∈ finditer p t) ms →
  StronglySorted (λ m1 m2, m_end m1 ≤ m_start m2) ms →
  StronglySorted before (map (finding_of t c) ms).
Proof.
  intros Hin. induction 1 as [|m ms Hs IH Hall]; simpl; [constructor|].
  apply Forall_cons in Hin as [Hm Hin].
  constructor; [by apply IH|].
  apply Forall_forall. intros f Hf%list_elem_of_In.
  apply in_map_iff in Hf as (m2 & <- & Hm2%list_elem_of_In).
  eapply finding_of_before; [done|].
  by eapply Forall_forall in Hall.
Qed.

(** X1. The findings of a tier are listed category by category and
    pattern by pattern in the order of the catalog; the findings of one
    pattern follow the text from left to right without overlap.  So the
    order of a tier is not the order of the text: a notice period found
    after a non-disclosure clause is listed before it.  The last part
    has a thin space U+2009 between the words of a pattern. *)
Theorem findings_in_catalog_order :
  (∀ (t : text) (ents : gmap string LegalNLPEngine.value),
     let r := analyze_contract t ents in
     high r = findings_for t high_patterns
     ∧ medium r = findings_for t medium_patterns
     ∧ low r = findings_for t low_patterns
     ∧ ∀ cat_name p,
         StronglySorted before (map (finding_of t cat_name) (finditer p t)))
  ∧ map (λ f, (category f, position f))
        (low (analyze_contract (str "non-disclosure with 30 days notice") ∅))
    = [("notice_period", 20%Z); ("confidentiality", 0%Z)]
  ∧ map (λ f, (category f, position f))
        (high (analyze_contract
                 (str "An Unlimited" ++ [thin_space] ++ str "Liability") ∅))
    = [("unlimited_liability", 3%Z)].
Proof.
  split; [|split; vm_compute; reflexivity].
  intros t ents r. destruct (report_tiers t ents) as (Hh & Hm & Hl).
  do 3 (split; [done|]). intros cat_name p.
  apply (sorted_findings t cat_name p).
  - by apply Forall_forall.
  - eapply ordered_from_sorted, finditer_ordered.
Qed.

(** X2. No finding has an empty [matched_text], and the context of a
    finding is its matched text with at most 50 characters before it and
    at most 50 characters after it. *)
Theorem finding_context_shape (t : text)
        (ents : gmap string LegalNLPEngine.value) :
  let r := analyze_contract t ents in
  Forall (λ f, matched_text f ≠ []
               ∧ ∃ a b, context f = a ++ matched_text f ++ b
                        ∧ length a ≤ 50 ∧ length b ≤ 50)
         (high r ++ medium r ++ low r).
Proof.
  intros r. apply Forall_forall. intros f Hf.
  apply all_findings in Hf as (p & m & c & Hp & Hm & ->).
  pose proof (finditer_bounds _ _ _ Hm) as [Hse Hel].
  pose proof (finditer_min_len _ _ _ Hm) as Hlen.
  pose proof catalog_min_len as Hcat.
  eapply Forall_forall in Hcat; [|exact Hp]. simpl in Hcat.
  unfold finding_of. simpl. split.
  - intros Hnil. apply (f_equal length) in Hnil.
    unfold group0 in Hnil. rewrite slice_nat_length in Hnil by done.
    simpl in Hnil. lia.
  - set (a := Z.to_nat (Z.max 0 (Z.of_nat (m_start m) - 50))).
    set (b := Z.to_nat (Z.min (Z.of_nat (length t)) (Z.of_nat (m_end m) + 50))).
    replace (Z.max 0 (Z.of_nat (m_start m) - 50)) with (Z.of_nat a) by lia.
    replace (Z.min (Z.of_nat (length t)) (Z.of_nat (m_end m) + 50))
      with (Z.of_nat b) by lia.
    fold (slice_nat t a b).
    rewrite (slice_nat_split t a (m_start m) b) by lia.
    rewrite (slice_nat_split t (m_start m) (m_end m) b) by lia.
    exists (slice_nat t a (m_start m)), (slice_nat t (m_end m) b).
    split; [done|].
    rewrite !slice_nat_length by lia. lia.
Qed.

End ScorerFacts.

(* ===================================================================== *)
(** ** The character tables *)
(* ===================================================================== *)

Section CharFacts.

(** A property decided on each code point up to U+00FF holds of all of
    them. *)
Lemma latin1_forall (P : N → bool) :
  forallb P (map N.of_nat (seq 0 256)) = true →
  ∀ x, (x < 256)%N → P x = true.
Proof.
  intros H x Hx. rewrite forallb_forall in H. apply H.
  apply in_map_iff. exists (N.to_nat x). split; [lia|].
  apply in_seq. lia.
Qed.

Lemma assoc_In {A : Type} (c : N) (table : list (N * A)) (v : A) :
  assoc c table = Some v → In (c, v) table.
Proof.
  induction table as [|[k w] table IH]; simpl; [done|].
  destruct (N.eqb_spec c k) as [->|_]; [intros [= ->]; by left|].
  intros H. right. by apply IH.
Qed.

(** A relation between a code point and its lower-case form holds
    everywhere when it holds up to U+00FF, on the table, and of every
    code point above U+00FF with itself. *)
Lemma lower_cp_cases (P : N → N → bool) :
  forallb (λ x, P x (lower_cp x)) (map N.of_nat (seq 0 256)) = true →
  forallb (λ kv, P kv.1 kv.2) lower_table = true →
  (∀ x, (256 ≤ x)%N → P x x = true) →
  ∀ x, P x (lower_cp x) = true.
Proof.
  intros Hlatin Htable Hid x.
  destruct (N.lt_ge_cases x 256) as [Hlt|Hge].
  - by apply (latin1_forall (λ x, P x (lower_cp x))).
  - unfold lower_cp. destruct (N.ltb_spec x 256) as [|_]; [lia|].
    destruct (assoc x lower_table) as [l|] eqn:E; [|by apply Hid].
    apply assoc_In in E. rewrite forallb_forall in Htable.
    apply (Htable (x, l) E).
Qed.

(** Whitespace is no letter. *)
Lemma space_not_letter (x : N) :
  is_space x = true → lower_cp x = x.
Proof.
  intros Hx.
  assert (implb (is_space x) (lower_cp x =? x)%N = true) as H.
  { apply (lower_cp_cases (λ x y, implb (is_space x) (y =? x)%N));
      [reflexivity|reflexivity|].
    intros y _. rewrite N.eqb_refl. apply implb_true_r. }
  rewrite Hx in H. by apply N.eqb_eq.
Qed.

Lemma lower_cp_space (x : N) : lower_cp x = 32%N → x = 32%N.
Proof.
  intros Hx.
  assert (implb (lower_cp x =? 32)%N (x =? 32)%N = true) as H.
  { apply (lower_cp_cases (λ x y, implb (y =? 32)%N (x =? 32)%N));
      [reflexivity|reflexivity|].
    intros y _. apply implb_same. }
  rewrite Hx in H. by apply N.eqb_eq.
Qed.

Lemma letter_not_space (x c : N) :
  lower_cp x = c → is_space c = false → is_space x = false.
Proof.
  intros Hx Hc. destruct (is_space x) eqn:E; [|done].
  pose proof (space_not_letter _ E). congruence.
Qed.

(** A decimal digit is no letter. *)
Lemma digit_not_letter (x : N) : is_digit x = true → lower_cp x = x.
Proof.
  intros Hx.
  assert (implb (is_digit x) (lower_cp x =? x)%N = true) as H.
  { apply (lower_cp_cases (λ x y, implb (is_digit x) (y =? x)%N));
      [reflexivity|reflexivity|].
    intros y _. rewrite N.eqb_refl. apply implb_true_r. }
  rewrite Hx in H. by apply N.eqb_eq.
Qed.

(** No extra case is a decimal digit. *)
Lemma fixes_no_digit (lo k : N) : In k (fixes lo) → is_digit k = false.
Proof.
  unfold fixes. destruct (lo <? 181)%N.
  - destruct (lo =? 105)%N; [by intros [<-|[]]|].
    destruct (lo =? 115)%N; [by intros [<-|[]]|done].
  - destruct (assoc lo extra_cases) as [l|] eqn:E; [|done].
    apply assoc_In in E.
    assert (forallb (λ kv, forallb (λ k, negb (is_digit k)) kv.2) extra_cases
            = true) as H by reflexivity.
    rewrite forallb_forall in H. specialize (H _ E). simpl in H.
    rewrite forallb_forall in H. intros Hk. specialize (H _ Hk).
    by destruct (is_digit k).
Qed.

(** Under [(?i)] an ASCII literal matches every code point with the same
    lower-case form. *)
Lemma lit_match_fold (c x : N) :
  (c < 128)%N → lower_cp x = lower_cp c → lit_match true c x = true.
Proof.
  intros Hc Hx.
  pose (ascii := map N.of_nat (seq 0 128)).
  assert (In c ascii) as Hin.
  { apply in_map_iff. exists (N.to_nat c). split; [lia|]. apply in_seq. lia. }
  assert (∀ x, (256 ≤ x)%N →
            forallb (λ c, implb (x =? lower_cp c)%N (lit_match true c x)) ascii
            = true) as Hid.
  { intros y Hy. apply forallb_forall. intros d Hd.
    assert (forallb (λ d, (lower_cp d <? 256)%N) ascii = true) as Hlow
      by reflexivity.
    rewrite forallb_forall in Hlow. specialize (Hlow d Hd).
    apply N.ltb_lt in Hlow.
    destruct (N.eqb_spec y (lower_cp d)) as [Heq|_]; [lia|done]. }
  assert (forallb (λ c, implb (lower_cp x =? lower_cp c)%N
                              (lit_match true c x)) ascii = true) as H.
  { apply (lower_cp_cases
             (λ x y, forallb (λ c, implb (y =? lower_cp c)%N
                                   (lit_match true c x)) ascii));
      [vm_compute; reflexivity|vm_compute; reflexivity|exact Hid]. }
  rewrite forallb_forall in H. specialize (H c Hin).
  rewrite Hx, N.eqb_refl in H. exact H.
Qed.

(** A text whose lower-case form is ASCII has that form character by
    character. *)
Lemma lower_from_ascii (w : text) : ∀ (before l : text),
  forallb (λ c, (c <? 128)%N) l = true →
  lower_from before w = l → map lower_cp w = l.
Proof.
  induction w as [|c w IH]; intros before l Hl; [done|].
  cbn [lower_from map]. unfold lower_full.
  destruct (c =? 931)%N.
  - intros <-. simpl in Hl. by destruct (final_sigma before w).
  - destruct (c =? 304)%N.
    + intros <-. simpl in Hl. done.
    + intros <-. simpl in Hl. apply andb_true_iff in Hl as [_ Hl].
      f_equal. by apply (IH (c :: before)).
Qed.

Lemma lower_ascii (w l : text) :
  forallb (λ c, (c <? 128)%N) l = true → lower w = l → map lower_cp w = l.
Proof. apply lower_from_ascii. Qed.

End CharFacts.

(* ===================================================================== *)
(** ** What the scanner cannot miss *)
(* ===================================================================== *)

Section Detection.

Import RiskAnalyzer.

Lemma skip_state (pre : text) : ∀ s u,
  rest s = pre ++ u →
  rest (skip (length pre) s) = u
  ∧ pos (skip (length pre) s) = pos s + length pre.
Proof.
  induction pre as [|x pre IH]; intros s u Hr; simpl.
  - split; [done|lia].
  - unfold step. rewrite Hr. simpl.
    destruct (IH (advance x (pre ++ u) s) u eq_refl) as [H1 H2].
    split; [done|]. rewrite H2. simpl. lia.
Qed.

(** If the pattern matches at some offset ahead, the scanner reports a
    match (there or earlier). *)
Lemma scan_finds p : ∀ n fuel s,
  n ≤ length (rest s) →
  is_Some (match_at p false (skip n s)) →
  2 * length (rest s) + 2 ≤ fuel →
  scan p fuel false s ≠ [].
Proof.
  induction n as [|n IH]; intros fuel s Hn Hm Hf;
    (destruct fuel as [|fuel]; [lia|]); simpl in *.
  - destruct Hm as [s' ->]. done.
  - destruct (match_at p false s) as [s'|]; [done|].
    destruct (rest s) as [|x t] eqn:Hr; [simpl in Hn; lia|].
    apply IH; simpl in *; [lia| |lia].
    unfold step in Hm. by rewrite Hr in Hm.
Qed.

Lemma finditer_finds p (a u : text) :
  (∀ s, rest s = u → is_Some (match_at p false s)) →
  finditer p (a ++ u) ≠ [].
Proof.
  intros Hu. unfold finditer.
  set (s0 := {| pos := 0; rest := a ++ u; prev := None; caps := [] |}).
  apply (scan_finds p (length a)).
  - simpl. rewrite length_app. lia.
  - apply Hu. by apply (skip_state a s0 u).
  - simpl. lia.
Qed.

Lemma search_finds p (a u : text) :
  (∀ s, rest s = u → is_Some (match_at p false s)) →
  is_Some (search p (a ++ u)).
Proof.
  intros Hu%(finditer_finds p a). unfold search.
  by destruct (finditer p (a ++ u)).
Qed.

(** A literal matches the text ahead when the two agree up to case. *)
Lemma rmatch_lit (l : string) : ∀ (w u : text) k s,
  l ≠ "" →
  forallb (λ c, (c <? 128)%N) (str l) = true →
  rest s = w ++ u →
  map lower_cp w = map lower_cp (str l) →
  rmatch true (lit l) k s = k (skip (length w) s).
Proof.
  induction l as [|c l IH]; intros w u k s Hne Hl Hr Hw; [done|].
  destruct w as [|x w]; [done|]. simpl in Hw. injection Hw as Hx Hw.
  cbn [str forallb] in Hl. apply andb_true_iff in Hl as [Hc%N.ltb_lt Hl].
  pose proof (lit_match_fold _ _ Hc Hx) as Hm.
  assert (rmatch true (Lit (N_of_ascii c)) (λ s', k (skip (length w) s')) s
          = k (skip (length (x :: w)) s)) as Hhead.
  { cbn [rmatch]. unfold eat. rewrite Hr. cbn [app]. rewrite Hm.
    simpl. unfold step. rewrite Hr. reflexivity. }
  destruct l as [|c' l].
  - destruct w; [|done]. exact Hhead.
  - change (lit (String c (String c' l)))
      with (Cat (Lit (N_of_ascii c)) (lit (String c' l))).
    cbn [rmatch]. rewrite <- Hhead.
    cbn [rmatch]. unfold eat. rewrite Hr. cbn [app]. rewrite Hm.
    by apply (IH w u).
Qed.

Lemma rmatch_alt_r ic r1 r2 k s :
  is_Some (rmatch ic r2 k s) → is_Some (rmatch ic (Alt r1 r2) k s).
Proof. simpl. by destruct (rmatch ic r1 k s). Qed.

Lemma rmatch_alt_l ic r1 r2 k s :
  is_Some (rmatch ic r1 k s) → is_Some (rmatch ic (Alt r1 r2) k s).
Proof. simpl. by intros [res ->]. Qed.

Lemma rmatch_group ic i r k s :
  rmatch ic (Group i r) k s
  = rmatch ic r (λ s', k (set_cap i (pos s) (pos s') s')) s.
Proof. reflexivity. Qed.

(** A pattern that matches wherever the literal [l] does is found in
    every text that reads [l] somewhere, up to case. *)
Lemma keyword_found (l : string) (w a b : text) (r : regex) (n : nat) :
  l ≠ "" →
  forallb (λ c, (c <? 128)%N) (str l) = true →
  map lower_cp w = map lower_cp (str l) →
  (∀ k s, (∀ k', accepting k' → is_Some (rmatch true (lit l) k' s)) →
          accepting k → is_Some (rmatch true r k s)) →
  is_Some (search (Pattern true r n) (a ++ w ++ b)).
Proof.
  intros Hne Hl Hw Hr. apply search_finds. intros s Hs.
  unfold match_at. simpl. apply Hr.
  - intros k' Hk'. rewrite (rmatch_lit l w b _ s Hne Hl Hs Hw). apply Hk'.
  - intros s'. by eexists.
Qed.

Lemma present_entry t contract_type (e : string * pattern) :
  e ∈ essential_elements → is_Some (search (snd e) t) →
  present (check_indian_compliance t contract_type) (fst e).
Proof.
  intros He [m Hm]. exists (check_element t e).
  rewrite check_indian_compliance_unfold. split.
  - apply list_elem_of_In, in_map. by apply list_elem_of_In.
  - unfold check_element. by rewrite Hm.
Qed.

Lemma lit_then (l : string) (w u : text) r k s :
  l ≠ "" →
  forallb (λ c, (c <? 128)%N) (str l) = true →
  rest s = w ++ u →
  map lower_cp w = map lower_cp (str l) →
  is_Some (rmatch true r k (skip (length w) s)) →
  is_Some (rmatch true (Cat (lit l) r) k s).
Proof.
  intros Hne Hl Hr Hw Hk. cbn [rmatch].
  by rewrite (rmatch_lit l w u _ s Hne Hl Hr Hw).
Qed.

(** [\s+] before a character that is no whitespace takes the one
    whitespace character ahead. *)
Lemma ws1_then (x y : N) (u : text) r k s :
  rest s = x :: y :: u →
  is_space x = true → is_space y = false →
  is_Some (rmatch true r k (skip 1 s)) →
  is_Some (rmatch true (Cat ws1 r) k s).
Proof.
  intros Hr Hx Hy Hk. simpl in Hk. unfold step in Hk. rewrite Hr in Hk.
  cbn [rmatch ws1 plus ws]. rewrite Hr.
  cbn [length rep_loop under_max]. cbn [rmatch].
  unfold eat at 1. rewrite Hr.
  unfold set_match at 1. simpl existsb. rewrite Hx. simpl xorb. cbv iota.
  cbn [advance rest length].
  assert ((S (length u) <? S (S (length u))) = true) as ->
    by (apply Nat.ltb_lt; lia).
  unfold eat at 1. cbn [advance rest].
  unfold set_match at 1. simpl existsb. rewrite Hy. simpl xorb. cbv iota.
  simpl Nat.leb. cbv iota.
  destruct Hk as [res Hres]. rewrite Hres. by eexists.
Qed.

(** X3. A text that contains the phrase [terminate at will], in any
    letter case, has a high-severity finding of category
    unilateral_termination and a composite score of at least 10. *)
Theorem terminate_at_will_detected (a w b : text)
        (ents : gmap string LegalNLPEngine.value) :
  lower w = str "terminate at will" →
  let r := analyze_contract (a ++ w ++ b) ents in
  (∃ f, f ∈ high r ∧ category f = "unilateral_termination")
  ∧ (10 ≤ composite_score r)%Z.
Proof.
  intros Hw r. set (t := a ++ w ++ b) in *.
  set (p := ci [lit "terminate"; ws1; lit "at"; ws1; lit "will"] 0).
  assert (finditer p t ≠ []) as Hfound.
  { apply finditer_finds. intros s Hs.
    apply lower_ascii in Hw; [|reflexivity].
    vm_compute (str _) in Hw.
    do 17 (destruct w as [|? w]; [discriminate Hw|]).
    destruct w; [|discriminate Hw].
    injection Hw as H1 H2 H3 H4 H5 H6 H7 H8 H9 H10 H11 H12 H13 H14 H15 H16 H17.
    apply lower_cp_space in H10, H13. subst.
    unfold match_at, p, ci. cbn [ignorecase body cat andb].
    eapply (lit_then "terminate" [_;_;_;_;_;_;_;_;_]); [done|done|exact Hs| |].
    { vm_compute (map lower_cp (str _)). cbn [map]. congruence. }
    destruct (skip_state [n; n0; n1; n2; n3; n4; n5; n6; n7] s _ Hs) as [Hr1 _].
    set (s1 := skip _ s) in *.
    eapply ws1_then; [exact Hr1|done|by eapply letter_not_space|].
    destruct (skip_state [32%N] s1 _ Hr1) as [Hr2 _].
    set (s2 := skip _ s1) in *.
    eapply (lit_then "at" [_;_]); [done|done|exact Hr2| |].
    { vm_compute (map lower_cp (str _)). cbn [map]. congruence. }
    destruct (skip_state [n9; n10] s2 _ Hr2) as [Hr3 _].
    set (s3 := skip _ s2) in *.
    eapply ws1_then; [exact Hr3|done|by eapply letter_not_space|].
    destruct (skip_state [32%N] s3 _ Hr3) as [Hr4 _].
    set (s4 := skip _ s3) in *.
    rewrite (rmatch_lit "will" [n12; n13; n14; n15] b _ s4);
      [by eexists|done|done|exact Hr4|].
    vm_compute (map lower_cp (str _)). cbn [map]. congruence. }
  destruct (finditer p t) as [|m ms] eqn:Hm; [done|].
  destruct (report_tiers t ents) as (Hh & _).
  destruct (report_fields t ents) as (Fh & Fm & Fl & Fs).
  fold r in Hh, Fh, Fm, Fl, Fs.
  assert (finding_of t "unilateral_termination" m ∈ high r) as Hin.
  { rewrite Hh. apply in_findings_for.
    eexists (_, _), p, m. split; [|split; [|split; [|reflexivity]]].
    - unfold high_patterns. apply list_elem_of_In. simpl. right. left. reflexivity.
    - apply list_elem_of_In. simpl. right. left. reflexivity.
    - rewrite Hm. by left. }
  split; [by eexists|].
  rewrite Fs. unfold total_score, sum, weights. simpl.
  rewrite <- Fh. destruct (high r) as [|f fs]; [by apply elem_of_nil in Hin|].
  simpl length. lia.
Qed.

Lemma terminate_at_will_witness :
  lower (str "Terminate At Will") = str "terminate at will"
  ∧ ((∃ f, f ∈ high (analyze_contract
                      (str "Either side can " ++ str "Terminate At Will"
                         ++ str " tomorrow.") ∅)
           ∧ category f = "unilateral_termination")
     ∧ (10 ≤ composite_score
               (analyze_contract
                  (str "Either side can " ++ str "Terminate At Will"
                     ++ str " tomorrow.") ∅))%Z).
Proof.
  split; [reflexivity|].
  apply (terminate_at_will_detected
           (str "Either side can ") (str "Terminate At Will")
           (str " tomorrow.") ∅).
  reflexivity.
Defined.

(** The level, as the report's score decides it. *)
Lemma report_level t ents :
  let r := analyze_contract t ents in
  level r = if (composite_score r >? 60)%Z then "HIGH RISK"
            else if (composite_score r >? 30)%Z then "MEDIUM RISK"
            else "LOW RISK".
Proof.
  unfold analyze_contract. set (score := Z.min 100 _).
  destruct (score >? 60)%Z eqn:E1;
    [cbn [level composite_score]; by rewrite E1|].
  destruct (score >? 30)%Z eqn:E2;
    cbn [level composite_score]; by rewrite E1, E2.
Qed.

Lemma report_score t ents :
  let r := analyze_contract t ents in
  composite_score r
  = Z.min 100 (10 * Z.of_nat (length (high r))
               + 5 * Z.of_nat (length (medium r))
               + Z.of_nat (length (low r))).
Proof.
  intros r. destruct (report_fields t ents) as (Hh & Hm & Hl & Hs).
  fold r in Hh, Hm, Hl, Hs. rewrite Hs, Hh, Hm, Hl.
  unfold total_score, sum, weights. simpl. lia.
Qed.

(** X4. The numbers of findings bound the verdict: seven high-severity
    findings always give HIGH RISK, and a LOW RISK report has at most
    three high, six medium and thirty low findings; a MEDIUM RISK report
    has at most six high findings. *)
Theorem verdict_from_counts (t : text)
        (ents : gmap string LegalNLPEngine.value) :
  let r := analyze_contract t ents in
  (7 ≤ length (high r) → level r = "HIGH RISK")
  ∧ (level r = "LOW RISK" →
     length (high r) ≤ 3 ∧ length (medium r) ≤ 6 ∧ length (low r) ≤ 30)
  ∧ (level r = "MEDIUM RISK" →
     length (high r) ≤ 6 ∧ length (medium r) ≤ 12 ∧ length (low r) ≤ 60
     ∧ 0 < length (high r) + length (medium r) + length (low r)).
Proof.
  intros r. pose proof (report_level t ents) as Hl.
  pose proof (report_score t ents) as Hs. cbv zeta in Hl, Hs.
  fold r in Hl, Hs. rewrite Hl.
  destruct (composite_score r >? 60)%Z eqn:E1;
    [|destruct (composite_score r >? 30)%Z eqn:E2];
    rewrite ?Z.gtb_ltb, ?Z.ltb_lt, ?Z.ltb_ge in *;
    repeat split; intros; try discriminate; try done; repeat split;
    first [lia | exfalso; lia].
Qed.

(** X5. The compliance check sees its keywords in any letter case and
    anywhere in the text: a text with [payment] has consideration
    PRESENT, with [consent] free_consent, with [competent]
    competent_parties, and with [legitimate] lawful_object. *)
Theorem compliance_keywords_found (a w b : text) (contract_type : string) :
  let checks := check_indian_compliance (a ++ w ++ b) contract_type in
  (lower w = str "payment" → present checks "consideration")
  ∧ (lower w = str "consent" → present checks "free_consent")
  ∧ (lower w = str "competent" → present checks "competent_parties")
  ∧ (lower w = str "legitimate" → present checks "lawful_object").
Proof.
  intros checks. unfold checks.
  pose (e := λ i, nth i essential_elements ("", Pattern true Empty 0)).
  assert (∀ i (k : mstate → option mstate) s,
            accepting k → accepting (λ s', k (set_cap i (pos s) (pos s') s')))
    as Hcap by (intros i k s Hk s'; apply Hk).
  repeat split; intros Hw; (apply lower_ascii in Hw; [|reflexivity]).
  - apply (present_entry _ _ (e 0)); [apply list_elem_of_In; simpl; tauto|].
    unfold e. cbn [nth essential_elements snd ci].
    apply (keyword_found "payment"); [done|done|by rewrite Hw|].
    intros k s H Hk. cbn [cat alt]. rewrite rmatch_group.
    do 3 apply rmatch_alt_r. by apply H, Hcap.
  - apply (present_entry _ _ (e 1)); [apply list_elem_of_In; simpl; tauto|].
    unfold e. cbn [nth essential_elements snd ci].
    apply (keyword_found "consent"); [done|done|by rewrite Hw|].
    intros k s H Hk. cbn [cat alt]. rewrite rmatch_group.
    apply rmatch_alt_l. by apply H, Hcap.
  - apply (present_entry _ _ (e 2)); [apply list_elem_of_In; simpl; tauto|].
    unfold e. cbn [nth essential_elements snd ci].
    apply (keyword_found "competent"); [done|done|by rewrite Hw|].
    intros k s H Hk. cbn [cat alt]. rewrite rmatch_group.
    do 3 apply rmatch_alt_r. by apply H, Hcap.
  - apply (present_entry _ _ (e 3)); [apply list_elem_of_In; simpl; tauto|].
    unfold e. cbn [nth essential_elements snd ci].
    apply (keyword_found "legitimate"); [done|done|by rewrite Hw|].
    intros k s H Hk. cbn [cat alt]. rewrite rmatch_group.
    do 2 apply rmatch_alt_r. by apply H, Hcap.
Qed.

End Detection.

(* ===================================================================== *)
(** ** Entities, sentences and classes: further facts *)
(* ===================================================================== *)

Section LanguageFacts.

Import Spec LegalNLPEngine.

Lemma list_of_set_spec (l : list text) :
  NoDup (list_of_set l) ∧ ∀ x, x ∈ list_of_set l ↔ x ∈ l.
Proof.
  unfold list_of_set. split; [apply NoDup_elements|].
  intros x. by rewrite elem_of_elements, elem_of_list_to_set.
Qed.

Lemma custom_entities_lookup (t : text) :
  custom_entities (extract_entities t) "party"
  = list_of_set (collect party_patterns t)
  ∧ custom_entities (extract_entities t) "amount"
    = list_of_set (collect amount_patterns t)
  ∧ custom_entities (extract_entities t) "date"
    = list_of_set (collect date_patterns t)
  ∧ custom_entities (extract_entities t) "duration"
    = list_of_set (collect duration_patterns t).
Proof.
  unfold custom_entities. rewrite extract_entities_unfold.
  rewrite lookup_insert_eq. by simplify_map_eq.
Qed.

(** X6. Each category of [extract_entities] lists every string collected
    for it exactly once, whatever the number of its matches; so do the
    organizations.  A name with an em space before its suffix is an
    organization; a name that follows a letter of any script without a
    break is none. *)
Theorem entities_deduplicated (t : text) :
  let e := extract_entities t in
  Forall (λ kp, NoDup (custom_entities e (fst kp))
                ∧ ∀ x, x ∈ custom_entities e (fst kp)
                       ↔ x ∈ collect (snd kp) t)
         legal_patterns
  ∧ (∃ orgs, e !! "organizations" = Some (VList orgs)
             ∧ NoDup orgs
             ∧ ∀ x, x ∈ orgs ↔ x ∈ map (group0 t) (finditer org_pattern t))
  ∧ extract_entities (str "Acme" ++ [em_space] ++ str "Ltd")
    !! "organizations"
    = Some (VList [str "Acme" ++ [em_space] ++ str "Ltd"])
  ∧ extract_entities ([omega] ++ str "Acme Ltd") !! "organizations"
    = Some (VList []).
Proof.
  intros e. unfold e.
  destruct (custom_entities_lookup t) as (H1 & H2 & H3 & H4).
  split; [|split; [|split; vm_compute; reflexivity]].
  - unfold legal_patterns.
    repeat (apply Forall_cons; split; [|]); try apply Forall_nil_2;
      cbn [fst snd]; rewrite ?H1, ?H2, ?H3, ?H4; apply list_of_set_spec.
  - rewrite extract_entities_unfold. eexists. split; [by simplify_map_eq|].
    apply list_of_set_spec.
Qed.

Lemma filter_partition_length (l : list text) :
  length (filter (λ s, class_of s = Some Obligation) l)
  + length (filter (λ s, class_of s = Some Right) l)
  + length (filter (λ s, class_of s = Some Prohibition) l)
  + length (filter (λ s, class_of s = None) l)
  = length l.
Proof.
  induction l as [|x l IH]; [done|]. rewrite !filter_cons.
  destruct (class_of x) as [[| |]|]; repeat case_decide; try done;
    simpl; lia.
Qed.

Lemma classify_clauses_filters (t : text) :
  classify_clauses t
  = Classified
      (filter (λ s, class_of s = Some Obligation) (LegalNLPEngine.sentences t))
      (filter (λ s, class_of s = Some Right) (LegalNLPEngine.sentences t))
      (filter (λ s, class_of s = Some Prohibition) (LegalNLPEngine.sentences t)).
Proof. unfold classify_clauses. by rewrite classify_fold. Qed.

(** X7. Each class keeps its sentences in the order of the text, and the
    classes together with the unclassified sentences account for every
    sentence once. *)
Theorem classes_keep_order (t : text) :
  let c := classify_clauses t in
  let ss := LegalNLPEngine.sentences t in
  obligations c `sublist_of` ss
  ∧ rights c `sublist_of` ss
  ∧ prohibitions c `sublist_of` ss
  ∧ length (obligations c) + length (rights c) + length (prohibitions c)
    + length (filter (λ s, class_of s = None) ss)
    = length ss.
Proof.
  intros c ss. unfold c. rewrite classify_clauses_filters.
  cbn [obligations rights prohibitions]. fold ss.
  repeat split; try apply sublist_filter. apply filter_partition_length.
Qed.

Lemma detect_ambiguous_terms_map (t : text) :
  detect_ambiguous_terms t
  = map flag_of (filter (λ s, vague_terms_in s ≠ [])
                        (LegalNLPEngine.sentences t)).
Proof. unfold detect_ambiguous_terms. by rewrite detect_fold. Qed.

(** X8. The word [may] is a right marker and a vague term at once: every
    sentence that contains it, also inside a longer word, is filed under
    one of the three classes and flagged as ambiguous with [may] among
    the terms. *)
Theorem may_classified_and_flagged (t : text) :
  let c := classify_clauses t in
  Forall (λ s, contains (str "may") (lower s) = true →
               (s ∈ prohibitions c ∨ s ∈ obligations c ∨ s ∈ rights c)
               ∧ ∃ f, f ∈ detect_ambiguous_terms t
                      ∧ sentence f = s ∧ str "may" ∈ terms f)
         (LegalNLPEngine.sentences t).
Proof.
  intros c. apply Forall_forall. intros s Hs Hmay.
  assert (has_marker right_markers s = true) as Hr.
  { unfold has_marker, right_markers. cbn [existsb]. by rewrite Hmay. }
  assert (str "may" ∈ vague_terms_in s) as Hv.
  { unfold vague_terms_in. apply list_elem_of_filter. split; [done|].
    unfold ambiguous_terms. apply list_elem_of_In. simpl. tauto. }
  split.
  - unfold c. rewrite classify_clauses_filters.
    cbn [obligations rights prohibitions].
    rewrite !list_elem_of_filter. unfold class_of. rewrite Hr.
    destruct (has_marker prohibition_markers s); [by left|].
    destruct (has_marker obligation_markers s); [right; by left|].
    right. by right.
  - exists (flag_of s). rewrite detect_ambiguous_terms_map.
    split; [|done].
    apply list_elem_of_In, in_map, list_elem_of_In, list_elem_of_filter.
    split; [|done]. intros Hnil. rewrite Hnil in Hv. by apply elem_of_nil in Hv.
Qed.

Lemma split_runs_infix (t : text) : ∀ acc in_run p,
  p ∈ split_runs acc in_run t → ∃ a b, rev acc ++ t = a ++ p ++ b.
Proof.
  induction t as [|c t IH]; intros acc in_run p; simpl.
  - intros ->%list_elem_of_singleton. exists [], []. by rewrite !app_nil_r.
  - assert (p ∈ split_runs [] true t →
            ∃ a b, rev acc ++ c :: t = a ++ p ++ b) as Hnext.
    { intros (a & b & Hab)%IH. simpl in Hab.
      exists (rev acc ++ c :: a), b. rewrite Hab.
      by rewrite <- !app_assoc. }
    destruct (is_terminator c).
    + destruct in_run; [done|].
      intros [->|H]%elem_of_cons; [|by apply Hnext].
      by exists [], (c :: t).
    + intros (a & b & Hab)%IH. simpl in Hab.
      exists a, b. rewrite <- Hab. by rewrite <- app_assoc.
Qed.

Lemma split_runs_plain (t : text) : ∀ acc,
  Forall (λ c, is_terminator c = false) t →
  split_runs acc false t = [rev acc ++ t].
Proof.
  induction t as [|c t IH]; intros acc Ht; simpl.
  - by rewrite app_nil_r.
  - apply Forall_cons in Ht as [-> Ht]. rewrite IH by done.
    simpl. by rewrite <- app_assoc.
Qed.

Lemma lstrip_fixed (s : text) :
  (∀ c, head s = Some c → is_space c = false) → lstrip s = s.
Proof. destruct s as [|c s]; simpl; [done|]. intros H. by rewrite (H c). Qed.

Lemma strip_fixed (s : text) : trimmed s → strip s = s.
Proof.
  intros [Hh Hl]. unfold strip, rstrip. rewrite (lstrip_fixed s Hh).
  rewrite lstrip_fixed; [apply rev_involutive|].
  intros c. rewrite rev_alt. fold (reverse s). rewrite head_reverse. apply Hl.
Qed.

(** X9. Every sentence is a contiguous part of the text, and splitting a
    sentence again gives this one sentence back. *)
Theorem sentences_are_stable (t : text) :
  Forall (λ s, (∃ a b, t = a ++ s ++ b)
               ∧ LegalNLPEngine.sentences s = [s])
         (LegalNLPEngine.sentences t).
Proof.
  apply Forall_forall. intros s Hs.
  destruct (sentences_shape t s Hs) as (Hne & Htrim & Hterm).
  split.
  - rewrite sentences_spec in Hs. unfold Spec.sentences in Hs.
    apply list_elem_of_filter in Hs as [_ Hs].
    apply list_elem_of_In, in_map_iff in Hs as (p & <- & Hp%list_elem_of_In).
    apply split_runs_infix in Hp as (a & b & Hab). simpl in Hab.
    destruct (strip_infix p) as (a' & b' & Hp').
    exists (a ++ a'), (b' ++ b). rewrite Hab. rewrite Hp' at 1.
    by rewrite <- !app_assoc.
  - rewrite sentences_spec. unfold Spec.sentences.
    rewrite split_runs_plain by done. simpl.
    rewrite (strip_fixed s Htrim), filter_cons, filter_nil.
    by case_decide.
Qed.

End LanguageFacts.

(* ===================================================================== *)
(** ** The document parser *)
(* ===================================================================== *)

Section Parser.

Import ContractParser.

Lemma detect_sections_unfold (t : text) :
  _detect_sections t
  = if negb (truthy t) || (Z.of_nat (length t) <? 10)%Z then []
    else flat_map (λ p, map (section_of t) (finditer p t)) section_patterns.
Proof.
  unfold _detect_sections. destruct (_ || _); [done|].
  assert (∀ ms acc,
            fold_left (λ sections m,
                         sections ++ [Section_ (group0 t m) (Z.of_nat (m_start m))])
                      ms acc
            = acc ++ map (section_of t) ms) as Hinner.
  { induction ms as [|m ms IH]; intros acc; simpl; [by rewrite app_nil_r|].
    rewrite IH. by rewrite <- app_assoc. }
  unfold section_patterns. cbn [fold_left flat_map].
  by rewrite !Hinner, app_nil_r.
Qed.

Lemma section_patterns_min_len :
  Forall (λ p, 4 ≤ min_len (body p)) section_patterns.
Proof. repeat constructor. Qed.

Lemma in_detect_sections (t : text) (sec : section) :
  sec ∈ _detect_sections t →
  10 ≤ length t
  ∧ ∃ p m, p ∈ section_patterns ∧ m ∈ finditer p t ∧ sec = section_of t m.
Proof.
  rewrite detect_sections_unfold.
  destruct (negb (truthy t) || (Z.of_nat (length t) <? 10)%Z) eqn:E;
    [by intros ?%elem_of_nil|].
  apply orb_false_iff in E as [_ E%Z.ltb_ge].
  intros H. split; [lia|].
  apply list_elem_of_In, in_flat_map in H as (p & Hp & H).
  apply in_map_iff in H as (m & <- & Hm).
  exists p, m. by rewrite !list_elem_of_In.
Qed.

(** X10. Every section that [_detect_sections] reports comes from a text
    of at least ten characters; its header has at least four characters
    and [position] is the offset in the text where the header stands. *)
Theorem sections_point_into_text (t : text) :
  Forall (λ sec,
            10 ≤ length t
            ∧ 4 ≤ length (header sec)
            ∧ (0 ≤ position sec)%Z
            ∧ slice t (position sec)
                (position sec + Z.of_nat (length (header sec)))
              = header sec)
         (_detect_sections t).
Proof.
  apply Forall_forall. intros sec (Hlen & p & m & Hp & Hm & ->)%in_detect_sections.
  pose proof (finditer_bounds _ _ _ Hm) as [Hse Hel].
  pose proof (finditer_min_len _ _ _ Hm) as Hmin.
  pose proof section_patterns_min_len as Hpat.
  eapply Forall_forall in Hpat; [|exact Hp]. simpl in Hpat.
  unfold section_of. cbn [header position]. unfold group0.
  rewrite slice_nat_length by done.
  repeat split; [done|lia|lia|].
  unfold slice_nat. f_equal. lia.
Qed.

Lemma sorted_sections t p (ms : list Match) :
  Forall (λ m, m ∈ finditer p t) ms →
  StronglySorted (λ m1 m2, m_end m1 ≤ m_start m2) ms →
  StronglySorted header_before (map (section_of t) ms).
Proof.
  intros Hin. induction 1 as [|m ms Hs IH Hall]; simpl; [constructor|].
  apply Forall_cons in Hin as [Hm Hin].
  constructor; [by apply IH|].
  apply Forall_forall. intros f Hf%list_elem_of_In.
  apply in_map_iff in Hf as (m2 & <- & Hm2%list_elem_of_In).
  eapply Forall_forall in Hall; [|done].
  apply finditer_bounds in Hm as [Hse Hel].
  unfold header_before, section_of. cbn [header position]. unfold group0.
  rewrite slice_nat_length by done. lia.
Qed.

(** X11. [_detect_sections] lists the numbered headers (article, section
    or clause with a number) before the keyword headers, whatever their
    places in the text; within each of the two groups the headers follow
    the text without overlap.  The number of a header may be written in
    any decimal digits. *)
Theorem sections_grouped_by_pattern :
  (∀ t : text,
     10 ≤ length t →
     ∃ numbered keywords,
       _detect_sections t = numbered ++ keywords
       ∧ numbered = map (section_of t) (finditer (nth 0 section_patterns
                                                     (Pattern true Empty 0)) t)
       ∧ keywords = map (section_of t) (finditer (nth 1 section_patterns
                                                     (Pattern true Empty 0)) t)
       ∧ StronglySorted header_before numbered
       ∧ StronglySorted header_before keywords)
  ∧ map position
        (_detect_sections (str "Payment is due. Section 2 sets the term."))
    = [16; 0; 35]%Z
  ∧ _detect_sections (str "Section " ++ [devanagari 2] ++ str " of deed")
    = [Section_ (str "Section " ++ [devanagari 2]) 0].
Proof.
  split; [|split; vm_compute; reflexivity].
  intros t Hlen. rewrite detect_sections_unfold.
  assert ((negb (truthy t) || (Z.of_nat (length t) <? 10)%Z) = false) as ->.
  { apply orb_false_iff. split; [|apply Z.ltb_ge; lia].
    destruct t; [simpl in Hlen; lia|done]. }
  unfold section_patterns. cbn [flat_map nth]. rewrite app_nil_r.
  eexists _, _. split; [reflexivity|]. split; [reflexivity|].
  split; [reflexivity|].
  split; (eapply sorted_sections;
          [by apply Forall_forall|eapply ordered_from_sorted, finditer_ordered]).
Qed.

Lemma read_pages_fail (pages : list page_result) : ∀ txt,
  snd (read_pages pages txt) = pages_fail pages.
Proof.
  induction pages as [|[[page_text|]|e] pages IH]; intros txt; simpl; try done;
    apply IH.
Qed.

Lemma run_pdf_fail (r : pdf_run) txt md :
  snd (run_pdf r txt md) = pdf_fails r.
Proof.
  destruct r as [e|pages close]; simpl; [done|].
  pose proof (read_pages_fail pages txt) as H.
  destruct (read_pages pages txt) as [txt' [e|]]; simpl in *; by rewrite <- H.
Qed.

Lemma read_pages_readable (pages : list text) (more : list page_result) :
  ∀ txt, read_pages (readable pages ++ more) txt
         = read_pages more (txt ++ pages_text pages).
Proof.
  unfold pages_text.
  induction pages as [|page_text pages IH]; intros txt; simpl.
  - by rewrite app_nil_r.
  - rewrite IH, filter_cons. destruct page_text as [|c page_text].
    + by rewrite decide_False.
    + rewrite decide_True by done. simpl. f_equal.
      rewrite <- app_assoc. reflexivity.
Qed.

Lemma parse_pdf_never_blank_sections (plumber pypdf : pdf_run) :
  sections (_parse_pdf plumber pypdf)
  = _detect_sections (raw_text (_parse_pdf plumber pypdf)).
Proof.
  unfold _parse_pdf.
  destruct (run_pdf plumber [] ∅) as [[txt md] [e|]];
    [destruct (run_pdf pypdf txt md) as [[txt' md'] [e2|]]|]; done.
Qed.

Lemma notice_not_blank (txt : text) :
  truthy (strip (if truthy (strip txt) then txt
                 else str "No text extracted from PDF")) = true.
Proof.
  destruct (truthy (strip txt)) eqn:E; [exact E|]. vm_compute. reflexivity.
Qed.

(** X12. Whatever the two PDF libraries do, [_parse_pdf] returns a
    [raw_text] with something else than whitespace in it, and the sections
    are those of this text.  Pages that hold nothing but whitespace, of
    any kind, give the notice. *)
Theorem parse_pdf_never_blank (plumber pypdf : pdf_run) :
  let r := _parse_pdf plumber pypdf in
  truthy (strip (raw_text r)) = true
  ∧ (∃ c, c ∈ raw_text r ∧ is_space c = false)
  ∧ sections r = _detect_sections (raw_text r)
  ∧ raw_text (_parse_pdf
                (Opened [PageText (Some [em_space; nl; ideographic_space]);
                         PageText (Some [thin_space])] None)
                pypdf)
    = str "No text extracted from PDF".
Proof.
  assert (∀ s, truthy (strip s) = true → ∃ c, c ∈ s ∧ is_space c = false)
    as Hsolid.
  { intros s Hs. destruct (strip_infix s) as (a & b & Hab).
    destruct (strip_trimmed s) as [Hhead _].
    destruct (strip s) as [|c u]; [done|].
    exists c. split; [|by apply Hhead].
    rewrite Hab. apply elem_of_app. right. by left. }
  assert (truthy (strip (raw_text (_parse_pdf plumber pypdf))) = true) as Hb.
  { unfold _parse_pdf.
    destruct (run_pdf plumber [] ∅) as [[txt md] [e|]];
      [destruct (run_pdf pypdf txt md) as [[txt' md'] [e2|]]|];
      cbn [raw_text]; apply notice_not_blank. }
  cbv zeta. split; [exact Hb|]. split; [by apply Hsolid|].
  split; [apply parse_pdf_never_blank_sections|].
  vm_compute. reflexivity.
Qed.

Lemma parse_pdf_outcome (plumber pypdf : pdf_run) :
  let r := _parse_pdf plumber pypdf in
  match pdf_fails plumber, pdf_fails pypdf with
  | Some _, Some e2 =>
      raw_text r = str "Could not extract text from PDF"
      ∧ sections r = []
      ∧ metadata r !! "error" = Some (MStr e2)
  | _, _ => metadata r !! "error" = None
  end.
Proof.
  unfold _parse_pdf.
  assert (∀ r txt md, md !! "error" = None →
            (run_pdf r txt md).1.2 !! "error" = None) as Hmd.
  { intros [e|pages close] txt md Hn; simpl; [done|].
    destruct (read_pages pages txt) as [txt' [e|]]; simpl;
      by rewrite lookup_insert_ne. }
  pose proof (run_pdf_fail plumber [] ∅) as H1.
  pose proof (Hmd plumber [] ∅ (lookup_empty _)) as M1.
  destruct (run_pdf plumber [] ∅) as [[txt md] e1]. simpl in H1, M1.
  rewrite <- H1. destruct e1 as [e1|]; [|by destruct (truthy (strip txt))].
  pose proof (run_pdf_fail pypdf txt md) as H2.
  pose proof (Hmd pypdf txt md M1) as M2.
  destruct (run_pdf pypdf txt md) as [[txt' md'] e2]. simpl in H2, M2.
  rewrite <- H2. destruct e2 as [e2|]; [|by destruct (truthy (strip txt'))].
  cbn [raw_text sections metadata].
  split; [done|]. split; [by vm_compute|]. by rewrite lookup_insert_eq.
Qed.


(** A result with an error holds one of the three notices. *)
Lemma parse_document_notice (f : file) (file_type : text) :
  is_Some (metadata (parse_document f file_type) !! "error") →
  raw_text (parse_document f file_type) ∈ notices.
Proof.
  unfold parse_document, notices.
  destruct (bool_decide _).
  - pose proof (parse_pdf_outcome (pdfplumber f) (pypdf2 f)) as H.
    cbv zeta in H.
    destruct (pdf_fails (pdfplumber f)), (pdf_fails (pypdf2 f));
      try (rewrite H; by intros [? [=]]).
    destruct H as (-> & _). intros _. apply list_elem_of_In. simpl. tauto.
  - destruct (bool_decide _).
    + unfold _parse_docx. destruct (docx f); cbn [metadata raw_text].
      * intros _. apply list_elem_of_In. simpl. tauto.
      * rewrite lookup_singleton_ne by done. by intros [? [=]].
    + unfold _parse_txt. destruct (read_utf8 f); cbn [metadata raw_text].
      * by intros [? [=]].
      * destruct (read_latin1 f); cbn [metadata raw_text].
        -- by intros [? [=]].
        -- intros _. apply list_elem_of_In. simpl. tauto.
Qed.

(** X14. When the first library has read some pages before it fails,
    their text stays in front of everything the second library reads:
    a page both libraries read stands twice in [raw_text].  The page
    count is that of the second library.  When all that was read is
    whitespace, of any kind, the notice takes its place. *)
Theorem parse_pdf_keeps_partial_text :
  (∀ (read1 pages2 : list text) (e : text),
     let r := _parse_pdf (Opened (readable read1 ++ [PageRaises e]) None)
                         (Opened (readable pages2) None) in
     let txt := pages_text read1 ++ pages_text pages2 in
     raw_text r
     = (if truthy (strip txt) then txt else str "No text extracted from PDF")
     ∧ metadata r
       = {[ "pages" := MInt (Z.of_nat (length pages2)) ]})
  ∧ raw_text (_parse_pdf
                (Opened [PageText (Some (str "Clause 1")); PageRaises (str "x")]
                        None)
                (Opened [PageText (Some (str "Clause 1"))] None))
    = str "Clause 1" ++ [nl; nl] ++ str "Clause 1" ++ [nl; nl]
  ∧ raw_text (_parse_pdf
                (Opened [PageText (Some [em_space]); PageRaises (str "x")]
                        None)
                (Opened [] None))
    = str "No text extracted from PDF".
Proof.
  split; [|split; vm_compute; reflexivity].
  intros read1 pages2 e r txt. unfold r, _parse_pdf, run_pdf.
  rewrite read_pages_readable. cbn [read_pages].
  rewrite <- (app_nil_r (readable pages2)), read_pages_readable.
  cbn [read_pages app]. fold txt.
  rewrite app_nil_r, insert_insert_eq.
  unfold readable. rewrite length_map. cbn [raw_text metadata].
  split; [done|]. reflexivity.
Qed.

Lemma sections_of_raw_text (f : file) (file_type : text) :
  sections (parse_document f file_type)
  = _detect_sections (raw_text (parse_document f file_type)).
Proof.
  unfold parse_document.
  destruct (bool_decide _); [apply parse_pdf_never_blank_sections|].
  destruct (bool_decide _).
  - unfold _parse_docx. destruct (docx f); [by vm_compute|done].
  - unfold _parse_txt. destruct (read_utf8 f); [done|].
    destruct (read_latin1 f); [done|by vm_compute].
Qed.

(** X15. In every result of [parse_document], for every kind of file and
    whatever happens on reading it, the sections are those that
    [_detect_sections] finds in [raw_text]; the notices returned on an
    error have none. *)
Theorem parse_document_sections (f : file) (file_type : text) :
  let r := parse_document f file_type in
  sections r = _detect_sections (raw_text r)
  ∧ (is_Some (metadata r !! "error") → sections r = []).
Proof.
  cbv zeta. split; [apply sections_of_raw_text|].
  intros Herr%parse_document_notice. rewrite sections_of_raw_text.
  revert Herr. generalize (raw_text (parse_document f file_type)).
  intros t Ht. unfold notices in Ht.
  apply list_elem_of_In in Ht. simpl in Ht.
  destruct Ht as [<-|[<-|[<-|[]]]]; vm_compute; reflexivity.
Qed.

End Parser.

(* ===================================================================== *)
(** ** The application and the assistant *)
(* ===================================================================== *)

Section Surroundings.

Import ContractParser ClaudeAssistant RiskAnalyzer.

Lemma split_dot_plain (ext : text) : ∀ acc,
  Forall (λ c, c ≠ dot) ext →
  split_on [dot] acc 0 ext = [rev acc ++ ext].
Proof.
  induction ext as [|c ext IH]; intros acc Hext; cbn [split_on starts_with].
  - by rewrite app_nil_r.
  - apply Forall_cons in Hext as [Hc Hext].
    destruct (N.eqb_spec dot c) as [Heq|Hne]; [congruence|]. cbn [andb].
    rewrite IH by done. simpl. by rewrite <- app_assoc.
Qed.

Lemma split_dot_last (base ext : text) : ∀ acc,
  Forall (λ c, c ≠ dot) ext →
  last (split_on [dot] acc 0 (base ++ dot :: ext)) = Some ext.
Proof.
  induction base as [|c base IH]; intros acc Hext.
  - cbn [app split_on starts_with]. rewrite N.eqb_refl. cbn [andb length Nat.sub].
    by rewrite split_dot_plain.
  - cbn [app split_on starts_with].
    destruct (dot =? c)%N; cbn [andb].
    + cbn [length Nat.sub]. rewrite last_cons, (IH [] Hext). done.
    + by apply IH.
Qed.

(** X16. The extension taken from a file name is what follows its last
    dot, or the whole name when it has no dot, letter case kept; and
    [parse_document] reads as plain text every file whose extension is
    not exactly [pdf] or [docx]. *)
Theorem file_extension_dispatch (base ext : text) (f : file) :
  Forall (λ c, c ≠ dot) ext →
  App.file_ext (base ++ str "." ++ ext) = ext
  ∧ App.file_ext ext = ext
  ∧ (ext ≠ str "pdf" → ext ≠ str "docx" →
     parse_document f (App.file_ext (base ++ str "." ++ ext))
     = _parse_txt (read_utf8 f) (read_latin1 f)).
Proof.
  intros Hext. unfold App.file_ext, str_split.
  change (str ".") with [dot]. cbn [app].
  rewrite split_dot_last, split_dot_plain by done. simpl.
  repeat split; try done.
  intros H1 H2. unfold parse_document.
  by rewrite !bool_decide_eq_false_2.
Qed.

Lemma file_extension_witness :
  Forall (λ c, c ≠ dot) (str "PDF")
  ∧ (App.file_ext (str "contract.v2" ++ str "." ++ str "PDF") = str "PDF"
     ∧ App.file_ext (str "PDF") = str "PDF"
     ∧ (str "PDF" ≠ str "pdf" → str "PDF" ≠ str "docx" →
        parse_document (text_file (str "Section 1 of the deed"))
          (App.file_ext (str "contract.v2" ++ str "." ++ str "PDF"))
        = _parse_txt (read_utf8 (text_file (str "Section 1 of the deed")))
                     (read_latin1 (text_file (str "Section 1 of the deed"))))).
Proof.
  assert (Forall (λ c, c ≠ dot) (str "PDF")) as H
    by (repeat constructor; discriminate).
  split; [exact H|].
  exact (file_extension_dispatch (str "contract.v2") (str "PDF")
           (text_file (str "Section 1 of the deed")) H).
Defined.

(** X20. The badge shown for a report is chosen by its level, hence by
    its score: above 60 the high-risk style, above 30 the medium-risk
    style, else the low-risk style. *)
Theorem badge_follows_score (t : text)
        (ents : gmap string LegalNLPEngine.value) :
  let r := analyze_contract t ents in
  App.badge (level r)
  = if (composite_score r >? 60)%Z then "risk-high"
    else if (composite_score r >? 30)%Z then "risk-medium"
    else "risk-low".
Proof.
  intros r. pose proof (report_level t ents) as Hl. cbv zeta in Hl.
  fold r in Hl. rewrite Hl.
  destruct (composite_score r >? 60)%Z; [by vm_compute|].
  destruct (composite_score r >? 30)%Z; by vm_compute.
Qed.

(** [t[:n]] is the prefix of [n] characters. *)
Lemma slice_prefix (t : text) (n : nat) : slice t 0 (Z.of_nat n) = take n t.
Proof.
  unfold slice, norm_index.
  destruct (Z.ltb_spec 0 0); [lia|].
  destruct (Z.ltb_spec (Z.of_nat n) 0); [lia|].
  replace (Z.to_nat (Z.min 0 (Z.of_nat (length t)))) with 0 by lia.
  rewrite drop_0.
  destruct (decide (n ≤ length t)) as [Hle|Hgt].
  - f_equal. lia.
  - rewrite !take_ge by lia. done.
Qed.

(** X18. The prompt of [classify_contract_type] is the fixed text with
    the first 1500 characters of the contract in it and nothing beyond
    them; this prompt is what goes to the service, and it has 306
    characters of its own. *)
Theorem classification_reads_prefix (self : assistant) (t : text) :
  classify_prompt t = classify_head ++ take 1500 t ++ classify_tail
  ∧ length classify_head + length classify_tail = 306
  ∧ classify_contract_type self t
    = _call_gemini self (classify_head ++ take 1500 t ++ classify_tail)
  ∧ (∀ t', take 1500 t = take 1500 t' →
           classify_prompt t = classify_prompt t')
  ∧ classify_prompt (str "Lease of flat 4")
    = classify_head ++ str "Lease of flat 4" ++ classify_tail.
Proof.
  assert (∀ t, classify_prompt t
               = classify_head ++ take 1500 t ++ classify_tail) as Hp.
  { intros u. unfold classify_prompt.
    change (slice u 0 1500) with (slice u 0 (Z.of_nat 1500)).
    rewrite (slice_prefix u 1500). unfold classify_head, classify_tail.
    rewrite <- !app_assoc. reflexivity. }
  split; [apply Hp|]. split; [vm_compute; reflexivity|].
  split; [unfold classify_contract_type; by rewrite Hp|].
  split; [|vm_compute; reflexivity].
  intros t' Heq. by rewrite !Hp, Heq.
Qed.






(** X17. [suggest_alternatives] raises AttributeError exactly when the
    service answers with status 200 and something else than a string
    where the text is expected; in every other case it returns, and no
    alternative it returns is empty or has whitespace at either end, of
    any kind that [str.strip] removes. *)
Theorem alternatives_are_trimmed (self : assistant)
        (unfavorable_clause concern : text) :
  let p := post self (request_url self)
                (alternatives_prompt unfavorable_clause concern) in
  (answer_is p JOther ↔
   suggest_alternatives self unfavorable_clause concern
   = Raises "AttributeError")
  ∧ ((¬ answer_is p JOther) →
     ∃ alts, suggest_alternatives self unfavorable_clause concern
             = Returns alts
             ∧ Forall (λ alt, alt ≠ [] ∧ Spec.trimmed alt) alts)
  ∧ suggest_alternatives
      (answering (JStr (str "1. a" ++ [8195%N; nl; nl; 12288%N; nl; nl]
                          ++ str "2. b" ++ [nl])))
      unfavorable_clause concern
    = Returns [str "1. a"; str "2. b"].
Proof.
  intros p.
  assert (∀ result,
            Forall (λ alt, alt ≠ [] ∧ Spec.trimmed alt)
              (map strip (filter (λ alt, truthy (strip alt) = true)
                                 (str_split [nl; nl] (strip result)))))
    as Htrim.
  { intros result. apply Forall_forall. intros alt Halt.
    apply list_elem_of_In, in_map_iff in Halt as (piece & <- & Hp).
    apply list_elem_of_In, list_elem_of_filter in Hp as [Hp _].
    split; [by apply truthy_nonempty|apply strip_trimmed]. }
  unfold suggest_alternatives, _call_gemini, answer_is.
  fold (request_url self). fold p.
  split; [|split; [|vm_compute; reflexivity]].
  - split.
    + intros (r & -> & Hs & Hc). rewrite Hs, Hc. reflexivity.
    + destruct p as [r|e]; [|done].
      destruct (status_code r =? 200)%Z eqn:Hs; [|done].
      destruct (candidate_text r) as [[txt|]|e] eqn:Hc; try done.
      intros _. exists r. by apply Z.eqb_eq in Hs.
  - intros Hno. destruct p as [r|e]; [|by eexists].
    destruct (status_code r =? 200)%Z eqn:Hs; [|by eexists].
    destruct (candidate_text r) as [[txt|]|e] eqn:Hc; try by eexists.
    exfalso. apply Hno. exists r. by apply Z.eqb_eq in Hs.
Qed.



(** X22. A file that could not be read is analysed all the same: the
    notice that stands for its text goes through every module, and the
    report reads score 0, LOW RISK with the low-risk badge, no finding
    and the four essential elements missing; the notice of the PDF parser
    is itself flagged as vague, for its word [could]. *)
Theorem unreadable_file_scored_low (f : file) (name : text) :
  let d := App.start_analysis f name in
  is_Some (metadata (App.parsed d) !! "error") →
  raw_text (App.parsed d) ∈ notices
  ∧ sections (App.parsed d) = []
  ∧ composite_score (App.risks d) = 0%Z
  ∧ level (App.risks d) = "LOW RISK"
  ∧ App.badge (level (App.risks d)) = "risk-low"
  ∧ high (App.risks d) = [] ∧ medium (App.risks d) = []
  ∧ low (App.risks d) = []
  ∧ map LegalNLPEngine.sentence (App.ambiguous d)
    = (if bool_decide (raw_text (App.parsed d)
                       = str "Could not extract text from PDF")
       then [raw_text (App.parsed d)] else [])
  ∧ map status (App.compliance d)
    = ["MISSING"; "MISSING"; "MISSING"; "MISSING"].
Proof.
  intros d Herr. unfold d, App.start_analysis in *. cbv zeta in *.
  cbn [App.parsed App.risks App.ambiguous App.compliance] in *.
  rewrite sections_of_raw_text.
  pose proof (parse_document_notice f (App.file_ext name) Herr) as Hn.
  split; [exact Hn|]. revert Hn.
  generalize (raw_text (parse_document f (App.file_ext name))).
  intros t Ht. unfold notices in Ht.
  apply list_elem_of_In in Ht. simpl in Ht.
  destruct Ht as [<-|[<-|[<-|[]]]];
    repeat match goal with |- _ ∧ _ => split end; vm_compute; reflexivity.
Qed.

Lemma unreadable_file_witness :
  is_Some (metadata (App.parsed (App.start_analysis unreadable
                                   (str "deed.pdf"))) !! "error")
  ∧ level (App.risks (App.start_analysis unreadable (str "deed.pdf")))
    = "LOW RISK".
Proof.
  assert (is_Some (metadata (App.parsed (App.start_analysis unreadable
                                           (str "deed.pdf"))) !! "error"))
    as H by (vm_compute; eauto).
  split; [exact H|].
  exact (proj1 (proj2 (proj2 (proj2
           (unreadable_file_scored_low unreadable (str "deed.pdf") H))))).
Defined.

End Surroundings.

(* ===================================================================== *)
(** ** What the entity patterns capture *)
(* ===================================================================== *)

Section Captures.

Import LegalNLPEngine.

Variable t : text.

Lemma slice_nat_empty (a : nat) : a ≤ length t → slice_nat t a a = [].
Proof.
  intros Ha. unfold slice_nat. rewrite slice_inside by lia.
  by rewrite Nat.sub_diag.
Qed.

Lemma good_advance s x u :
  good t s → rest s = x :: u →
  good t (advance x u s) ∧ slice_nat t (pos s) (S (pos s)) = [x].
Proof.
  intros (Hr & Hp & Hc) Hs. rewrite Hr in Hs.
  assert (pos s < length t) as Hlt.
  { apply (f_equal length) in Hs. rewrite length_drop in Hs. simpl in Hs. lia. }
  split.
  - split; [|split; [simpl; lia|done]]. simpl.
    replace (S (pos s)) with (pos s + 1) by lia.
    rewrite <- drop_drop, Hs. done.
  - unfold slice_nat. rewrite slice_inside by lia.
    replace (S (pos s) - pos s) with 1 by lia. by rewrite Hs.
Qed.

Lemma eat_clean (f : N → bool) (pure : bool) :
  (pure = true → ∀ x, f x = true → is_digit x = false) →
  clean_matcher t pure (eat f).
Proof.
  intros Hf k s res Hg. unfold eat.
  destruct (rest s) as [|x u] eqn:Hs; [done|].
  destruct (f x) eqn:Hx; [|done]. intros Hk.
  destruct (good_advance s x u Hg Hs) as [Hg' Hsl].
  exists (advance x u s). split; [done|]. split; [simpl; lia|].
  split; [|done]. intros Hp. simpl. rewrite Hsl.
  constructor; [by apply Hf|constructor].
Qed.

Lemma digit_free_join (a b c : nat) :
  a ≤ b → b ≤ c → c ≤ length t →
  digit_free (slice_nat t a b) → digit_free (slice_nat t b c) →
  digit_free (slice_nat t a c).
Proof.
  intros Hab Hbc Hc H1 H2. rewrite (slice_nat_split t a b c) by done.
  by apply Forall_app.
Qed.

Lemma rep_loop_clean lo hi body k (pure : bool) :
  clean_matcher t pure body →
  ∀ fuel cnt s res,
    good t s → rep_loop lo hi body k fuel cnt s = Some res →
    ∃ s', good t s' ∧ pos s ≤ pos s'
          ∧ (pure = true → digit_free (slice_nat t (pos s) (pos s')))
          ∧ k s' = Some res.
Proof.
  intros Hbody. induction fuel as [|fuel IH]; intros cnt s res Hg; simpl; [done|].
  assert (k s = Some res →
          ∃ s', good t s' ∧ pos s ≤ pos s'
                ∧ (pure = true → digit_free (slice_nat t (pos s) (pos s')))
                ∧ k s' = Some res) as Hstop.
  { intros Hk. exists s. split; [done|]. split; [lia|]. split; [|done].
    intros _. rewrite slice_nat_empty; [constructor|apply Hg]. }
  destruct (under_max cnt hi).
  - destruct (body _ s) as [res'|] eqn:Hb.
    + intros [= ->]. apply Hbody in Hb as (s1 & Hg1 & Hp1 & Hd1 & Hk1); [|done].
      destruct (length (rest s1) <? length (rest s)); [|done].
      apply IH in Hk1 as (s2 & Hg2 & Hp2 & Hd2 & Hk2); [|done].
      exists s2. split; [done|]. split; [lia|]. split; [|done].
      intros Hp. eapply (digit_free_join _ (pos s1)); eauto. apply Hg2.
    + destruct (lo <=? cnt); [done|done].
  - destruct (lo <=? cnt); [done|done].
Qed.

Lemma lit_match_no_digit ic c x :
  negb (is_digit c) && negb (is_digit (lower_cp c)) = true →
  lit_match ic c x = true → is_digit x = false.
Proof.
  rewrite andb_true_iff, !negb_true_iff. intros [Hc Hl].
  unfold lit_match. destruct (ic && iscased c).
  - unfold same_letter. intros H. destruct (is_digit x) eqn:E; [|done].
    rewrite (digit_not_letter x E) in H.
    apply orb_true_iff in H as [H%N.eqb_eq|H]; [congruence|].
    apply existsb_exists in H as (k & Hk & Hxk%N.eqb_eq). subst k.
    by rewrite (fixes_no_digit _ _ Hk) in E.
  - intros H%N.eqb_eq. by subst.
Qed.

(** The matcher never lets a group of literals capture a digit. *)
Lemma rmatch_clean ic r :
  groups_digit_free r = true →
  clean_matcher t (no_digit_regex r) (rmatch ic r).
Proof.
  induction r as [|c| |neg items| |r1 IH1 r2 IH2|r1 IH1 r2 IH2|lo hi r IH|i r IH];
    intros Hgr; cbn [rmatch no_digit_regex groups_digit_free] in *.
  - intros k s res Hg Hk. exists s. split; [done|]. split; [lia|].
    split; [|done]. intros _. rewrite slice_nat_empty; [constructor|apply Hg].
  - apply eat_clean. intros Hp x. by apply lit_match_no_digit.
  - by apply eat_clean.
  - by apply eat_clean.
  - intros k s res Hg. destruct (xorb _ _); [|done]. intros Hk.
    exists s. split; [done|]. split; [lia|].
    split; [|done]. intros _. rewrite slice_nat_empty; [constructor|apply Hg].
  - apply andb_true_iff in Hgr as [G1 G2].
    intros k s res Hg H.
    apply (IH1 G1) in H as (s1 & Hg1 & Hp1 & Hd1 & H); [|done].
    apply (IH2 G2) in H as (s2 & Hg2 & Hp2 & Hd2 & H); [|done].
    exists s2. split; [done|]. split; [lia|]. split; [|done].
    intros [P1 P2]%andb_true_iff.
    eapply (digit_free_join _ (pos s1)); eauto. apply Hg2.
  - apply andb_true_iff in Hgr as [G1 G2].
    intros k s res Hg.
    destruct (rmatch ic r1 k s) as [res'|] eqn:H1.
    + intros [= ->]. apply (IH1 G1) in H1 as (s1 & Hg1 & Hp1 & Hd1 & H); [|done].
      exists s1. split; [done|]. split; [lia|]. split; [|done].
      intros [P1 P2]%andb_true_iff. by apply Hd1.
    + intros H2. apply (IH2 G2) in H2 as (s1 & Hg1 & Hp1 & Hd1 & H); [|done].
      exists s1. split; [done|]. split; [lia|]. split; [|done].
      intros [P1 P2]%andb_true_iff. by apply Hd1.
  - intros k s res Hg H. eapply rep_loop_clean in H; [done|by apply IH|done].
  - apply andb_true_iff in Hgr as [P G].
    intros k s res Hg H.
    apply (IH G) in H as (s1 & Hg1 & Hp1 & Hd1 & H); [|done].
    exists (set_cap i (pos s) (pos s1) s1).
    split; [|split; [simpl; lia|split; [by intros _; apply Hd1|done]]].
    destruct Hg1 as (Hr1 & Hl1 & Hc1). split; [done|]. split; [done|].
    simpl. constructor; [by apply Hd1|done].
Qed.

Lemma scan_clean p fuel : ∀ ma s,
  groups_digit_free (body p) = true → good t s →
  Forall (λ m, Forall (λ c, digit_free (slice_nat t c.2.1 c.2.2)) (m_caps m))
         (scan p fuel ma s).
Proof.
  induction fuel as [|fuel IH]; intros ma s Hgr Hg; simpl; [constructor|].
  destruct (match_at p ma s) as [s'|] eqn:Hm.
  - unfold match_at in Hm.
    apply (rmatch_clean _ _ Hgr) in Hm as (s1 & Hg1 & _ & _ & Hk); [|done].
    destruct (ma && (pos s1 =? pos s)); [done|]. injection Hk as <-.
    constructor; [apply Hg1|]. apply IH; [done|].
    destruct Hg1 as (H1 & H2 & _). split; [done|]. split; [done|]. constructor.
  - destruct (rest s) as [|x u] eqn:Hs; [constructor|].
    apply IH; [done|]. by apply (good_advance s x u).
Qed.

Lemma group_text_clean p m i :
  groups_digit_free (body p) = true → m ∈ finditer p t →
  digit_free (group_text t m i).
Proof.
  intros Hgr Hm. unfold group_text.
  destruct (cap_lookup i (m_caps m)) as [[a b]|] eqn:Hc; [|constructor].
  assert (good t {| pos := 0; rest := t; prev := None; caps := [] |}) as Hg.
  { split; [done|]. split; [simpl; lia|constructor]. }
  pose proof (scan_clean p (2 * length t + 2) false _ Hgr Hg) as H.
  eapply Forall_forall in H; [|exact Hm].
  clear Hm. induction (m_caps m) as [|[j sp] cs IH]; [done|].
  apply Forall_cons in H as [H1 H2]. simpl in Hc.
  destruct (i =? j); [by injection Hc as ->|by apply IH].
Qed.

(** What a pattern with groups adds to [matches] has no digit when its
    groups are made of literals. *)
Lemma found_items_clean p :
  groups_digit_free (body p) = true → 1 ≤ ngroups p →
  Forall digit_free (found_items (findall p t)).
Proof.
  intros Hgr Hn. unfold findall.
  destruct (ngroups p) as [|[|n]] eqn:E; [lia| |].
  - simpl. apply Forall_forall. intros x Hx%list_elem_of_In.
    apply in_map_iff in Hx as (m & <- & Hm%list_elem_of_In).
    by eapply group_text_clean.
  - assert (Forall (Forall digit_free)
              (map (λ m, map (group_text t m) (seq 1 (S (S n))))
                   (finditer p t))) as Hall.
    { apply Forall_forall. intros g Hg%list_elem_of_In.
      apply in_map_iff in Hg as (m & <- & Hm%list_elem_of_In).
      apply Forall_forall. intros x Hx%list_elem_of_In.
      apply in_map_iff in Hx as (i & <- & _). by eapply group_text_clean. }
    destruct (map _ (finditer p t)) as [|g gs] eqn:Hmap; [constructor|].
    unfold found_items. apply Forall_forall. intros x Hx%list_elem_of_In.
    apply in_concat in Hx as (l & Hl & Hx).
    apply in_map_iff in Hl as (g' & <- & Hg').
    apply list_elem_of_In, list_elem_of_filter in Hx as [_ Hx].
    apply list_elem_of_In in Hg'.
    eapply Forall_forall in Hall; [|exact Hg'].
    by eapply Forall_forall in Hall.
Qed.

Lemma collect_clean (ps : list pattern) :
  Forall (λ p, groups_digit_free (body p) = true ∧ 1 ≤ ngroups p) ps →
  Forall digit_free (collect ps t).
Proof.
  unfold collect. intros Hps.
  assert (∀ acc, Forall digit_free acc →
            Forall digit_free
              (fold_left (λ matches p, matches ++ found_items (findall p t))
                         ps acc)) as H.
  { induction Hps as [|p ps [Hg Hn] _ IH]; intros acc Hacc; simpl; [done|].
    apply IH, Forall_app. split; [done|by apply found_items_clean]. }
  apply H. constructor.
Qed.

End Captures.

Section DurationClaims.

Import LegalNLPEngine.

(** X21. No string of the duration category holds a digit: the
    patterns capture only the unit (days, weeks, months, years) or the
    words [term of] and [period of], never the figure in front of the
    unit.  So for [30 days] the category holds [days]. *)
Theorem durations_hold_no_figure :
  (∀ t : text,
     Forall digit_free (custom_entities (extract_entities t) "duration"))
  ∧ custom_entities (extract_entities (str "for a period of 12 months"))
                    "duration"
    ≡ₚ [str "months"; str "period of"].
Proof.
  split.
  - intros t. destruct (custom_entities_lookup t) as (_ & _ & _ & ->).
    apply Forall_forall. intros x Hx.
    apply (proj1 (proj2 (list_of_set_spec _) x)) in Hx.
    pose proof (collect_clean t duration_patterns) as H.
    eapply Forall_forall in H; [exact H| |exact Hx].
    unfold duration_patterns. repeat constructor.
  - vm_compute. 
    match goal with
    | |- [?a; ?b] ≡ₚ [?b; ?a] => apply Permutation_swap
    | |- _ => reflexivity
    end.
Qed.

End DurationClaims.

(* ===================================================================== *)
(** ** Letter case *)
(* ===================================================================== *)

Section LetterCase.

Import RiskAnalyzer.

Lemma low_cp_blind (x : N) : case_blind x = true.
Proof.
  destruct (N.lt_ge_cases x 256) as [Hlt|Hge].
  - revert x Hlt. apply latin1_forall. vm_compute. reflexivity.
  - assert (low_cp x = x) as Hx.
    { unfold low_cp. by destruct (N.ltb_spec x 256); [lia|]. }
    unfold case_blind. rewrite !Hx, !N.eqb_refl, !eqb_reflx. done.
Qed.

Lemma low_cp_facts (x : N) :
  lower_cp (low_cp x) = lower_cp x
  ∧ is_space (low_cp x) = is_space x
  ∧ is_digit (low_cp x) = is_digit x
  ∧ is_word (low_cp x) = is_word x
  ∧ (low_cp x =? 10)%N = (x =? 10)%N
  ∧ (low_cp x = x ∨ iscased x = true ∧ iscased (low_cp x) = true).
Proof.
  pose proof (low_cp_blind x) as H. unfold case_blind in H.
  rewrite !andb_true_iff in H.
  destruct H as (((((H1 & H2) & H3) & H4) & H5) & H6).
  apply N.eqb_eq in H1. apply eqb_prop in H2, H3, H4, H5.
  repeat split; try done.
  apply orb_true_iff in H6 as [H6%N.eqb_eq|H6%andb_true_iff]; auto.
Qed.

(** A code point without case is its own lower-case form and has no
    extra case. *)
Lemma uncased_fixed (c : N) :
  iscased c = false → lower_cp c = c ∧ fixes c = [].
Proof.
  intros Hc. split.
  - assert (implb (negb (iscased c)) (lower_cp c =? c)%N = true) as H.
    { apply (lower_cp_cases (λ x y, implb (negb (iscased x)) (y =? x)%N));
        [reflexivity|reflexivity|].
      intros y _. rewrite N.eqb_refl. apply implb_true_r. }
    rewrite Hc in H. by apply N.eqb_eq.
  - unfold fixes. destruct (c <? 181)%N.
    + destruct (N.eqb_spec c 105) as [->|_]; [done|].
      destruct (N.eqb_spec c 115) as [->|_]; [done|done].
    + destruct (assoc c extra_cases) as [l|] eqn:E; [|done].
      apply assoc_In in E.
      assert (forallb (λ kv, iscased kv.1) extra_cases = true) as H
        by reflexivity.
      rewrite forallb_forall in H. specialize (H _ E). simpl in H. congruence.
Qed.

Lemma same_letter_uncased (c y : N) :
  iscased c = false → same_letter (lower_cp c) y = (y =? c)%N.
Proof.
  intros [-> Hf]%uncased_fixed. unfold same_letter. rewrite Hf. simpl.
  apply orb_false_r.
Qed.

(** Nothing without case tells a code point from its lower-case form. *)
Lemma eqb_uncased (c x : N) :
  iscased c = false → (low_cp x =? c)%N = (x =? c)%N.
Proof.
  intros Hc. destruct (low_cp_facts x) as (_ & _ & _ & _ & _ & [->|[H1 H2]]);
    [done|].
  destruct (N.eqb_spec (low_cp x) c) as [E1|_], (N.eqb_spec x c) as [E2|_];
    congruence.
Qed.

Lemma lit_match_lower (c x : N) :
  lit_match true c (low_cp x) = lit_match true c x.
Proof.
  unfold lit_match. cbn [andb]. destruct (iscased c) eqn:Ec.
  - by destruct (low_cp_facts x) as (-> & _).
  - by apply eqb_uncased.
Qed.

Lemma item_match_lower it x :
  item_cased it = false →
  item_match true it (low_cp x) = item_match true it x.
Proof.
  destruct (low_cp_facts x) as (_ & H2 & H3 & H4 & _).
  destruct it as [c|lo hi| | |]; cbn [item_match item_cased]; intros Hc;
    try done.
  - rewrite !same_letter_uncased by done. by apply eqb_uncased.
  - induction (N_range lo hi) as [|r rs IH]; [done|]. cbn [existsb] in *.
    apply orb_false_iff in Hc as [Hr Hrs].
    rewrite !same_letter_uncased by done.
    by rewrite (eqb_uncased r x Hr), (IH Hrs).
Qed.

Lemma set_match_lower neg items x :
  set_match true neg items (low_cp x) = set_match true neg items x.
Proof.
  unfold set_match. cbn [andb].
  destruct (existsb item_cased items) eqn:E.
  - by destruct (low_cp_facts x) as (-> & _).
  - f_equal. induction items as [|it items IH]; [done|]. cbn [existsb] in *.
    apply orb_false_iff in E as [E1 E2].
    by rewrite (item_match_lower it x E1), (IH E2).
Qed.

Lemma eat_lower (f : N → bool) k k' :
  (∀ x, f (low_cp x) = f x) →
  same_up_to_case k k' → same_up_to_case (eat f k) (eat f k').
Proof.
  intros Hf Hk s. unfold eat. cbn [low_state rest].
  destruct (rest s) as [|x u]; [done|]. cbn [map].
  rewrite Hf. destruct (f x); [|done]. apply (Hk (advance x u s)).
Qed.

Lemma rep_loop_lower lo hi body body' :
  (∀ k k', same_up_to_case k k' → same_up_to_case (body k) (body' k')) →
  ∀ fuel cnt k k', same_up_to_case k k' →
    same_up_to_case (rep_loop lo hi body k fuel cnt)
                    (rep_loop lo hi body' k' fuel cnt).
Proof.
  intros Hbody. induction fuel as [|fuel IH]; intros cnt k k' Hk s; [done|].
  cbn [rep_loop].
  assert (same_up_to_case
            (λ s', if length (rest s') <? length (rest s)
                   then rep_loop lo hi body k fuel (S cnt) s' else None)
            (λ s', if length (rest s') <? length (rest (low_state s))
                   then rep_loop lo hi body' k' fuel (S cnt) s' else None))
    as Hin.
  { intros s'. cbn [low_state rest]. rewrite !length_map.
    destruct (_ <? _); [by apply IH|done]. }
  destruct (under_max cnt hi).
  - rewrite (Hbody _ _ Hin s).
    destruct (body _ s); [done|]. cbn [option_map].
    destruct (lo <=? cnt); [apply Hk|done].
  - destruct (lo <=? cnt); [apply Hk|done].
Qed.

(** A pattern under [(?i)] runs on the lower-cased subject as on the
    subject itself. *)
Lemma rmatch_lower r : ∀ k k',
  same_up_to_case k k' →
  same_up_to_case (rmatch true r k) (rmatch true r k').
Proof.
  induction r as [|c| |neg items| |r1 IH1 r2 IH2|r1 IH1 r2 IH2|lo hi r IH|i r IH];
    intros k k' Hk; cbn [rmatch].
  - done.
  - apply eat_lower; [|done]. intros x. apply lit_match_lower.
  - apply eat_lower; [|done]. intros x.
    by destruct (low_cp_facts x) as (_ & _ & _ & _ & -> & _).
  - apply eat_lower; [|done]. intros x. apply set_match_lower.
  - intros s. cbn [low_state prev rest].
    assert (is_word_opt (option_map low_cp (prev s)) = is_word_opt (prev s))
      as ->.
    { destruct (prev s) as [x|]; [|done]. simpl.
      by destruct (low_cp_facts x) as (_ & _ & _ & -> & _). }
    assert (is_word_opt (head (map low_cp (rest s)))
            = is_word_opt (head (rest s))) as ->.
    { destruct (rest s) as [|x u]; [done|]. simpl.
      by destruct (low_cp_facts x) as (_ & _ & _ & -> & _). }
    destruct (xorb _ _); [apply Hk|done].
  - apply IH1. by apply IH2.
  - intros s. rewrite (IH1 _ _ Hk s).
    destruct (rmatch true r1 k s); [done|]. apply (IH2 _ _ Hk s).
  - intros s. cbn [low_state rest]. rewrite length_map.
    apply (rep_loop_lower lo hi _ _ IH); done.
  - intros s. apply (IH (λ s', k (set_cap i (pos s) (pos s') s'))
                        (λ s', k' (set_cap i (pos (low_state s)) (pos s') s'))).
    intros s'. apply (Hk (set_cap i (pos s) (pos s') s')).
Qed.

Lemma scan_lower p : ignorecase p = true →
  ∀ fuel ma s, scan p fuel ma (low_state s) = scan p fuel ma s.
Proof.
  intros Hp. induction fuel as [|fuel IH]; intros ma s; [done|].
  cbn [scan].
  assert (match_at p ma (low_state s) = option_map low_state (match_at p ma s))
    as ->.
  { unfold match_at. rewrite Hp. apply rmatch_lower.
    intros s'. cbn [low_state pos]. by destruct (ma && _). }
  destruct (match_at p ma s) as [s'|]; cbn [option_map].
  - cbn [low_state pos caps]. f_equal. apply (IH _ (restart s')).
  - cbn [low_state rest]. destruct (rest s) as [|x u]; [done|].
    cbn [map]. apply (IH false (advance x u s)).
Qed.

Lemma finditer_lower p t :
  ignorecase p = true → finditer p (map low_cp t) = finditer p t.
Proof.
  intros Hp. unfold finditer. rewrite length_map.
  apply (scan_lower p Hp _ false
           {| pos := 0; rest := t; prev := None; caps := [] |}).
Qed.

(** Up to U+00FF [str.lower] works code point by code point. *)
Lemma lower_latin1 (t : text) :
  Forall (λ c, (c < 256)%N) t → lower t = map low_cp t.
Proof.
  unfold lower. generalize (@nil N).
  induction t as [|c t IH]; intros before Ht; [done|].
  apply Forall_cons in Ht as [Hc Ht]. cbn [lower_from map].
  rewrite (IH _ Ht). unfold lower_full, low_cp.
  destruct (N.eqb_spec c 931) as [->|_]; [lia|].
  destruct (N.eqb_spec c 304) as [->|_]; [lia|].
  by destruct (N.ltb_spec c 256); [|lia].
Qed.

Lemma finditer_same_case p (t1 t2 : text) :
  ignorecase p = true → map low_cp t1 = map low_cp t2 →
  finditer p t1 = finditer p t2.
Proof.
  intros Hp Heq.
  by rewrite <- (finditer_lower p t1), <- (finditer_lower p t2), Heq.
Qed.

Lemma places_same_case (t1 t2 : text) (cats : list (string * list pattern)) :
  Forall (λ c, Forall (λ p, ignorecase p = true) (snd c)) cats →
  map low_cp t1 = map low_cp t2 →
  map place (findings_for t1 cats) = map place (findings_for t2 cats).
Proof.
  intros Hcats Heq. unfold findings_for.
  induction Hcats as [|c cats Hc _ IH]; [done|].
  cbn [flat_map]. rewrite !map_app, IH. f_equal.
  induction Hc as [|p ps Hp _ IHp]; [done|].
  cbn [flat_map]. rewrite !map_app, IHp. f_equal.
  rewrite (finditer_same_case p t1 t2 Hp Heq).
  rewrite !map_map. done.
Qed.

(** X23. Letter case plays no part in the verdict: two texts of code
    points up to U+00FF that are equal once lower-cased get findings of
    the same categories at the same places, hence the same score and
    level, and the same compliance entries. *)
Theorem verdict_ignores_case (t1 t2 : text)
        (ents1 ents2 : gmap string LegalNLPEngine.value)
        (contract_type : string) :
  Forall (λ c, (c < 256)%N) (t1 ++ t2) →
  lower t1 = lower t2 →
  let r1 := analyze_contract t1 ents1 in
  let r2 := analyze_contract t2 ents2 in
  map place (high r1) = map place (high r2)
  ∧ map place (medium r1) = map place (medium r2)
  ∧ map place (low r1) = map place (low r2)
  ∧ composite_score r1 = composite_score r2
  ∧ level r1 = level r2
  ∧ check_indian_compliance t1 contract_type
    = check_indian_compliance t2 contract_type.
Proof.
  intros [Hlat1 Hlat2]%Forall_app Heq r1 r2.
  rewrite (lower_latin1 t1 Hlat1), (lower_latin1 t2 Hlat2) in Heq.
  destruct (report_tiers t1 ents1) as (Hh1 & Hm1 & Hl1).
  destruct (report_tiers t2 ents2) as (Hh2 & Hm2 & Hl2).
  fold r1 in Hh1, Hm1, Hl1. fold r2 in Hh2, Hm2, Hl2.
  assert (map place (high r1) = map place (high r2)) as Hh.
  { rewrite Hh1, Hh2. apply places_same_case; [|done].
    repeat constructor. }
  assert (map place (medium r1) = map place (medium r2)) as Hm.
  { rewrite Hm1, Hm2. apply places_same_case; [|done].
    repeat constructor. }
  assert (map place (low r1) = map place (low r2)) as Hl.
  { rewrite Hl1, Hl2. apply places_same_case; [|done].
    repeat constructor. }
  assert (composite_score r1 = composite_score r2) as Hs.
  { pose proof (report_score t1 ents1) as S1.
    pose proof (report_score t2 ents2) as S2.
    cbv zeta in S1, S2. fold r1 in S1. fold r2 in S2. rewrite S1, S2.
    apply (f_equal length) in Hh, Hm, Hl. rewrite !length_map in Hh, Hm, Hl.
    by rewrite Hh, Hm, Hl. }
  repeat split; try done.
  - pose proof (report_level t1 ents1) as L1.
    pose proof (report_level t2 ents2) as L2.
    cbv zeta in L1, L2. fold r1 in L1. fold r2 in L2.
    by rewrite L1, L2, Hs.
  - rewrite !check_indian_compliance_unfold.
    assert (Forall (λ e, ignorecase (snd e) = true) essential_elements) as Hci
      by (repeat constructor).
    induction Hci as [|e es He _ IH]; [done|].
    cbn [map]. rewrite IH. f_equal. unfold check_element, search.
    by rewrite (finditer_same_case (snd e) t1 t2 He Heq).
Qed.

Lemma verdict_ignores_case_witness :
  Forall (λ c, (c < 256)%N)
         (str "TERMINATE AT WILL" ++ str "Terminate at Will")
  ∧ lower (str "TERMINATE AT WILL") = lower (str "Terminate at Will")
  ∧ level (analyze_contract (str "TERMINATE AT WILL") ∅)
    = level (analyze_contract (str "Terminate at Will") ∅).
Proof.
  assert (Forall (λ c, (c < 256)%N)
            (str "TERMINATE AT WILL" ++ str "Terminate at Will")) as H1.
  { vm_compute. repeat constructor. }
  assert (lower (str "TERMINATE AT WILL") = lower (str "Terminate at Will"))
    as H2 by reflexivity.
  split; [exact H1|]. split; [exact H2|].
  exact (proj1 (proj2 (proj2 (proj2 (proj2
           (verdict_ignores_case _ _ ∅ ∅ "general" H1 H2)))))).
Defined.

End LetterCase.
